(** * Voice agent platform: speech segmentation, sessions and orchestration

    A shallow embedding of [src/core/asr_api.py] (VADProcessor, StreamState,
    ASRService) and of the conversation logic of [src/agents/agent.py]
    (VoiceAgent), with the properties the specification states about them.

    Conventions of the embedding.
    - Python integers are [Z]; sample counts are never bounded.
    - Audio samples and energies are exact rationals [Q].  A sample decoded
      from 16-bit PCM is [v / 32768], which float32 represents exactly; the
      mean a NumPy reduction computes is rounded, here it is exact.
    - Wall-clock readings ([time.time()]) and generated identifiers
      ([uuid.uuid4()]) are read from a [World] that is threaded through the
      operations that consult them.
    - Text is [string], one [ascii] per code point below 256. *)

From Stdlib Require Import ZArith QArith Qabs Bool List Ascii String Lia.
From Stdlib.Strings Require Import Byte.
From stdpp Require Import gmap strings list.
Import ListNotations.

Local Open Scope Z_scope.

(** ** Rational comparisons as Python evaluates them *)

Definition Qgtb (x y : Q) : bool := negb (Qle_bool x y).

(* max(a, b): the first argument is kept unless the second is greater. *)
Definition py_max (a b : Q) : Q := if Qgtb b a then b else a.
(* min(a, b): the first argument is kept unless the second is smaller. *)
Definition py_min (a b : Q) : Q := if Qgtb a b then b else a.

(* int(x / 1000) for an integer x: true division, truncated toward zero. *)
Definition ms_to_samples (ms rate : Z) : Z := Z.quot (ms * rate) 1000.

Module VAD.

(** *** class VADProcessor *)

Record DebugStats := {
  speech_segments : Z;
  silence_segments : Z;
  utterance_ends : Z;
  max_speech_energy : Q;
  min_speech_energy : Q;
  avg_speech_energy : Q;
  speech_energy_samples : Z
}.

Definition fresh_stats : DebugStats :=
  {| speech_segments := 0; silence_segments := 0; utterance_ends := 0;
     max_speech_energy := 0%Q; min_speech_energy := 1%Q;
     avg_speech_energy := 0%Q; speech_energy_samples := 0 |}.

Record VADProcessor := {
  threshold : Q;
  sample_rate : Z;
  speech_pad_samples : Z;
  min_speech_samples : Z;
  min_silence_samples : Z;
  max_silence_samples : Z;
  is_speech : bool;
  silence_count : Z;
  speech_count : Z;
  padding_count : Z;
  in_padding : bool;
  debug_stats : DebugStats
}.

(* VADProcessor.__init__ *)
Definition init (threshold : Q) (speech_pad_ms min_speech_duration_ms
    min_silence_duration_ms sample_rate max_silence_duration_ms : Z) : VADProcessor :=
  {| threshold := threshold;
     sample_rate := sample_rate;
     speech_pad_samples := ms_to_samples speech_pad_ms sample_rate;
     min_speech_samples := ms_to_samples min_speech_duration_ms sample_rate;
     min_silence_samples := ms_to_samples min_silence_duration_ms sample_rate;
     max_silence_samples := ms_to_samples max_silence_duration_ms sample_rate;
     is_speech := false;
     silence_count := 0;
     speech_count := 0;
     padding_count := 0;
     in_padding := false;
     debug_stats := fresh_stats |}.

(* The keyword defaults of __init__. *)
Definition default_threshold : Q := 1 # 100.
Definition init_default : VADProcessor :=
  init default_threshold 300 100 500 16000 10000.

(** Field assignments ([self.f = x]). *)

Definition set_threshold (x : Q) (v : VADProcessor) : VADProcessor :=
  {| threshold := x; sample_rate := sample_rate v;
     speech_pad_samples := speech_pad_samples v;
     min_speech_samples := min_speech_samples v;
     min_silence_samples := min_silence_samples v;
     max_silence_samples := max_silence_samples v;
     is_speech := is_speech v; silence_count := silence_count v;
     speech_count := speech_count v; padding_count := padding_count v;
     in_padding := in_padding v; debug_stats := debug_stats v |}.

Definition set_speech_pad_samples (x : Z) (v : VADProcessor) : VADProcessor :=
  {| threshold := threshold v; sample_rate := sample_rate v;
     speech_pad_samples := x;
     min_speech_samples := min_speech_samples v;
     min_silence_samples := min_silence_samples v;
     max_silence_samples := max_silence_samples v;
     is_speech := is_speech v; silence_count := silence_count v;
     speech_count := speech_count v; padding_count := padding_count v;
     in_padding := in_padding v; debug_stats := debug_stats v |}.

Definition set_min_speech_samples (x : Z) (v : VADProcessor) : VADProcessor :=
  {| threshold := threshold v; sample_rate := sample_rate v;
     speech_pad_samples := speech_pad_samples v;
     min_speech_samples := x;
     min_silence_samples := min_silence_samples v;
     max_silence_samples := max_silence_samples v;
     is_speech := is_speech v; silence_count := silence_count v;
     speech_count := speech_count v; padding_count := padding_count v;
     in_padding := in_padding v; debug_stats := debug_stats v |}.

Definition set_min_silence_samples (x : Z) (v : VADProcessor) : VADProcessor :=
  {| threshold := threshold v; sample_rate := sample_rate v;
     speech_pad_samples := speech_pad_samples v;
     min_speech_samples := min_speech_samples v;
     min_silence_samples := x;
     max_silence_samples := max_silence_samples v;
     is_speech := is_speech v; silence_count := silence_count v;
     speech_count := speech_count v; padding_count := padding_count v;
     in_padding := in_padding v; debug_stats := debug_stats v |}.

(* The five state variables, assigned together. *)
Definition with_state (sp : bool) (sil spc pad : Z) (inp : bool)
    (v : VADProcessor) : VADProcessor :=
  {| threshold := threshold v; sample_rate := sample_rate v;
     speech_pad_samples := speech_pad_samples v;
     min_speech_samples := min_speech_samples v;
     min_silence_samples := min_silence_samples v;
     max_silence_samples := max_silence_samples v;
     is_speech := sp; silence_count := sil;
     speech_count := spc; padding_count := pad;
     in_padding := inp; debug_stats := debug_stats v |}.

Definition set_debug_stats (d : DebugStats) (v : VADProcessor) : VADProcessor :=
  {| threshold := threshold v; sample_rate := sample_rate v;
     speech_pad_samples := speech_pad_samples v;
     min_speech_samples := min_speech_samples v;
     min_silence_samples := min_silence_samples v;
     max_silence_samples := max_silence_samples v;
     is_speech := is_speech v; silence_count := silence_count v;
     speech_count := speech_count v; padding_count := padding_count v;
     in_padding := in_padding v; debug_stats := d |}.

Definition set_is_speech (b : bool) (v : VADProcessor) : VADProcessor :=
  with_state b (silence_count v) (speech_count v) (padding_count v) (in_padding v) v.
Definition set_silence_count (x : Z) (v : VADProcessor) : VADProcessor :=
  with_state (is_speech v) x (speech_count v) (padding_count v) (in_padding v) v.
Definition set_speech_count (x : Z) (v : VADProcessor) : VADProcessor :=
  with_state (is_speech v) (silence_count v) x (padding_count v) (in_padding v) v.
Definition set_padding_count (x : Z) (v : VADProcessor) : VADProcessor :=
  with_state (is_speech v) (silence_count v) (speech_count v) x (in_padding v) v.
Definition set_in_padding (b : bool) (v : VADProcessor) : VADProcessor :=
  with_state (is_speech v) (silence_count v) (speech_count v) (padding_count v) b v.

(** Counters of the statistics dictionary. *)

Definition bump_speech_segments (d : DebugStats) : DebugStats :=
  {| speech_segments := speech_segments d + 1;
     silence_segments := silence_segments d;
     utterance_ends := utterance_ends d;
     max_speech_energy := max_speech_energy d;
     min_speech_energy := min_speech_energy d;
     avg_speech_energy := avg_speech_energy d;
     speech_energy_samples := speech_energy_samples d |}.

Definition bump_silence_segments (d : DebugStats) : DebugStats :=
  {| speech_segments := speech_segments d;
     silence_segments := silence_segments d + 1;
     utterance_ends := utterance_ends d;
     max_speech_energy := max_speech_energy d;
     min_speech_energy := min_speech_energy d;
     avg_speech_energy := avg_speech_energy d;
     speech_energy_samples := speech_energy_samples d |}.

Definition bump_utterance_ends (d : DebugStats) : DebugStats :=
  {| speech_segments := speech_segments d;
     silence_segments := silence_segments d;
     utterance_ends := utterance_ends d + 1;
     max_speech_energy := max_speech_energy d;
     min_speech_energy := min_speech_energy d;
     avg_speech_energy := avg_speech_energy d;
     speech_energy_samples := speech_energy_samples d |}.

(* VADProcessor.update_energy_stats *)
Definition update_energy_stats (energy : Q) (speech : bool) (d : DebugStats)
    : DebugStats :=
  if speech then
    let n := speech_energy_samples d + 1 in
    {| speech_segments := speech_segments d;
       silence_segments := silence_segments d;
       utterance_ends := utterance_ends d;
       max_speech_energy := py_max (max_speech_energy d) energy;
       min_speech_energy := py_min (min_speech_energy d) energy;
       avg_speech_energy :=
         ((avg_speech_energy d * inject_Z (n - 1) + energy) / inject_Z n)%Q;
       speech_energy_samples := n |}
  else d.

(** The chunk measurements of [process]. *)

Definition len (audio_chunk : list Q) : Z := Z.of_nat (length audio_chunk).

(* np.mean(np.abs(audio_chunk)).  On the empty chunk NumPy yields NaN; the
   value is then never compared, because the all-zero test below holds
   vacuously and the statistics ignore the energy of a non-speech chunk. *)
Definition mean_abs (audio_chunk : list Q) : Q :=
  (fold_right Qplus 0 (map Qabs audio_chunk) / inject_Z (len audio_chunk))%Q.

(* np.all(audio_chunk == 0) *)
Definition all_zero (audio_chunk : list Q) : bool :=
  forallb (fun x => Qeq_bool x 0) audio_chunk.

(* current_is_speech, lines 139-142 *)
Definition current_is_speech (v : VADProcessor) (audio_chunk : list Q) : bool :=
  if all_zero audio_chunk then false
  else Qgtb (mean_abs audio_chunk) (threshold v).

(* The two utterance-ending branches assign the same values. *)
Definition end_utterance (v : VADProcessor) : VADProcessor :=
  set_debug_stats (bump_utterance_ends (debug_stats v))
    (with_state false 0 0 0 false v).

(* VADProcessor.process: the new object state and (is_speech, utterance_end). *)
Definition process (v : VADProcessor) (audio_chunk : list Q)
    : VADProcessor * (bool * bool) :=
  let energy := mean_abs audio_chunk in
  let speech := current_is_speech v audio_chunk in
  let v := set_debug_stats (update_energy_stats energy speech (debug_stats v)) v in
  if speech then
    let v := set_debug_stats (bump_speech_segments (debug_stats v)) v in
    let v := set_silence_count 0 v in
    let v := set_speech_count (speech_count v + len audio_chunk) v in
    let v := if speech_count v >=? min_speech_samples v
             then set_is_speech true v else v in
    let v := set_in_padding false v in
    let v := set_padding_count 0 v in
    (v, (is_speech v, false))
  else
    let v := set_debug_stats (bump_silence_segments (debug_stats v)) v in
    let v := set_silence_count (silence_count v + len audio_chunk) v in
    if is_speech v then
      let v := if negb (in_padding v)
               then set_padding_count 0 (set_in_padding true v) else v in
      if in_padding v then
        let v := set_padding_count (padding_count v + len audio_chunk) v in
        if (padding_count v >=? speech_pad_samples v)
           && (silence_count v >=? min_silence_samples v) then
          let v := end_utterance v in (v, (is_speech v, true))
        else if silence_count v >=? max_silence_samples v then
          let v := end_utterance v in (v, (is_speech v, true))
        else (v, (is_speech v, false))
      else (v, (is_speech v, false))
    else (v, (is_speech v, false)).

(* VADProcessor.reset *)
Definition reset (v : VADProcessor) : VADProcessor :=
  set_debug_stats fresh_stats (with_state false 0 0 0 false v).

(* Feeding chunks one after the other, collecting what each call returns. *)
Fixpoint feed (v : VADProcessor) (chunks : list (list Q))
    : VADProcessor * list (bool * bool) :=
  match chunks with
  | [] => (v, [])
  | c :: rest =>
      let '(v1, r) := process v c in
      let '(v2, rs) := feed v1 rest in
      (v2, r :: rs)
  end.

End VAD.

(** ** Python text operations used by the sessions and the agent *)

Module PyStr.

Local Open Scope N_scope.

(* str.isspace() of one character, on code points below 256. *)
Definition isspace (c : ascii) : bool :=
  let n := N_of_ascii c in
  ((9 <=? n) && (n <=? 13)) || ((28 <=? n) && (n <=? 32))
  || (n =? 133) || (n =? 160).

(* str.lower() of one character, on code points below 256. *)
Definition lower_char (c : ascii) : ascii :=
  let n := N_of_ascii c in
  if ((65 <=? n) && (n <=? 90))
     || ((192 <=? n) && (n <=? 222) && negb (n =? 215))
  then ascii_of_N (n + 32) else c.

Local Close Scope N_scope.

Fixpoint lower (s : string) : string :=
  match s with
  | EmptyString => EmptyString
  | String c r => String (lower_char c) (lower r)
  end.

Fixpoint lstrip (s : string) : string :=
  match s with
  | EmptyString => EmptyString
  | String c r => if isspace c then lstrip r else s
  end.

Fixpoint rstrip (s : string) : string :=
  match s with
  | EmptyString => EmptyString
  | String c r =>
      match rstrip r with
      | EmptyString => if isspace c then EmptyString else String c EmptyString
      | r' => String c r'
      end
  end.

(* str.strip() with no argument *)
Definition strip (s : string) : string := rstrip (lstrip s).

(* bool(s) *)
Definition truthy (s : string) : bool :=
  match s with EmptyString => false | _ => true end.

(* needle in haystack *)
Fixpoint contains (needle haystack : string) : bool :=
  String.prefix needle haystack
  || match haystack with
     | EmptyString => false
     | String _ r => contains needle r
     end.

(* sep.join(parts) *)
Fixpoint join (sep : string) (parts : list string) : string :=
  match parts with
  | [] => EmptyString
  | [p] => p
  | p :: rest => p +:+ sep +:+ join sep rest
  end.

(* One of the characters of the class [.!?]. *)
Definition is_terminal (c : ascii) : bool :=
  (Ascii.eqb c "."%char) || (Ascii.eqb c "!"%char) || (Ascii.eqb c "?"%char).

(* re.split(r'(?<=[.!?])\s+', text), scanning left to right.  A separator is
   a maximal run of whitespace whose first character follows one of . ! ?
   ([after_terminal]); [in_sep] holds while such a run is being consumed.
   The result is the piece that starts at the current position and the
   pieces after it. *)
Fixpoint split_scan (after_terminal in_sep : bool) (s : string)
    : string * list string :=
  match s with
  | EmptyString => (EmptyString, [])
  | String c r =>
      if isspace c && (in_sep || after_terminal) then
        let '(p, ps) := split_scan false true r in
        if in_sep then (p, ps) else (EmptyString, p :: ps)
      else
        let '(p, ps) := split_scan (is_terminal c) false r in
        (String c p, ps)
  end.

Definition re_split_sentences (text : string) : list string :=
  let '(p, ps) := split_scan false false text in p :: ps.

End PyStr.

(** ** The world outside: clock and identifier generator *)

Record World := {
  clock : nat -> Q;       (* the successive readings of time.time() *)
  ticks : nat;            (* readings taken so far *)
  uuids : nat -> string;  (* the successive values of str(uuid.uuid4()) *)
  drawn : nat             (* identifiers generated so far *)
}.

Definition M (A : Type) : Type := World -> A * World.

Definition ret {A} (x : A) : M A := fun w => (x, w).
Definition bind {A B} (m : M A) (k : A -> M B) : M B :=
  fun w => let '(x, w1) := m w in k x w1.

Notation "'let*' x ':=' c1 'in' c2" := (bind c1 (fun x => c2))
  (at level 10, x name, c1 at level 100, c2 at level 200).

Definition time_time : M Q :=
  fun w => (clock w (ticks w),
            {| clock := clock w; ticks := S (ticks w);
               uuids := uuids w; drawn := drawn w |}).

Definition uuid4 : M string :=
  fun w => (uuids w (drawn w),
            {| clock := clock w; ticks := ticks w;
               uuids := uuids w; drawn := S (drawn w) |}).

(** ** class StreamState *)

Module Session.

Record StreamState := {
  stream_id : string;
  session_id : string;
  vad : VAD.VADProcessor;
  audio_buffer : list (list Q);
  is_speech : bool;
  last_update : Q;
  intermediate_transcript : string;
  final_transcript : string;
  completed_utterances : list string;
  is_active : bool;
  speech_duration_seconds : Q;
  total_audio_duration_seconds : Q;
  utterance_count : Z;
  last_utterance_time : option Q;
  created_at : Q;
  last_utterance_ended_at : option Q
}.

(* StreamState.__init__ with vad_config=None, as every caller passes it. *)
Definition init (stream_id : string) : M StreamState :=
  let* sid := uuid4 in
  let* t_update := time_time in
  let* t_created := time_time in
  ret {| stream_id := stream_id;
         session_id := sid;
         vad := VAD.init (1 # 100) 300 100 500 16000 10000;
         audio_buffer := [];
         is_speech := false;
         last_update := t_update;
         intermediate_transcript := EmptyString;
         final_transcript := EmptyString;
         completed_utterances := [];
         is_active := true;
         speech_duration_seconds := 0%Q;
         total_audio_duration_seconds := 0%Q;
         utterance_count := 0;
         last_utterance_time := None;
         created_at := t_created;
         last_utterance_ended_at := None |}.

(** Field assignments. *)

Definition set_vad (x : VAD.VADProcessor) (s : StreamState) : StreamState :=
  {| stream_id := stream_id s; session_id := session_id s; vad := x;
     audio_buffer := audio_buffer s; is_speech := is_speech s;
     last_update := last_update s;
     intermediate_transcript := intermediate_transcript s;
     final_transcript := final_transcript s;
     completed_utterances := completed_utterances s;
     is_active := is_active s;
     speech_duration_seconds := speech_duration_seconds s;
     total_audio_duration_seconds := total_audio_duration_seconds s;
     utterance_count := utterance_count s;
     last_utterance_time := last_utterance_time s;
     created_at := created_at s;
     last_utterance_ended_at := last_utterance_ended_at s |}.

Definition set_audio_buffer (x : list (list Q)) (s : StreamState) : StreamState :=
  {| stream_id := stream_id s; session_id := session_id s; vad := vad s;
     audio_buffer := x; is_speech := is_speech s;
     last_update := last_update s;
     intermediate_transcript := intermediate_transcript s;
     final_transcript := final_transcript s;
     completed_utterances := completed_utterances s;
     is_active := is_active s;
     speech_duration_seconds := speech_duration_seconds s;
     total_audio_duration_seconds := total_audio_duration_seconds s;
     utterance_count := utterance_count s;
     last_utterance_time := last_utterance_time s;
     created_at := created_at s;
     last_utterance_ended_at := last_utterance_ended_at s |}.

Definition set_is_speech (x : bool) (s : StreamState) : StreamState :=
  {| stream_id := stream_id s; session_id := session_id s; vad := vad s;
     audio_buffer := audio_buffer s; is_speech := x;
     last_update := last_update s;
     intermediate_transcript := intermediate_transcript s;
     final_transcript := final_transcript s;
     completed_utterances := completed_utterances s;
     is_active := is_active s;
     speech_duration_seconds := speech_duration_seconds s;
     total_audio_duration_seconds := total_audio_duration_seconds s;
     utterance_count := utterance_count s;
     last_utterance_time := last_utterance_time s;
     created_at := created_at s;
     last_utterance_ended_at := last_utterance_ended_at s |}.

Definition set_last_update (x : Q) (s : StreamState) : StreamState :=
  {| stream_id := stream_id s; session_id := session_id s; vad := vad s;
     audio_buffer := audio_buffer s; is_speech := is_speech s;
     last_update := x;
     intermediate_transcript := intermediate_transcript s;
     final_transcript := final_transcript s;
     completed_utterances := completed_utterances s;
     is_active := is_active s;
     speech_duration_seconds := speech_duration_seconds s;
     total_audio_duration_seconds := total_audio_duration_seconds s;
     utterance_count := utterance_count s;
     last_utterance_time := last_utterance_time s;
     created_at := created_at s;
     last_utterance_ended_at := last_utterance_ended_at s |}.

Definition set_intermediate_transcript (x : string) (s : StreamState)
    : StreamState :=
  {| stream_id := stream_id s; session_id := session_id s; vad := vad s;
     audio_buffer := audio_buffer s; is_speech := is_speech s;
     last_update := last_update s;
     intermediate_transcript := x;
     final_transcript := final_transcript s;
     completed_utterances := completed_utterances s;
     is_active := is_active s;
     speech_duration_seconds := speech_duration_seconds s;
     total_audio_duration_seconds := total_audio_duration_seconds s;
     utterance_count := utterance_count s;
     last_utterance_time := last_utterance_time s;
     created_at := created_at s;
     last_utterance_ended_at := last_utterance_ended_at s |}.

Definition set_final_transcript (x : string) (s : StreamState) : StreamState :=
  {| stream_id := stream_id s; session_id := session_id s; vad := vad s;
     audio_buffer := audio_buffer s; is_speech := is_speech s;
     last_update := last_update s;
     intermediate_transcript := intermediate_transcript s;
     final_transcript := x;
     completed_utterances := completed_utterances s;
     is_active := is_active s;
     speech_duration_seconds := speech_duration_seconds s;
     total_audio_duration_seconds := total_audio_duration_seconds s;
     utterance_count := utterance_count s;
     last_utterance_time := last_utterance_time s;
     created_at := created_at s;
     last_utterance_ended_at := last_utterance_ended_at s |}.

Definition set_completed_utterances (x : list string) (s : StreamState)
    : StreamState :=
  {| stream_id := stream_id s; session_id := session_id s; vad := vad s;
     audio_buffer := audio_buffer s; is_speech := is_speech s;
     last_update := last_update s;
     intermediate_transcript := intermediate_transcript s;
     final_transcript := final_transcript s;
     completed_utterances := x;
     is_active := is_active s;
     speech_duration_seconds := speech_duration_seconds s;
     total_audio_duration_seconds := total_audio_duration_seconds s;
     utterance_count := utterance_count s;
     last_utterance_time := last_utterance_time s;
     created_at := created_at s;
     last_utterance_ended_at := last_utterance_ended_at s |}.

(* The metrics of add_audio, assigned together. *)
Definition set_metrics (speech total : Q) (count : Z) (t_utt t_ended : option Q)
    (s : StreamState) : StreamState :=
  {| stream_id := stream_id s; session_id := session_id s; vad := vad s;
     audio_buffer := audio_buffer s; is_speech := is_speech s;
     last_update := last_update s;
     intermediate_transcript := intermediate_transcript s;
     final_transcript := final_transcript s;
     completed_utterances := completed_utterances s;
     is_active := is_active s;
     speech_duration_seconds := speech;
     total_audio_duration_seconds := total;
     utterance_count := count;
     last_utterance_time := t_utt;
     created_at := created_at s;
     last_utterance_ended_at := t_ended |}.

Definition set_speech_duration_seconds (x : Q) (s : StreamState) : StreamState :=
  set_metrics x (total_audio_duration_seconds s) (utterance_count s)
    (last_utterance_time s) (last_utterance_ended_at s) s.
Definition set_total_audio_duration_seconds (x : Q) (s : StreamState)
    : StreamState :=
  set_metrics (speech_duration_seconds s) x (utterance_count s)
    (last_utterance_time s) (last_utterance_ended_at s) s.
Definition set_utterance_count (x : Z) (s : StreamState) : StreamState :=
  set_metrics (speech_duration_seconds s) (total_audio_duration_seconds s) x
    (last_utterance_time s) (last_utterance_ended_at s) s.
Definition set_last_utterance_time (x : option Q) (s : StreamState)
    : StreamState :=
  set_metrics (speech_duration_seconds s) (total_audio_duration_seconds s)
    (utterance_count s) x (last_utterance_ended_at s) s.
Definition set_last_utterance_ended_at (x : option Q) (s : StreamState)
    : StreamState :=
  set_metrics (speech_duration_seconds s) (total_audio_duration_seconds s)
    (utterance_count s) (last_utterance_time s) x s.

(* StreamState.update_last_active *)
Definition update_last_active (s : StreamState) : M StreamState :=
  let* t := time_time in ret (set_last_update t s).

(* StreamState.add_audio.  The second component is the returned tuple, or
   None when [len(audio_chunk) / sample_rate] raises ZeroDivisionError; the
   timestamp has been refreshed by then. *)
Definition add_audio (s : StreamState) (audio_chunk : list Q) (sample_rate : Z)
    : M (StreamState * option (bool * bool * string)) :=
  let* s := update_last_active s in
  if sample_rate =? 0 then ret (s, None)
  else
    let chunk_duration :=
      (inject_Z (VAD.len audio_chunk) / inject_Z sample_rate)%Q in
    let s := set_total_audio_duration_seconds
               (total_audio_duration_seconds s + chunk_duration)%Q s in
    let '(v, (speech, utterance_end)) := VAD.process (vad s) audio_chunk in
    let s := set_vad v s in
    let s := set_is_speech speech s in
    let s := if speech
             then set_speech_duration_seconds
                    (speech_duration_seconds s + chunk_duration)%Q
                    (set_audio_buffer (audio_buffer s ++ [audio_chunk]) s)
             else s in
    if utterance_end then
      let s := set_utterance_count (utterance_count s + 1) s in
      let* t1 := time_time in
      let s := set_last_utterance_time (Some t1) s in
      let* t2 := time_time in
      let s := set_last_utterance_ended_at (Some t2) s in
      ret (s, Some (speech, utterance_end, intermediate_transcript s))
    else ret (s, Some (speech, utterance_end, intermediate_transcript s)).

(* StreamState.get_audio_buffer: np.concatenate of the buffered chunks. *)
Definition get_audio_buffer (s : StreamState) : list Q :=
  List.concat (audio_buffer s).

(* StreamState.clear_audio_buffer *)
Definition clear_audio_buffer (s : StreamState) : StreamState :=
  set_audio_buffer [] s.

(* StreamState.add_completed_utterance *)
Definition add_completed_utterance (s : StreamState) (transcript : string)
    : StreamState :=
  if PyStr.truthy transcript && PyStr.truthy (PyStr.strip transcript) then
    set_final_transcript transcript
      (set_completed_utterances (completed_utterances s ++ [transcript]) s)
  else s.

(* StreamState.reset *)
Definition reset (s : StreamState) : M StreamState :=
  let s := set_vad (VAD.reset (vad s)) s in
  let s := set_audio_buffer [] s in
  let s := set_is_speech false s in
  let s := set_intermediate_transcript EmptyString s in
  let s := set_final_transcript EmptyString s in
  update_last_active s.

End Session.

(** ** class ASRService *)

Module Service.

Import Session.

Record ASRService := {
  session_timeout_sec : Z;
  streams : gmap string StreamState
}.

Definition set_streams (m : gmap string StreamState) (svc : ASRService)
    : ASRService :=
  {| session_timeout_sec := session_timeout_sec svc; streams := m |}.

(* The dictionaries process_audio returns. *)
Record ProcessResult := {
  r_stream_id : string;
  r_error : option string;
  r_is_speech : bool;
  r_utterance_end : bool;
  r_transcript : string;
  r_is_final : bool;
  r_all_utterances : option (list string)
}.

(* What a call of process_audio comes to: a dictionary, or the
   ZeroDivisionError of add_audio, which nothing on the way catches. *)
Inductive Outcome :=
| Returned (r : ProcessResult)
| Raised.

(** Decoding of 16-bit PCM: np.frombuffer(audio_bytes, dtype=np.int16) on a
    little-endian machine.  It raises ValueError exactly when the length is
    odd; [inl] carries the message of the exception. *)

Definition int16_le (lo hi : byte) : Z :=
  let u := Z.of_N (Byte.to_N lo) + 256 * Z.of_N (Byte.to_N hi) in
  if u <? 32768 then u else u - 65536.

Definition frombuffer_error : string :=
  "buffer size must be a multiple of element size".

Fixpoint frombuffer_int16 (audio_bytes : list byte) : string + list Z :=
  match audio_bytes with
  | [] => inr []
  | [_] => inl frombuffer_error
  | lo :: hi :: rest =>
      match frombuffer_int16 rest with
      | inl e => inl e
      | inr xs => inr (int16_le lo hi :: xs)
      end
  end.

(* .astype(np.float32) / 32768.0 *)
Definition to_float (xs : list Z) : list Q :=
  map (fun x => (inject_Z x / 32768)%Q) xs.

(* ASRService.create_stream *)
Definition create_stream (stream_id : option string) (svc : ASRService)
    : M (string * ASRService) :=
  let* id := match stream_id with
             | Some id => ret id
             | None => uuid4
             end in
  match streams svc !! id with
  | Some s =>
      let* s := reset s in
      ret (id, set_streams (<[id := s]> (streams svc)) svc)
  | None =>
      let* s := init id in
      ret (id, set_streams (<[id := s]> (streams svc)) svc)
  end.

(* ASRService.delete_stream *)
Definition delete_stream (stream_id : string) (svc : ASRService)
    : bool * ASRService :=
  match streams svc !! stream_id with
  | Some _ => (true, set_streams (delete stream_id (streams svc)) svc)
  | None => (false, svc)
  end.

(* ASRService.reset_stream *)
Definition reset_stream (stream_id : string) (svc : ASRService)
    : M (bool * ASRService) :=
  match streams svc !! stream_id with
  | Some s =>
      let* s := reset s in
      ret (true, set_streams (<[stream_id := s]> (streams svc)) svc)
  | None => ret (false, svc)
  end.

(* ASRService.configure_vad; None is the "not found" dictionary. *)
Definition configure_vad (stream_id : string) (threshold : option Q)
    (speech_pad_ms min_speech_ms min_silence_ms : option Z) (svc : ASRService)
    : option ASRService :=
  match streams svc !! stream_id with
  | None => None
  | Some s =>
      let v := vad s in
      let v := match threshold with
               | Some x => VAD.set_threshold x v
               | None => v
               end in
      let v := match speech_pad_ms with
               | Some ms => VAD.set_speech_pad_samples
                              (ms_to_samples ms (VAD.sample_rate v)) v
               | None => v
               end in
      let v := match min_speech_ms with
               | Some ms => VAD.set_min_speech_samples
                              (ms_to_samples ms (VAD.sample_rate v)) v
               | None => v
               end in
      let v := match min_silence_ms with
               | Some ms => VAD.set_min_silence_samples
                              (ms_to_samples ms (VAD.sample_rate v)) v
               | None => v
               end in
      Some (set_streams (<[stream_id := set_vad v s]> (streams svc)) svc)
  end.

Section ProcessAudio.

(* The transcription capability: preprocessor, model and decoder run on the
   buffered audio.  [inr] is the transcript, [inl] the message of an exception
   raised on the way. *)
Variable transcribe : list Q -> string + string.

Definition decode_failure (stream_id e : string) : ProcessResult :=
  {| r_stream_id := stream_id;
     r_error := Some ("Invalid audio data: " +:+ e);
     r_is_speech := false;
     r_utterance_end := false;
     r_transcript := EmptyString;
     r_is_final := false;
     r_all_utterances := None |}.

Definition asr_failure (stream_id e : string) (speech utterance_end : bool)
    (s : StreamState) : ProcessResult :=
  {| r_stream_id := stream_id;
     r_error := Some ("ASR processing error: " +:+ e);
     r_is_speech := speech;
     r_utterance_end := utterance_end;
     r_transcript := intermediate_transcript s;
     r_is_final := false;
     r_all_utterances := None |}.

Definition current_state (stream_id : string) (speech utterance_end : bool)
    (s : StreamState) : ProcessResult :=
  {| r_stream_id := stream_id;
     r_error := None;
     r_is_speech := speech;
     r_utterance_end := utterance_end;
     r_transcript := if utterance_end then final_transcript s
                     else intermediate_transcript s;
     r_is_final := utterance_end;
     r_all_utterances := Some (completed_utterances s) |}.

(* ASRService.process_audio, run without interference from other threads.
   The session object is looked up once and mutated in place; here the
   updated session is written back under its id. *)
Definition process_audio (stream_id : string) (audio_bytes : list byte)
    (sample_rate : Z) (svc : ASRService) : M (Outcome * ASRService) :=
  let* svc :=
    match streams svc !! stream_id with
    | Some _ => ret svc
    | None => let* r := create_stream (Some stream_id) svc in ret (snd r)
    end in
  match streams svc !! stream_id with
  | None => ret (Raised, svc)   (* unreachable: the id was just ensured *)
  | Some stream =>
      match frombuffer_int16 audio_bytes with
      | inl e => ret (Returned (decode_failure stream_id e), svc)
      | inr samples =>
          let audio_np := to_float samples in
          let* r := add_audio stream audio_np sample_rate in
          let '(stream, res) := r in
          let store s := set_streams (<[stream_id := s]> (streams svc)) svc in
          match res with
          | None => ret (Raised, store stream)
          | Some (speech, utterance_end, _) =>
              let buffered := get_audio_buffer stream in
              if 0 <? VAD.len buffered then
                match transcribe buffered with
                | inl e =>
                    ret (Returned (asr_failure stream_id e speech
                                     utterance_end stream),
                         store stream)
                | inr transcript =>
                    let stream :=
                      if utterance_end then
                        clear_audio_buffer
                          (if PyStr.truthy (PyStr.strip transcript)
                           then add_completed_utterance stream transcript
                           else stream)
                      else set_intermediate_transcript transcript stream in
                    ret (Returned (current_state stream_id speech
                                     utterance_end stream),
                         store stream)
                end
              else
                ret (Returned (current_state stream_id speech utterance_end
                                 stream),
                     store stream)
          end
      end
  end.

End ProcessAudio.

End Service.

(** ** class VoiceAgent and its clients *)

Module Agent.

(* The JSON object the extraction service answers with; {} is []. *)
Definition OrderData : Type := list (string * string).

(** *** ASRClient: the audio transport *)

Inductive Sender := ForwardingLoop | KeepaliveLoop.

(* One audio frame handed to websocket.send by send_audio_chunk.  The caller
   and the value of is_speaking at the time of the call are recorded with
   the bytes. *)
Record SentAudio := {
  sender : Sender;
  speaking_at_send : bool;
  payload : list byte
}.

Record ASRClient := {
  is_connected : bool;
  last_audio_sent_time : Q;
  wire : list SentAudio
}.

Definition set_is_connected (b : bool) (c : ASRClient) : ASRClient :=
  {| is_connected := b; last_audio_sent_time := last_audio_sent_time c;
     wire := wire c |}.

(* ASRClient.send_audio_chunk.  [delivered] tells whether websocket.send
   returned rather than raised; [now] is the clock reading taken after it. *)
Definition send_audio_chunk (frame : SentAudio) (delivered : bool) (now : Q)
    (c : ASRClient) : ASRClient :=
  if negb (is_connected c) then c
  else if delivered then
    {| is_connected := true; last_audio_sent_time := now;
       wire := wire c ++ [frame] |}
  else
    {| is_connected := false; last_audio_sent_time := last_audio_sent_time c;
       wire := wire c ++ [frame] |}.

(** *** LLMClient.extract_order *)

(* [http] is the decoded answer of the POST, None when the request raised. *)
Definition llm_extract_order (session_id : option string) (api_key : string)
    (http : option OrderData) : OrderData :=
  match session_id with
  | None => []
  | Some sid =>
      if negb (PyStr.truthy sid) then []
      else if negb (PyStr.truthy api_key) then []
      else match http with
           | Some result => result
           | None => []
           end
  end.

(** *** VoiceAgent *)

Record VoiceAgent := {
  asr_client : ASRClient;
  llm_session_id : option string;    (* llm_client.session_id *)
  synthesized : list string;         (* texts passed to tts_client.synthesize *)
  api_key : option string;           (* extraction_config.get('api_key') *)
  is_running : bool;
  is_speaking : bool;
  session_started : bool;
  silent_audio_chunk : list byte;
  conversation_finished : bool;
  extracted_order : option OrderData;
  stop_event : bool
}.

(* VoiceAgent.__init__; the optional callbacks stay None throughout. *)
Definition init (api_key : option string) : VoiceAgent :=
  {| asr_client := {| is_connected := false; last_audio_sent_time := 0%Q;
                      wire := [] |};
     llm_session_id := None;
     synthesized := [];
     api_key := api_key;
     is_running := false;
     is_speaking := false;
     session_started := false;
     silent_audio_chunk := repeat x00 3200;
     conversation_finished := false;
     extracted_order := None;
     stop_event := false |}.

Definition set_asr_client (c : ASRClient) (a : VoiceAgent) : VoiceAgent :=
  {| asr_client := c; llm_session_id := llm_session_id a;
     synthesized := synthesized a; api_key := api_key a;
     is_running := is_running a; is_speaking := is_speaking a;
     session_started := session_started a;
     silent_audio_chunk := silent_audio_chunk a;
     conversation_finished := conversation_finished a;
     extracted_order := extracted_order a; stop_event := stop_event a |}.

Definition set_llm_session_id (x : option string) (a : VoiceAgent) : VoiceAgent :=
  {| asr_client := asr_client a; llm_session_id := x;
     synthesized := synthesized a; api_key := api_key a;
     is_running := is_running a; is_speaking := is_speaking a;
     session_started := session_started a;
     silent_audio_chunk := silent_audio_chunk a;
     conversation_finished := conversation_finished a;
     extracted_order := extracted_order a; stop_event := stop_event a |}.

Definition set_synthesized (x : list string) (a : VoiceAgent) : VoiceAgent :=
  {| asr_client := asr_client a; llm_session_id := llm_session_id a;
     synthesized := x; api_key := api_key a;
     is_running := is_running a; is_speaking := is_speaking a;
     session_started := session_started a;
     silent_audio_chunk := silent_audio_chunk a;
     conversation_finished := conversation_finished a;
     extracted_order := extracted_order a; stop_event := stop_event a |}.

Definition set_is_running (x : bool) (a : VoiceAgent) : VoiceAgent :=
  {| asr_client := asr_client a; llm_session_id := llm_session_id a;
     synthesized := synthesized a; api_key := api_key a;
     is_running := x; is_speaking := is_speaking a;
     session_started := session_started a;
     silent_audio_chunk := silent_audio_chunk a;
     conversation_finished := conversation_finished a;
     extracted_order := extracted_order a; stop_event := stop_event a |}.

Definition set_is_speaking (x : bool) (a : VoiceAgent) : VoiceAgent :=
  {| asr_client := asr_client a; llm_session_id := llm_session_id a;
     synthesized := synthesized a; api_key := api_key a;
     is_running := is_running a; is_speaking := x;
     session_started := session_started a;
     silent_audio_chunk := silent_audio_chunk a;
     conversation_finished := conversation_finished a;
     extracted_order := extracted_order a; stop_event := stop_event a |}.

Definition set_session_started (x : bool) (a : VoiceAgent) : VoiceAgent :=
  {| asr_client := asr_client a; llm_session_id := llm_session_id a;
     synthesized := synthesized a; api_key := api_key a;
     is_running := is_running a; is_speaking := is_speaking a;
     session_started := x;
     silent_audio_chunk := silent_audio_chunk a;
     conversation_finished := conversation_finished a;
     extracted_order := extracted_order a; stop_event := stop_event a |}.

Definition set_silent_audio_chunk (x : list byte) (a : VoiceAgent) : VoiceAgent :=
  {| asr_client := asr_client a; llm_session_id := llm_session_id a;
     synthesized := synthesized a; api_key := api_key a;
     is_running := is_running a; is_speaking := is_speaking a;
     session_started := session_started a;
     silent_audio_chunk := x;
     conversation_finished := conversation_finished a;
     extracted_order := extracted_order a; stop_event := stop_event a |}.

Definition set_conversation_finished (x : bool) (a : VoiceAgent) : VoiceAgent :=
  {| asr_client := asr_client a; llm_session_id := llm_session_id a;
     synthesized := synthesized a; api_key := api_key a;
     is_running := is_running a; is_speaking := is_speaking a;
     session_started := session_started a;
     silent_audio_chunk := silent_audio_chunk a;
     conversation_finished := x;
     extracted_order := extracted_order a; stop_event := stop_event a |}.

Definition set_extracted_order (x : option OrderData) (a : VoiceAgent)
    : VoiceAgent :=
  {| asr_client := asr_client a; llm_session_id := llm_session_id a;
     synthesized := synthesized a; api_key := api_key a;
     is_running := is_running a; is_speaking := is_speaking a;
     session_started := session_started a;
     silent_audio_chunk := silent_audio_chunk a;
     conversation_finished := conversation_finished a;
     extracted_order := x; stop_event := stop_event a |}.

Definition set_stop_event (x : bool) (a : VoiceAgent) : VoiceAgent :=
  {| asr_client := asr_client a; llm_session_id := llm_session_id a;
     synthesized := synthesized a; api_key := api_key a;
     is_running := is_running a; is_speaking := is_speaking a;
     session_started := session_started a;
     silent_audio_chunk := silent_audio_chunk a;
     conversation_finished := conversation_finished a;
     extracted_order := extracted_order a; stop_event := x |}.

(** Connection management, as far as the loops below depend on it. *)

(* What the services answer while start() runs. *)
Record StartEnv := {
  asr_connects : bool;          (* asr_client.connect() *)
  llm_session : option string;  (* the id the LLM service answers with *)
  tts_session : bool;           (* tts_client.create_session() returned an id *)
  asr_stream : bool;            (* asr_client.start_stream() returned an id *)
  link_after : bool;            (* is_connected once the stream is set up *)
  start_time : Q
}.

Definition disconnected (a : VoiceAgent) : VoiceAgent :=
  set_asr_client (set_is_connected false (asr_client a)) a.

(* VoiceAgent.start *)
Definition start (env : StartEnv) (a : VoiceAgent) : bool * VoiceAgent :=
  if negb (asr_connects env) then (false, disconnected a)
  else
    let a := set_asr_client
               {| is_connected := true;
                  last_audio_sent_time := start_time env;
                  wire := wire (asr_client a) |} a in
    match llm_session env with
    | None => (false, disconnected a)
    | Some sid =>
        let a := set_llm_session_id (Some sid) a in
        if negb (PyStr.truthy sid) then (false, disconnected a)
        else if negb (tts_session env) then (false, disconnected a)
        else if negb (asr_stream env) then (false, disconnected a)
        else
          let a := set_asr_client
                     (set_is_connected (link_after env) (asr_client a)) a in
          let a := set_is_running true a in
          let a := set_session_started true a in
          let a := set_conversation_finished false a in
          let a := set_extracted_order None a in
          (true, a)
    end.

(* VoiceAgent.extract_order *)
Definition extract_order (http : option OrderData) (a : VoiceAgent)
    : VoiceAgent :=
  match api_key a with
  | None => a
  | Some key =>
      if negb (PyStr.truthy key) then a
      else
        let order_data := llm_extract_order (llm_session_id a) key http in
        set_extracted_order (Some order_data) a
  end.

(* VoiceAgent.finish_conversation *)
Definition finish_conversation (http : option OrderData) (a : VoiceAgent)
    : VoiceAgent :=
  if negb (is_running a) then a
  else extract_order http (set_conversation_finished true a).

(* VoiceAgent.stop *)
Definition stop (http : option OrderData) (a : VoiceAgent) : VoiceAgent :=
  let a := set_stop_event true a in
  let a := if is_connected (asr_client a) then disconnected a else a in
  let a := set_is_running false a in
  if conversation_finished a
     && match extracted_order a with None => true | Some _ => false end
  then extract_order http a
  else a.

(** *** Response handling: _process_with_llm *)

(* VoiceAgent._split_into_sentences *)
Definition _split_into_sentences (text : string) : list string :=
  PyStr.re_split_sentences text.

(* The local variables of one run of _process_with_llm. *)
Record Response := {
  full_response : string;
  buffer : string
}.

Definition synthesize (text : string) (a : VoiceAgent) : VoiceAgent :=
  set_synthesized (synthesized a ++ [text]) a.

(* Entry: the flag is raised before the stream is opened. *)
Definition llm_begin (a : VoiceAgent) : VoiceAgent * Response :=
  (set_is_speaking true a,
   {| full_response := EmptyString; buffer := EmptyString |}).

(* The body of the [async for] loop, for one fragment. *)
Definition llm_chunk (chunk : string) (st : VoiceAgent * Response)
    : VoiceAgent * Response :=
  let '(a, r) := st in
  let full := full_response r +:+ chunk in
  let buf := buffer r +:+ chunk in
  let sentences := _split_into_sentences buf in
  if (1 <? length sentences)%nat then
    let complete_sentences := List.removelast sentences in
    let text_to_speak := PyStr.join " " complete_sentences in
    let buf := List.last sentences EmptyString in
    (synthesize text_to_speak a, {| full_response := full; buffer := buf |})
  else (a, {| full_response := full; buffer := buf |}).

Definition closing_phrases : list string :=
  [ "thank you for your order"; "your order is confirmed";
    "is there anything else you need"; "goodbye" ]%string.

Definition ends_conversation (full : string) : bool :=
  existsb (fun phrase => PyStr.contains phrase (PyStr.lower full))
          closing_phrases.

(* After the stream: leftover text, wait for playback to drain, lower the
   flag, closing phrases. *)
Definition llm_end (http : option OrderData) (st : VoiceAgent * Response)
    : VoiceAgent :=
  let '(a, r) := st in
  let a := if PyStr.truthy (buffer r) then synthesize (buffer r) a else a in
  let a := set_is_speaking false a in
  if ends_conversation (full_response r) then finish_conversation http a
  else a.

(* The state when the generation stream is exhausted. *)
Definition llm_stream (chunks : list string) (a : VoiceAgent)
    : VoiceAgent * Response :=
  fold_left (fun st chunk => llm_chunk chunk st) chunks (llm_begin a).

(* VoiceAgent._process_with_llm, run to completion on a finite stream. *)
Definition _process_with_llm (chunks : list string) (http : option OrderData)
    (a : VoiceAgent) : VoiceAgent :=
  llm_end http (llm_stream chunks a).

(** *** Transcripts: _handle_transcription and the polling loop *)

Record Message := {
  msg_type : string;
  msg_is_final : bool;
  msg_transcript : string
}.

(* VoiceAgent._handle_transcription: the user input a response task is
   created for, if any. *)
Definition _handle_transcription (m : Message) : option string :=
  if String.eqb (msg_type m) "transcription" then
    if negb (PyStr.truthy (PyStr.strip (msg_transcript m))) then None
    else if msg_is_final m then Some (msg_transcript m)
    else None
  else None.

(* Lines 1373-1375 of _check_transcriptions; [msg] is what
   receive_transcriptions returned. *)
Definition poll_deliver (msg : option Message) (a : VoiceAgent)
    : option string :=
  match msg with
  | Some m => if negb (is_speaking a) then _handle_transcription m else None
  | None => None
  end.

(** *** Audio: the forwarding loop and the keepalive loop *)

(* Lines 1328-1332 of process_audio_stream. *)
Definition forward_send (audio_chunk : list byte) (delivered : bool) (now : Q)
    (a : VoiceAgent) : VoiceAgent :=
  if negb (is_speaking a) then
    set_asr_client
      (send_audio_chunk
         {| sender := ForwardingLoop; speaking_at_send := is_speaking a;
            payload := audio_chunk |}
         delivered now (asr_client a)) a
  else a.

(* One pass of the body of _keepalive_loop, up to its sleep. *)
Definition keepalive_body (current_time : Q) (delivered : bool) (now : Q)
    (a : VoiceAgent) : VoiceAgent :=
  if is_connected (asr_client a) then
    let time_since_last_audio :=
      (current_time - last_audio_sent_time (asr_client a))%Q in
    if Qgtb time_since_last_audio 1 || is_speaking a then
      set_asr_client
        (send_audio_chunk
           {| sender := KeepaliveLoop; speaking_at_send := is_speaking a;
              payload := silent_audio_chunk a |}
           delivered now (asr_client a)) a
    else a
  else a.

(** *** The event loop

    The coroutines of the agent run interleaved on one event loop; control
    changes hands only at an [await].  A [Step] is the code one coroutine
    runs between two such points. *)

Inductive TaskStatus := Created | Running | Done.

(* A task made by asyncio.create_task(self._process_with_llm(transcript)). *)
Record Task := {
  user_input : string;
  created_while_speaking : bool;
  status : TaskStatus;
  locals : Response
}.

Record Sys := {
  agent : VoiceAgent;
  first_chunk : bool;       (* local of process_audio_stream *)
  tasks : list Task
}.

Definition set_agent (a : VoiceAgent) (s : Sys) : Sys :=
  {| agent := a; first_chunk := first_chunk s; tasks := tasks s |}.

Definition set_tasks (ts : list Task) (s : Sys) : Sys :=
  {| agent := agent s; first_chunk := first_chunk s; tasks := ts |}.

Definition boot (api_key : option string) : Sys :=
  {| agent := init api_key; first_chunk := true; tasks := [] |}.

Inductive Step :=
| SStart (env : StartEnv)
| SForward (audio_chunk : list byte) (delivered : bool) (now : Q)
| SForwardResume (audio_chunk : list byte) (delivered : bool) (now : Q)
| SStreamEnd (http : option OrderData)
| SKeepalive (current_time : Q) (delivered : bool) (now : Q)
| SHeartbeat (alive : bool)
| SReconnect (connected_after : bool)
| SPoll (msg : option Message)
| STaskBegin (i : nat)
| STaskChunk (i : nat) (chunk : string)
| STaskEnd (i : nat) (http : option OrderData)
| SFinish (http : option OrderData)
| SStop (http : option OrderData).

Definition step (st : Step) (s : Sys) : Sys :=
  let a := agent s in
  match st with
  | SStart env =>
      (* process_audio_stream, lines 1298-1301 *)
      if is_running a then s else set_agent (snd (start env a)) s
  | SForward audio_chunk delivered now =>
      (* one pass of the [async for] body; a lost connection hands over to
         _reconnect_asr, see SReconnect and SForwardResume *)
      if stop_event a then s
      else
        let a := if first_chunk s
                 then set_silent_audio_chunk
                        (repeat x00 (length audio_chunk)) a
                 else a in
        let a := if is_connected (asr_client a)
                 then forward_send audio_chunk delivered now a else a in
        {| agent := a; first_chunk := false; tasks := tasks s |}
  | SForwardResume audio_chunk delivered now =>
      (* after _reconnect_asr returned inside the loop body *)
      if is_connected (asr_client a)
      then set_agent (forward_send audio_chunk delivered now a) s
      else s
  | SStreamEnd http =>
      (* the finally clause of process_audio_stream *)
      if conversation_finished a then s
      else set_agent (finish_conversation http a) s
  | SKeepalive current_time delivered now =>
      if stop_event a then s
      else set_agent (keepalive_body current_time delivered now a) s
  | SHeartbeat alive =>
      (* check_connection on a connected transport *)
      if stop_event a then s
      else if is_connected (asr_client a)
      then set_agent (set_asr_client
                        (set_is_connected alive (asr_client a)) a) s
      else s
  | SReconnect connected_after =>
      (* _reconnect_asr: control commands only, no audio frame *)
      set_agent (set_asr_client
                   (set_is_connected connected_after (asr_client a)) a) s
  | SPoll msg =>
      if stop_event a then s
      else if is_connected (asr_client a) then
        match poll_deliver msg a with
        | Some transcript =>
            set_tasks (tasks s ++
                       [{| user_input := transcript;
                           created_while_speaking := is_speaking a;
                           status := Created;
                           locals := {| full_response := EmptyString;
                                        buffer := EmptyString |} |}]) s
        | None => s
        end
      else s
  | STaskBegin i =>
      match tasks s !! i with
      | Some t =>
          match status t with
          | Created =>
              let '(a, r) := llm_begin a in
              {| agent := a; first_chunk := first_chunk s;
                 tasks := <[i := {| user_input := user_input t;
                                    created_while_speaking :=
                                      created_while_speaking t;
                                    status := Running; locals := r |}]>
                            (tasks s) |}
          | _ => s
          end
      | None => s
      end
  | STaskChunk i chunk =>
      match tasks s !! i with
      | Some t =>
          match status t with
          | Running =>
              let '(a, r) := llm_chunk chunk (a, locals t) in
              {| agent := a; first_chunk := first_chunk s;
                 tasks := <[i := {| user_input := user_input t;
                                    created_while_speaking :=
                                      created_while_speaking t;
                                    status := Running; locals := r |}]>
                            (tasks s) |}
          | _ => s
          end
      | None => s
      end
  | STaskEnd i http =>
      match tasks s !! i with
      | Some t =>
          match status t with
          | Running =>
              {| agent := llm_end http (a, locals t);
                 first_chunk := first_chunk s;
                 tasks := <[i := {| user_input := user_input t;
                                    created_while_speaking :=
                                      created_while_speaking t;
                                    status := Done; locals := locals t |}]>
                            (tasks s) |}
          | _ => s
          end
      | None => s
      end
  | SFinish http => set_agent (finish_conversation http a) s
  | SStop http => set_agent (stop http a) s
  end.

Definition run (steps : list Step) (s : Sys) : Sys :=
  fold_left (fun s st => step st s) steps s.

End Agent.

(** ** The idle-session reaper *)

Module Reaper.

Import Session Service.

(* Line 450: the session has been idle for longer than the timeout. *)
Definition idle (timeout : Z) (current_time : Q) (s : StreamState) : bool :=
  Qgtb (current_time - last_update s) (inject_Z timeout).

(* The ids collected in to_remove while the dictionary is scanned. *)
Definition to_remove (current_time : Q) (svc : ASRService) : list string :=
  map fst
    (List.filter
       (fun kv => idle (session_timeout_sec svc) current_time (snd kv))
       (map_to_list (streams svc))).

(* One pass of the body of _cleanup_sessions, after its sleep:
   [current_time] is the reading of the clock. *)
Definition cleanup_pass (current_time : Q) (svc : ASRService) : ASRService :=
  set_streams
    (fold_left (fun m stream_id => delete stream_id m)
       (to_remove current_time svc) (streams svc))
    svc.

End Reaper.

(** ** The WebSocket endpoint /ws *)

Module Gateway.

Import Session Service.

(* The dictionary ASRService.get_stream_state returns for a known id. *)
Record StateView := {
  v_stream_id : string;
  v_session_id : string;
  v_is_speech : bool;
  v_last_update : Q;
  v_intermediate_transcript : string;
  v_final_transcript : string;
  v_completed_utterances : list string;
  v_is_active : bool
}.

(* ASRService.get_stream_state; None is the "not found" dictionary. *)
Definition get_stream_state (stream_id : string) (svc : ASRService)
    : option StateView :=
  match streams svc !! stream_id with
  | None => None
  | Some s =>
      Some {| v_stream_id := stream_id;
              v_session_id := session_id s;
              v_is_speech := is_speech s;
              v_last_update := last_update s;
              v_intermediate_transcript := intermediate_transcript s;
              v_final_transcript := final_transcript s;
              v_completed_utterances := completed_utterances s;
              v_is_active := is_active s |}
  end.

(* A decoded command object, read with the defaults of command.get. *)
Record Command := {
  c_command : string;             (* command.get("command", "") *)
  c_stream_id : option string;
  c_threshold : option Q;
  c_speech_pad_ms : option Z;
  c_min_speech_ms : option Z;
  c_min_silence_ms : option Z
}.

(* What websocket.receive() delivers. *)
Inductive Incoming :=
| Disconnect                      (* type "websocket.disconnect" *)
| TextInvalid                     (* text on which json.loads raises *)
| TextCommand (c : Command)       (* text that decodes to an object *)
| Binary (audio_bytes : list byte).

(* What the endpoint sends back with send_json. *)
Inductive Reply :=
| Control (stream_id : option string) (message : option string)
| Final (stream_id : string) (state : option StateView)
| Error (message : string)
| State (stream_id : string) (state : option StateView)
| Transcription (stream_id : string) (is_final : bool) (transcript : string)
    (all_utterances : option (list string)).

(* connected_clients[client_id]["stream_id"], tested with [if stream_id:]. *)
Definition active (stream_id : option string) : option string :=
  match stream_id with
  | Some id => if PyStr.truthy id then Some id else None
  | None => None
  end.

(* What one pass of the connection loop comes to. *)
Record Handled := {
  replies : list Reply;
  service : ASRService;
  owned : option string;   (* connected_clients[client_id]["stream_id"] *)
  open : bool              (* false once the loop is left *)
}.

Section Endpoint.

Variable transcribe : list Q -> string + string.

Definition no_active_stream (svc : ASRService) (sid : option string)
    : Handled :=
  {| replies := [Error "No active stream"]; service := svc; owned := sid;
     open := true |}.

(* Lines 949-1049: the command dispatch. *)
Definition handle_command (c : Command) (svc : ASRService)
    (sid : option string) : M Handled :=
  if String.eqb (c_command c) "start" then
    let* r := create_stream (c_stream_id c) svc in
    ret {| replies := [Control (Some (fst r)) None]; service := snd r;
           owned := Some (fst r); open := true |}
  else if String.eqb (c_command c) "stop" then
    match active sid with
    | Some id =>
        let state := get_stream_state id svc in
        ret {| replies := [Final id state];
               service := snd (delete_stream id svc);
               owned := None; open := true |}
    | None => ret (no_active_stream svc sid)
    end
  else if String.eqb (c_command c) "reset" then
    match active sid with
    | Some id =>
        let* r := reset_stream id svc in
        ret {| replies := [Control None (Some "Stream reset"%string)];
               service := snd r; owned := sid; open := true |}
    | None => ret (no_active_stream svc sid)
    end
  else if String.eqb (c_command c) "configure_vad" then
    match active sid with
    | Some id =>
        match configure_vad id (c_threshold c) (c_speech_pad_ms c)
                (c_min_speech_ms c) (c_min_silence_ms c) svc with
        | None =>
            ret {| replies := [Error ("Stream " +:+ id +:+ " not found")];
                   service := svc; owned := sid; open := true |}
        | Some svc' =>
            ret {| replies := [Control None (Some "VAD configured"%string)];
                   service := svc'; owned := sid; open := true |}
        end
    | None => ret (no_active_stream svc sid)
    end
  else if String.eqb (c_command c) "get_state" then
    match active sid with
    | Some id =>
        ret {| replies := [State id (get_stream_state id svc)];
               service := svc; owned := sid; open := true |}
    | None => ret (no_active_stream svc sid)
    end
  else
    ret {| replies := [Error ("Unknown command: " +:+ c_command c)];
           service := svc; owned := sid; open := true |}.

(* Lines 1058-1094: a binary frame. *)
Definition handle_binary (audio_bytes : list byte) (svc : ASRService)
    (sid : option string) : M Handled :=
  let* r := match active sid with
            | Some id => ret (id, svc)
            | None => create_stream None svc
            end in
  let '(id, svc) := r in
  let* p := process_audio transcribe id audio_bytes 16000 svc in
  let '(outcome, svc) := p in
  match outcome with
  | Raised =>
      (* caught by the outer handler, which leaves the loop *)
      ret {| replies := []; service := svc; owned := Some id; open := false |}
  | Returned result =>
      match r_error result with
      | Some e =>
          ret {| replies := [Error e]; service := svc; owned := Some id;
                 open := true |}
      | None =>
          let reply :=
            if r_utterance_end result
            then Transcription id true (r_transcript result)
                   (Some (match r_all_utterances result with
                          | Some l => l
                          | None => []
                          end))
            else Transcription id false (r_transcript result) None in
          ret {| replies := [reply]; service := svc; owned := Some id;
                 open := true |}
      end
  end.

(* One pass of the [while True] loop of websocket_endpoint. *)
Definition handle (msg : Incoming) (svc : ASRService) (sid : option string)
    : M Handled :=
  match msg with
  | Disconnect =>
      ret {| replies := []; service := svc; owned := sid; open := false |}
  | TextInvalid =>
      ret {| replies := [Error "Invalid JSON command"]; service := svc;
             owned := sid; open := true |}
  | TextCommand c => handle_command c svc sid
  | Binary audio_bytes => handle_binary audio_bytes svc sid
  end.

(* The finally clause: the session the connection still owns is deleted. *)
Definition cleanup (svc : ASRService) (sid : option string) : ASRService :=
  match active sid with
  | Some id => snd (delete_stream id svc)
  | None => svc
  end.

(* The loop over the messages of one connection, up to the one that ends
   it; a peer that sends nothing more has disconnected. *)
Fixpoint serve_loop (msgs : list Incoming) (svc : ASRService)
    (sid : option string) : M (list Reply * ASRService * option string) :=
  match msgs with
  | [] => ret ([], svc, sid)
  | msg :: rest =>
      let* h := handle msg svc sid in
      if open h then
        let* r := serve_loop rest (service h) (owned h) in
        let '(out, svc', sid') := r in
        ret (replies h ++ out, svc', sid')
      else ret (replies h, service h, owned h)
  end.

(* websocket_endpoint for one connection: the replies sent and the service
   as the connection leaves it. *)
Definition websocket_endpoint (msgs : list Incoming) (svc : ASRService)
    : M (list Reply * ASRService) :=
  let* r := serve_loop msgs svc None in
  let '(out, svc', sid) := r in
  ret (out, cleanup svc' sid).

End Endpoint.

End Gateway.

(** ** Reconnection of the audio transport *)

Module Reconnect.

Import Agent.

(* How a command exchange on the socket ends: the server answers ok (with
   a non-empty stream id, for "start"), it answers something else, or the
   exchange raises. *)
Inductive Exchange := Accepted | Refused | Broken.

(* What the network does during one attempt. *)
Record Attempt := {
  connects : bool;       (* websockets.connect succeeds *)
  connected_at : Q;      (* the clock reading taken on success *)
  stream : Exchange;     (* the "start" command *)
  vad : Exchange         (* the "configure_vad" command *)
}.

(* ASRClient.disconnect.  is_connected is only ever set together with the
   socket, so a client without a socket is disconnected already. *)
Definition disconnect (c : ASRClient) : ASRClient := set_is_connected false c.

(* ASRClient.connect *)
Definition connect (ok : bool) (now : Q) (c : ASRClient) : ASRClient :=
  if ok then
    {| is_connected := true; last_audio_sent_time := now; wire := wire c |}
  else set_is_connected false c.

(* ASRClient.start_stream: whether a stream id came back. *)
Definition start_stream (x : Exchange) (c : ASRClient) : bool * ASRClient :=
  if negb (is_connected c) then (false, c)
  else match x with
       | Accepted => (true, c)
       | Refused => (false, c)
       | Broken => (false, set_is_connected false c)
       end.

(* ASRClient.configure_vad, called with a stream id in hand. *)
Definition configure_vad (x : Exchange) (c : ASRClient) : ASRClient :=
  if negb (is_connected c) then c
  else match x with
       | Broken => set_is_connected false c
       | _ => c
       end.

(* The [for attempt in range(...)] loop of _reconnect_asr, from attempt
   number [attempt] with [remaining] attempts to go. *)
Fixpoint reconnect_from (attempt remaining : nat) (net : nat -> Attempt)
    (has_vad_config : bool) (c : ASRClient) : bool * ASRClient :=
  match remaining with
  | O => (false, c)
  | S k =>
      let e := net attempt in
      let c := disconnect c in
      let c := connect (connects e) (connected_at e) c in
      if connects e then
        let '(got_stream, c) := start_stream (stream e) c in
        if got_stream then
          (true, if has_vad_config then configure_vad (vad e) c else c)
        else reconnect_from (S attempt) k net has_vad_config c
      else reconnect_from (S attempt) k net has_vad_config c
  end.

(* VoiceAgent._reconnect_asr: max_attempts = 3, attempts numbered from 1. *)
Definition _reconnect_asr (net : nat -> Attempt) (has_vad_config : bool)
    (c : ASRClient) : bool * ASRClient :=
  reconnect_from 1 3 net has_vad_config c.

End Reconnect.


(** ** Predicates used in the statements *)

Module VADSpec.

Import VAD.

(* The configuration fields of two detector states agree. *)
Definition same_config (v w : VADProcessor) : Prop :=
  threshold v = threshold w /\ sample_rate v = sample_rate w
  /\ speech_pad_samples v = speech_pad_samples w
  /\ min_speech_samples v = min_speech_samples w
  /\ min_silence_samples v = min_silence_samples w
  /\ max_silence_samples v = max_silence_samples w.

(* The detector is in speech and has seen [n] samples of silence since, all
   of them counted as padding. *)
Definition padded (n : Z) (v : VADProcessor) : Prop :=
  is_speech v = true /\ silence_count v = n
  /\ (if in_padding v then padding_count v else 0) = n.

(* The condition under which a non-speech chunk ends the utterance, on the
   counters as they stand after the chunk is added. *)
Definition ends (v : VADProcessor) (pad sil : Z) : bool :=
  ((pad >=? speech_pad_samples v) && (sil >=? min_silence_samples v))
  || (sil >=? max_silence_samples v).

End VADSpec.

Module TextSpec.

(* The text is empty or consists of whitespace only. *)
Fixpoint blank (s : string) : bool :=
  match s with
  | EmptyString => true
  | String c r => PyStr.isspace c && blank r
  end.

End TextSpec.

Module AgentSpec.

Import Agent.

(* A frame sent while the agent was speaking came from the keepalive loop
   and holds zero bytes only. *)
Definition frame_ok (f : SentAudio) : Prop :=
  speaking_at_send f = true ->
  sender f = KeepaliveLoop /\ payload f = repeat x00 (length (payload f)).

(* A response task was created while the agent was not speaking. *)
Definition task_ok (t : Task) : Prop := created_while_speaking t = false.

(* What every state the event loop reaches satisfies. *)
Definition well_formed (s : Sys) : Prop :=
  silent_audio_chunk (agent s)
  = repeat x00 (length (silent_audio_chunk (agent s)))
  /\ Forall frame_ok (wire (asr_client (agent s)))
  /\ Forall task_ok (tasks s).

(* Two agent states with the same frames on the wire and the same silence
   template. *)
Definition same_audio (a b : VoiceAgent) : Prop :=
  wire (asr_client a) = wire (asr_client b)
  /\ silent_audio_chunk a = silent_audio_chunk b.

End AgentSpec.

(** ** Concrete inputs for the examples *)

Module Sample.

(* A clock that advances by one second per reading and a generator that
   numbers its identifiers. *)
Definition world0 : World :=
  {| clock := fun n => inject_Z (Z.of_nat n);
     ticks := 0;
     uuids := fun n => String (ascii_of_nat (48 + n)) EmptyString;
     drawn := 0 |}.

(* A session as create_stream makes it. *)
Definition session0 : Session.StreamState :=
  fst (Session.init "s1" world0).

(* A service with no session yet. *)
Definition service0 : Service.ASRService :=
  {| Service.session_timeout_sec := 300; Service.streams := ∅ |}.

(* A transcription capability that answers every buffer with one word. *)
Definition transcribe0 (audio : list Q) : string + string := inr "hello"%string.

(* Services that all answer while the agent starts. *)
Definition start_env0 : Agent.StartEnv :=
  {| Agent.asr_connects := true;
     Agent.llm_session := Some "llm-1"%string;
     Agent.tts_session := true;
     Agent.asr_stream := true;
     Agent.link_after := true;
     Agent.start_time := 0%Q |}.

(* An agent with extraction configured, started. *)
Definition agent0 : Agent.VoiceAgent :=
  snd (Agent.start start_env0 (Agent.init (Some "key"%string))).

Definition order_a : Agent.OrderData := [("item", "tea")]%string.
Definition order_b : Agent.OrderData := [("item", "coffee")]%string.

(* A run of the event loop: the agent starts, forwards one chunk, receives
   a final transcript and begins to answer; while it speaks, a second chunk
   arrives, the keepalive loop fires and a second transcript is received. *)
Definition trace0 : list Agent.Step :=
  [ Agent.SStart start_env0;
    Agent.SForward [x01; x02] true 1%Q;
    Agent.SPoll (Some {| Agent.msg_type := "transcription";
                         Agent.msg_is_final := true;
                         Agent.msg_transcript := "hi" |});
    Agent.STaskBegin 0;
    Agent.SForward [x03; x04] true 2%Q;
    Agent.SKeepalive 3%Q true 3%Q;
    Agent.SPoll (Some {| Agent.msg_type := "transcription";
                         Agent.msg_is_final := true;
                         Agent.msg_transcript := "echo" |}) ]%string.

End Sample.

(** ** Further predicates *)

Module VADInv.

Import VAD.

(* How the counters and flags of a detector hang together. *)
Definition coherent (v : VADProcessor) : Prop :=
  0 <= speech_count v /\ 0 <= silence_count v /\ 0 <= padding_count v
  /\ (in_padding v = false -> padding_count v = 0)
  /\ (in_padding v = true ->
      is_speech v = true /\ padding_count v = silence_count v)
  /\ (is_speech v = true -> in_padding v = false -> silence_count v = 0)
  /\ (is_speech v = true -> min_speech_samples v <= speech_count v).

(* The number of calls that reported the end of an utterance. *)
Definition count_ends (outs : list (bool * bool)) : Z :=
  Z.of_nat (length (List.filter snd outs)).

End VADInv.


(** ** A session driven through the service *)

Module Scenario.

Import Service.

(* Sixteen samples of amplitude 0.5, and sixteen samples of silence. *)
Definition speech_frame : list byte := List.concat (repeat [x00; x40] 16).
Definition silence_frame : list byte := repeat x00 (2 * 16).

Definition transcribe_blank (audio : list Q) : string + string :=
  inr " "%string.
Definition transcribe_fail (audio : list Q) : string + string :=
  inl "model down"%string.

(* The service holds session "s1", configured to one millisecond of
   padding, minimum speech and minimum silence. *)
Definition service_idle : ASRService :=
  let svc := snd (fst (create_stream (Some "s1"%string) Sample.service0
                         Sample.world0)) in
  default svc (configure_vad "s1" None (Some 1) (Some 1) (Some 1) svc).

(* ... one frame of speech has arrived ... *)
Definition service_speaking : ASRService :=
  snd (fst (process_audio Sample.transcribe0 "s1" speech_frame 16000
              service_idle Sample.world0)).

(* ... silence has ended the utterance, transcribed as "hello" ... *)
Definition service_heard : ASRService :=
  snd (fst (process_audio Sample.transcribe0 "s1" silence_frame 16000
              service_speaking Sample.world0)).

(* ... and a second utterance has begun. *)
Definition service_again : ASRService :=
  snd (fst (process_audio Sample.transcribe0 "s1" speech_frame 16000
              service_heard Sample.world0)).

(* The session "s1" of a service. *)
Definition session_of (svc : ASRService) : Session.StreamState :=
  default Sample.session0 (streams svc !! "s1"%string).

End Scenario.


(** ** Commands for the examples of the endpoint *)

Module Wire.

Import Gateway.

Definition command (name : string) (stream_id : option string) : Command :=
  {| c_command := name; c_stream_id := stream_id; c_threshold := None;
     c_speech_pad_ms := None; c_min_speech_ms := None;
     c_min_silence_ms := None |}.

End Wire.


(** ** Predicates on text and on steps *)

Module SentenceSpec.

Fixpoint last_char (s : string) : option ascii :=
  match s with
  | EmptyString => None
  | String c EmptyString => Some c
  | String _ r => last_char r
  end.

(* The text ends with one of . ! ? *)
Definition ends_with_terminal (s : string) : bool :=
  match last_char s with
  | Some c => PyStr.is_terminal c
  | None => false
  end.

Definition starts_with_space (s : string) : bool :=
  match s with
  | String c _ => PyStr.isspace c
  | EmptyString => false
  end.

(* The text contains none of . ! ? *)
Fixpoint no_terminal (s : string) : bool :=
  match s with
  | EmptyString => true
  | String c r => negb (PyStr.is_terminal c) && no_terminal r
  end.

(* The fragments of a stream, put together. *)
Definition whole (chunks : list string) : string :=
  fold_right String.append EmptyString chunks.

End SentenceSpec.

Module LoopSpec.

Import Agent.

(* The step is a pass of one of the four loops that watch the stop event. *)
Definition loop_pass (st : Step) : bool :=
  match st with
  | SForward _ _ _ | SKeepalive _ _ _ | SHeartbeat _ | SPoll _ => true
  | _ => false
  end.

(* No usable API key for the extraction. *)
Definition unconfigured (key : option string) : bool :=
  match key with
  | Some k => negb (PyStr.truthy k)
  | None => true
  end.

End LoopSpec.

Module FrameSpec.

Import Agent.

(* What no operation of the agent does on the way from [a] to [b]: change
   the API key, clear the stop event, store an order without a usable key,
   or touch the silence template. *)
Definition kept (a b : VoiceAgent) : Prop :=
  api_key b = api_key a
  /\ (stop_event a = true -> stop_event b = true)
  /\ (LoopSpec.unconfigured (api_key a) = true ->
      extracted_order a = None -> extracted_order b = None)
  /\ silent_audio_chunk b = silent_audio_chunk a.

End FrameSpec.

Module ReconnectSpec.

Import Agent Reconnect.

(* Attempt [i] connects and has its start command accepted. *)
Definition succeeds_at (net : nat -> Attempt) (i : nat) : bool :=
  connects (net i)
  && match stream (net i) with Accepted => true | _ => false end.

(* Attempt [i] connects and has its start command refused. *)
Definition refused_at (net : nat -> Attempt) (i : nat) : bool :=
  connects (net i)
  && match stream (net i) with Refused => true | _ => false end.

End ReconnectSpec.


(** * Properties *)

(** ** The voice-activity detector *)

Module VADFacts.

Import VAD.

(* Unfolds the field assignments down to record constructors. *)
Ltac vad_fields :=
  cbv beta iota zeta delta
    [update_energy_stats end_utterance set_debug_stats set_is_speech
     set_silence_count set_speech_count set_padding_count set_in_padding
     with_state is_speech silence_count speech_count padding_count
     in_padding debug_stats threshold sample_rate speech_pad_samples
     min_speech_samples min_silence_samples max_silence_samples negb].

(* What [process] does with a chunk it classifies as non-speech. *)
Lemma process_silence (v : VADProcessor) (c : list Q) :
  current_is_speech v c = false ->
  process v c =
    let d := bump_silence_segments (debug_stats v) in
    let sil := silence_count v + len c in
    if is_speech v then
      let pad := (if in_padding v then padding_count v else 0) + len c in
      if ((pad >=? speech_pad_samples v) && (sil >=? min_silence_samples v))
         || (sil >=? max_silence_samples v)
      then (set_debug_stats (bump_utterance_ends d)
              (with_state false 0 0 0 false v), (false, true))
      else (set_debug_stats d
              (with_state true sil (speech_count v) pad true v), (true, false))
    else (set_debug_stats d
            (with_state false sil (speech_count v) (padding_count v)
               (in_padding v) v), (false, false)).
Proof.
  intros Hc. unfold process. rewrite Hc. clear Hc.
  destruct v as [th sr spad mspe msil xsil sp sil spc pad inp d].
  destruct sp, inp; vad_fields; try reflexivity.
  - destruct ((pad + len c >=? spad) && (sil + len c >=? msil));
      [reflexivity |].
    destruct (sil + len c >=? xsil); reflexivity.
  - destruct ((0 + len c >=? spad) && (sil + len c >=? msil));
      [reflexivity |].
    destruct (sil + len c >=? xsil); reflexivity.
Qed.

(* What [process] does with a chunk it classifies as speech. *)
Lemma process_speech (v : VADProcessor) (c : list Q) :
  current_is_speech v c = true ->
  process v c =
    let d := bump_speech_segments
               (update_energy_stats (mean_abs c) true (debug_stats v)) in
    let spc := speech_count v + len c in
    let sp := if spc >=? min_speech_samples v then true else is_speech v in
    (set_debug_stats d (with_state sp 0 spc 0 false v), (sp, false)).
Proof.
  intros Hc. unfold process. rewrite Hc. clear Hc.
  destruct v as [th sr spad mspe msil xsil sp sil spc pad inp d].
  vad_fields.
  destruct (spc + len c >=? mspe); reflexivity.
Qed.

(* The classification reads nothing of the detector but its threshold. *)
Lemma current_is_speech_threshold (v w : VADProcessor) (c : list Q) :
  threshold v = threshold w -> current_is_speech v c = current_is_speech w c.
Proof. intros H. unfold current_is_speech. now rewrite H. Qed.

Lemma threshold_process (v : VADProcessor) (c : list Q) :
  threshold (fst (process v c)) = threshold v.
Proof.
  destruct (current_is_speech v c) eqn:Hc.
  - rewrite (process_speech _ _ Hc). reflexivity.
  - rewrite (process_silence _ _ Hc). cbn zeta.
    destruct (is_speech v); [| reflexivity].
    destruct (_ || _); reflexivity.
Qed.

(* An all-zero chunk is never speech, whatever the threshold. *)
Lemma all_zero_not_speech (v : VADProcessor) (c : list Q) :
  all_zero c = true -> current_is_speech v c = false.
Proof. intros H. unfold current_is_speech. now rewrite H. Qed.

Lemma process_same_config (v : VADProcessor) (c : list Q) :
  VADSpec.same_config v (fst (process v c)).
Proof.
  unfold VADSpec.same_config.
  destruct (current_is_speech v c) eqn:Hc.
  - rewrite (process_speech _ _ Hc). cbn. tauto.
  - rewrite (process_silence _ _ Hc). cbv zeta.
    destruct (is_speech v); [| cbn; tauto].
    destruct (_ || _); cbn; tauto.
Qed.

Lemma snd_feed_cons (v : VADProcessor) (c : list Q) (cs : list (list Q)) :
  snd (feed v (c :: cs))
  = snd (process v c) :: snd (feed (fst (process v c)) cs).
Proof.
  cbn [feed]. destruct (process v c) as [v1 r]. cbn [fst snd].
  destruct (feed v1 cs) as [v2 rs]. reflexivity.
Qed.

(* A speech chunk that reaches the minimum duration turns the detector on
   and leaves no silence counted. *)
Lemma speech_activates (v : VADProcessor) (c : list Q) :
  current_is_speech v c = true ->
  min_speech_samples v <= speech_count v + len c ->
  snd (process v c) = (true, false) /\ VADSpec.padded 0 (fst (process v c)).
Proof.
  intros Hc Hmin. rewrite (process_speech _ _ Hc). cbv zeta.
  assert (E : (speech_count v + len c >=? min_speech_samples v) = true)
    by (apply Z.geb_le; lia).
  rewrite E. unfold VADSpec.padded. cbn. auto.
Qed.

(* Silence during speech that does not yet end the utterance. *)
Lemma padded_continue (v : VADProcessor) (c : list Q) (n : Z) :
  VADSpec.padded n v ->
  current_is_speech v c = false ->
  VADSpec.ends v (n + len c) (n + len c) = false ->
  snd (process v c) = (true, false)
  /\ VADSpec.padded (n + len c) (fst (process v c)).
Proof.
  intros (Hsp & Hsil & Hpad) Hc He.
  rewrite (process_silence _ _ Hc). cbv zeta.
  rewrite Hsp, Hsil, Hpad. unfold VADSpec.ends in He. rewrite He.
  unfold VADSpec.padded. cbn. auto.
Qed.

(* Silence during speech that ends the utterance. *)
Lemma padded_end (v : VADProcessor) (c : list Q) (n : Z) :
  VADSpec.padded n v ->
  current_is_speech v c = false ->
  VADSpec.ends v (n + len c) (n + len c) = true ->
  snd (process v c) = (false, true).
Proof.
  intros (Hsp & Hsil & Hpad) Hc He.
  rewrite (process_silence _ _ Hc). cbv zeta.
  rewrite Hsp, Hsil, Hpad. unfold VADSpec.ends in He. rewrite He.
  reflexivity.
Qed.

Lemma same_config_trans (u v w : VADProcessor) :
  VADSpec.same_config u v -> VADSpec.same_config v w ->
  VADSpec.same_config u w.
Proof.
  unfold VADSpec.same_config. intros (?&?&?&?&?&?) (?&?&?&?&?&?).
  repeat split; congruence.
Qed.

Lemma ends_same_config (v w : VADProcessor) (pad sil : Z) :
  VADSpec.same_config v w -> VADSpec.ends w pad sil = VADSpec.ends v pad sil.
Proof.
  unfold VADSpec.same_config, VADSpec.ends. intros (_&_&Hp&_&Hs&Hx).
  now rewrite Hp, Hs, Hx.
Qed.

(* The two steps above, for a detector configured like [v0] and a chunk of
   known length. *)
Lemma quiet_step (v0 v : VADProcessor) (c : list Q) (n k : Z) :
  VADSpec.same_config v0 v -> VADSpec.padded n v ->
  len c = k -> current_is_speech v0 c = false ->
  VADSpec.ends v0 (n + k) (n + k) = false ->
  snd (process v c) = (true, false)
  /\ VADSpec.padded (n + k) (fst (process v c))
  /\ VADSpec.same_config v0 (fst (process v c)).
Proof.
  intros Hcfg Hpad Hlen Hc He. subst k.
  assert (Hc' : current_is_speech v c = false).
  { rewrite <- Hc. apply current_is_speech_threshold. symmetry. apply Hcfg. }
  rewrite <- (ends_same_config _ _ _ _ Hcfg) in He.
  destruct (padded_continue v c n Hpad Hc' He) as [Hr Hp].
  repeat split; try assumption; try apply Hp.
  all: eapply same_config_trans; [exact Hcfg | apply process_same_config].
Qed.

Lemma quiet_end (v0 v : VADProcessor) (c : list Q) (n k : Z) :
  VADSpec.same_config v0 v -> VADSpec.padded n v ->
  len c = k -> current_is_speech v0 c = false ->
  VADSpec.ends v0 (n + k) (n + k) = true ->
  snd (process v c) = (false, true).
Proof.
  intros Hcfg Hpad Hlen Hc He. subst k.
  assert (Hc' : current_is_speech v c = false).
  { rewrite <- Hc. apply current_is_speech_threshold. symmetry. apply Hcfg. }
  rewrite <- (ends_same_config _ _ _ _ Hcfg) in He.
  exact (padded_end v c n Hpad Hc' He).
Qed.

(** C1.  At 16 kHz with min speech 100 ms, speech pad 300 ms, min silence
    500 ms and the default failsafe, a fresh detector answers one speech
    chunk of 1600 samples with is_speech = true at once; of the 1600-sample
    silence chunks that follow, the first four do not end the utterance and
    the fifth does. *)
Theorem C1_activation_and_end_timing
    (th : Q) (speech s1 s2 s3 s4 s5 : list Q) :
  let v0 := init th 300 100 500 16000 10000 in
  len speech = 1600 ->
  current_is_speech v0 speech = true ->
  Forall (fun s => len s = 1600 /\ current_is_speech v0 s = false)
         [s1; s2; s3; s4; s5] ->
  snd (feed v0 [speech; s1; s2; s3; s4; s5])
  = [(true, false); (true, false); (true, false); (true, false);
     (true, false); (false, true)].
Proof.
  intros v0 Hl Hs HF.
  rewrite !Forall_cons in HF.
  destruct HF as ((L1 & C1) & (L2 & C2) & (L3 & C3) & (L4 & C4)
                  & (L5 & C5) & _).
  assert (Hmin : min_speech_samples v0 <= speech_count v0 + len speech)
    by (rewrite Hl; vm_compute; discriminate).
  destruct (speech_activates v0 speech Hs Hmin) as [R0 P0].
  pose proof (process_same_config v0 speech) as K0.
  set (v1 := fst (process v0 speech)) in *.
  destruct (quiet_step v0 v1 s1 0 1600 K0 P0 L1 C1 eq_refl) as (R1 & P1 & K1).
  set (v2 := fst (process v1 s1)) in *.
  destruct (quiet_step v0 v2 s2 _ 1600 K1 P1 L2 C2 eq_refl) as (R2 & P2 & K2).
  set (v3 := fst (process v2 s2)) in *.
  destruct (quiet_step v0 v3 s3 _ 1600 K2 P2 L3 C3 eq_refl) as (R3 & P3 & K3).
  set (v4 := fst (process v3 s3)) in *.
  destruct (quiet_step v0 v4 s4 _ 1600 K3 P3 L4 C4 eq_refl) as (R4 & P4 & K4).
  set (v5 := fst (process v4 s4)) in *.
  pose proof (quiet_end v0 v5 s5 _ 1600 K4 P4 L5 C5 eq_refl) as R5.
  rewrite !snd_feed_cons.
  fold v1. rewrite R0. fold v2. rewrite R1. fold v3. rewrite R2.
  fold v4. rewrite R3. fold v5. rewrite R4, R5.
  reflexivity.
Qed.

Lemma C1_activation_and_end_timing_witness :
  let v0 := init (1 # 100) 300 100 500 16000 10000 in
  let speech := repeat (1 # 2)%Q 1600 in
  let zeros := repeat 0%Q 1600 in
  (len speech = 1600 /\ current_is_speech v0 speech = true
   /\ Forall (fun s => len s = 1600 /\ current_is_speech v0 s = false)
             [zeros; zeros; zeros; zeros; zeros])
  /\ snd (feed v0 [speech; zeros; zeros; zeros; zeros; zeros])
     = [(true, false); (true, false); (true, false); (true, false);
        (true, false); (false, true)].
Proof.
  assert (Hz : len (repeat 0%Q 1600) = 1600
               /\ current_is_speech (init (1 # 100) 300 100 500 16000 10000)
                    (repeat 0%Q 1600) = false)
    by (split; vm_compute; reflexivity).
  assert (Hl : len (repeat (1 # 2)%Q 1600) = 1600)
    by (vm_compute; reflexivity).
  assert (Hs : current_is_speech (init (1 # 100) 300 100 500 16000 10000)
                 (repeat (1 # 2)%Q 1600) = true)
    by (vm_compute; reflexivity).
  assert (HF : Forall (fun s => len s = 1600
                 /\ current_is_speech
                      (init (1 # 100) 300 100 500 16000 10000) s = false)
                 [repeat 0%Q 1600; repeat 0%Q 1600; repeat 0%Q 1600;
                  repeat 0%Q 1600; repeat 0%Q 1600])
    by (repeat constructor; apply Hz).
  cbv zeta. split; [auto |].
  exact (C1_activation_and_end_timing (1 # 100) _ _ _ _ _ _ Hl Hs HF).
Defined.

(** C3.  Whenever the detector is in speech and a non-speech chunk brings
    the silence counter to the failsafe limit, that call ends the
    utterance; nothing is assumed about the padding counter or the minimum
    silence, so this holds when the primary condition is not met. *)
Theorem C3_failsafe_forces_end (v : VADProcessor) (c : list Q) :
  is_speech v = true ->
  current_is_speech v c = false ->
  max_silence_samples v <= silence_count v + len c ->
  snd (process v c) = (false, true).
Proof.
  intros Hsp Hc Hmax. rewrite (process_silence _ _ Hc). cbv zeta.
  rewrite Hsp.
  assert (E : (silence_count v + len c >=? max_silence_samples v) = true)
    by (apply Z.geb_le; lia).
  rewrite E, orb_true_r. reflexivity.
Qed.

(* A detector whose padding (50 samples) exceeds the failsafe limit (10
   samples): ten samples of silence end the utterance although the padding
   condition does not hold. *)
Lemma C3_failsafe_forces_end_witness :
  let v := fst (process (init (1 # 100) 50 1 5 1000 10) [(1 # 2)%Q]) in
  let c := repeat 0%Q 10 in
  (is_speech v = true /\ current_is_speech v c = false
   /\ max_silence_samples v <= silence_count v + len c)
  /\ (padding_count v + len c >=? speech_pad_samples v) = false
  /\ snd (process v c) = (false, true).
Proof.
  cbv zeta. split; [| split].
  - vm_compute. repeat split; discriminate.
  - vm_compute. reflexivity.
  - apply C3_failsafe_forces_end; vm_compute; (reflexivity || discriminate).
Defined.

(** C9.  A call that reports the end of an utterance returns
    is_speech = false and leaves the speech, silence and padding counters
    at zero and the padding flag cleared. *)
Theorem C9_end_returns_fresh_state (v : VADProcessor) (c : list Q) :
  snd (snd (process v c)) = true ->
  fst (snd (process v c)) = false
  /\ is_speech (fst (process v c)) = false
  /\ speech_count (fst (process v c)) = 0
  /\ silence_count (fst (process v c)) = 0
  /\ padding_count (fst (process v c)) = 0
  /\ in_padding (fst (process v c)) = false.
Proof.
  destruct (current_is_speech v c) eqn:Hc.
  - rewrite (process_speech _ _ Hc). cbn. discriminate.
  - rewrite (process_silence _ _ Hc). cbv zeta.
    destruct (is_speech v); [| cbn; discriminate].
    destruct (_ || _); cbn; [tauto | discriminate].
Qed.

Lemma C9_end_returns_fresh_state_witness :
  let v := fst (process (init (1 # 100) 50 1 5 1000 10) [(1 # 2)%Q]) in
  let c := repeat 0%Q 10 in
  snd (snd (process v c)) = true
  /\ fst (snd (process v c)) = false
  /\ is_speech (fst (process v c)) = false
  /\ speech_count (fst (process v c)) = 0
  /\ silence_count (fst (process v c)) = 0
  /\ padding_count (fst (process v c)) = 0
  /\ in_padding (fst (process v c)) = false.
Proof.
  cbv zeta. split; [vm_compute; reflexivity |].
  apply C9_end_returns_fresh_state. vm_compute. reflexivity.
Defined.

(** C7, as stated, fails: on the call that ends an utterance the silence
    counter is not the old value plus the chunk length, it is zero.  Here a
    default detector has heard 1600 samples of speech and 6400 of silence;
    the next 1600 zeros end the utterance. *)
Lemma C7_counterexample :
  let speech := repeat (1 # 2)%Q 1600 in
  let zeros := repeat 0%Q 1600 in
  let v := fst (feed init_default [speech; zeros; zeros; zeros; zeros]) in
  all_zero zeros = true
  /\ silence_count v = 6400
  /\ snd (process v zeros) = (false, true)
  /\ silence_count (fst (process v zeros)) = 0
  /\ silence_count (fst (process v zeros)) <> silence_count v + len zeros.
Proof.
  cbv zeta. repeat split; vm_compute; (reflexivity || discriminate).
Qed.

(** C7, amended.  Whatever the state and the threshold, an all-zero chunk
    is classified as non-speech and the call never turns is_speech on.
    Unless the call ends the utterance, the speech counter is unchanged and
    the silence counter grows by the chunk length; when it ends the
    utterance, the counters are reset to zero. *)
Theorem C7_all_zero_is_non_speech (v : VADProcessor) (c : list Q) :
  all_zero c = true ->
  current_is_speech v c = false
  /\ (is_speech (fst (process v c)) = true -> is_speech v = true)
  /\ (if snd (snd (process v c))
      then speech_count (fst (process v c)) = 0
           /\ silence_count (fst (process v c)) = 0
           /\ padding_count (fst (process v c)) = 0
      else speech_count (fst (process v c)) = speech_count v
           /\ silence_count (fst (process v c)) = silence_count v + len c).
Proof.
  intros Hz. pose proof (all_zero_not_speech v c Hz) as Hc.
  split; [exact Hc |].
  rewrite (process_silence _ _ Hc). cbv zeta.
  destruct (is_speech v); [| cbn; auto].
  destruct (_ || _); cbn; auto.
Qed.

(* With a negative threshold the energy 0 of a zero chunk exceeds the
   threshold, and the chunk is non-speech all the same. *)
Lemma C7_all_zero_is_non_speech_witness :
  let v := init (-1 # 100) 300 100 500 16000 10000 in
  let c := repeat 0%Q 160 in
  (all_zero c = true /\ Qgtb (mean_abs c) (threshold v) = true)
  /\ current_is_speech v c = false
  /\ (is_speech (fst (process v c)) = true -> is_speech v = true)
  /\ (if snd (snd (process v c))
      then speech_count (fst (process v c)) = 0
           /\ silence_count (fst (process v c)) = 0
           /\ padding_count (fst (process v c)) = 0
      else speech_count (fst (process v c)) = speech_count v
           /\ silence_count (fst (process v c)) = silence_count v + len c).
Proof.
  cbv zeta. split; [split; vm_compute; reflexivity |].
  apply C7_all_zero_is_non_speech. vm_compute. reflexivity.
Defined.

End VADFacts.

(** ** Text operations *)

Module TextFacts.

Import PyStr TextSpec.

Lemma lstrip_blank (s : string) : blank s = true -> lstrip s = EmptyString.
Proof.
  induction s as [| c r IH]; cbn; [reflexivity |].
  intros H. apply andb_true_iff in H as [Hc Hr]. rewrite Hc. auto.
Qed.

(* Left-stripping a text that is not blank leaves a text that starts with a
   character that is not whitespace. *)
Lemma lstrip_nonblank (s : string) :
  blank s = false ->
  exists c r, lstrip s = String c r /\ isspace c = false.
Proof.
  induction s as [| c r IH]; cbn; [discriminate |].
  destruct (isspace c) eqn:Hc; cbn; [exact IH |].
  intros _. exists c, r. auto.
Qed.

Lemma rstrip_keeps_head (c : ascii) (r : string) :
  isspace c = false -> truthy (rstrip (String c r)) = true.
Proof.
  intros Hc. cbn [rstrip]. rewrite Hc. destruct (rstrip r); reflexivity.
Qed.

Lemma strip_blank (s : string) : blank s = true -> strip s = EmptyString.
Proof. intros H. unfold strip. now rewrite (lstrip_blank s H). Qed.

Lemma strip_nonblank (s : string) :
  blank s = false -> truthy (strip s) = true.
Proof.
  intros H. destruct (lstrip_nonblank s H) as (c & r & E & Hc).
  unfold strip. rewrite E. now apply rstrip_keeps_head.
Qed.

Lemma truthy_nonblank (s : string) : blank s = false -> truthy s = true.
Proof. destruct s; [discriminate | reflexivity]. Qed.

End TextFacts.

(** ** Sessions *)

Module SessionFacts.

Import Session TextSpec.

(** C6.  A transcript that is empty or whitespace-only leaves the whole
    session state as it was; a transcript with a character that is not
    whitespace is appended to the completed utterances. *)
Theorem C6_blank_transcripts_are_dropped (s : StreamState) (t : string) :
  (blank t = true -> add_completed_utterance s t = s)
  /\ (blank t = false ->
      completed_utterances (add_completed_utterance s t)
      = completed_utterances s ++ [t]).
Proof.
  unfold add_completed_utterance. split; intros H.
  - rewrite (TextFacts.strip_blank t H). cbn [PyStr.truthy].
    now rewrite andb_false_r.
  - rewrite (TextFacts.truthy_nonblank t H), (TextFacts.strip_nonblank t H).
    reflexivity.
Qed.

Lemma C6_blank_transcripts_are_dropped_witness :
  (blank "" = true /\ add_completed_utterance Sample.session0 "" = Sample.session0)
  /\ (blank "   " = true
      /\ add_completed_utterance Sample.session0 "   " = Sample.session0)
  /\ (blank "ok" = false
      /\ completed_utterances (add_completed_utterance Sample.session0 "ok")
         = completed_utterances Sample.session0 ++ ["ok"%string]).
Proof.
  split; [| split]; (split; [reflexivity |]).
  - exact (proj1 (C6_blank_transcripts_are_dropped Sample.session0 "")
             eq_refl).
  - exact (proj1 (C6_blank_transcripts_are_dropped Sample.session0 "   ")
             eq_refl).
  - exact (proj2 (C6_blank_transcripts_are_dropped Sample.session0 "ok")
             eq_refl).
Defined.

(** C10.  reset() keeps the stream id, the generated session id and the
    completed utterances; it clears the detector state, the audio buffer
    and the intermediate and final transcripts. *)
Theorem C10_reset_preserves_identity_and_history
    (s : StreamState) (w : World) :
  let s' := fst (reset s w) in
  (stream_id s' = stream_id s
   /\ session_id s' = session_id s
   /\ completed_utterances s' = completed_utterances s)
  /\ (vad s' = VAD.reset (vad s)
      /\ VAD.is_speech (vad s') = false
      /\ VAD.speech_count (vad s') = 0
      /\ VAD.silence_count (vad s') = 0
      /\ VAD.padding_count (vad s') = 0
      /\ VAD.in_padding (vad s') = false
      /\ audio_buffer s' = []
      /\ intermediate_transcript s' = EmptyString
      /\ final_transcript s' = EmptyString).
Proof. cbn. repeat split. Qed.

End SessionFacts.

(** ** The service *)

Module ServiceFacts.

Import Session Service.

(* Decoding fails exactly on a byte string of odd length. *)
Lemma frombuffer_int16_odd (bs : list byte) :
  (Nat.odd (length bs) = true -> frombuffer_int16 bs = inl frombuffer_error)
  /\ (forall x : byte,
        Nat.odd (length (x :: bs)) = true ->
        frombuffer_int16 (x :: bs) = inl frombuffer_error).
Proof.
  induction bs as [| y r [IH1 IH2]].
  - split; [discriminate | reflexivity].
  - split; [apply IH2 |].
    intros x H. cbn [frombuffer_int16].
    change (Nat.odd (length (x :: y :: r))) with (Nat.odd (length r)) in H.
    now rewrite (IH1 H).
Qed.

Lemma frombuffer_int16_even (bs : list byte) :
  (Nat.odd (length bs) = false -> exists xs, frombuffer_int16 bs = inr xs)
  /\ (forall x : byte,
        Nat.odd (length (x :: bs)) = false ->
        exists xs, frombuffer_int16 (x :: bs) = inr xs).
Proof.
  induction bs as [| y r [IH1 IH2]].
  - split; [intros _; exists []; reflexivity | discriminate].
  - split; [apply IH2 |].
    intros x H. cbn [frombuffer_int16].
    change (Nat.odd (length (x :: y :: r))) with (Nat.odd (length r)) in H.
    destruct (IH1 H) as [xs E]. rewrite E. eauto.
Qed.

Section WithTranscription.

Variable transcribe : list Q -> string + string.

(* On a registered session a decode failure returns before anything is
   touched. *)
Lemma decode_failure_known (svc : ASRService) (id : string)
    (audio_bytes : list byte) (sample_rate : Z) (w : World) (e : string) :
  is_Some (streams svc !! id) ->
  frombuffer_int16 audio_bytes = inl e ->
  process_audio transcribe id audio_bytes sample_rate svc w
  = (Returned (decode_failure id e), svc, w).
Proof.
  intros [st Hst] Hdec. unfold process_audio, bind, ret.
  rewrite Hst. cbn iota. rewrite Hst, Hdec. reflexivity.
Qed.

(* On an unknown id the session is created first, and stays. *)
Lemma decode_failure_unknown (svc : ASRService) (id : string)
    (audio_bytes : list byte) (sample_rate : Z) (w : World) (e : string) :
  streams svc !! id = None ->
  frombuffer_int16 audio_bytes = inl e ->
  process_audio transcribe id audio_bytes sample_rate svc w
  = (Returned (decode_failure id e),
     set_streams (<[id := fst (Session.init id w)]> (streams svc)) svc,
     snd (Session.init id w)).
Proof.
  intros Hst Hdec. unfold process_audio, create_stream, bind, ret.
  rewrite Hst. destruct (Session.init id w) as [s w1]. cbn [fst snd].
  cbn [streams set_streams]. rewrite lookup_insert_eq, Hdec. reflexivity.
Qed.

(** C5, amended.  A byte string of odd length makes process_audio return
    the decode-error dictionary.  When the session id is registered, the
    service, the session and the world are exactly as before.  When it is
    not, the session has been created by then: the registry holds a freshly
    initialised session under that id and every other entry is as before. *)
Theorem C5_decode_failure_effects (svc : ASRService) (id : string)
    (audio_bytes : list byte) (sample_rate : Z) (w : World) :
  Nat.odd (length audio_bytes) = true ->
  let r := process_audio transcribe id audio_bytes sample_rate svc w in
  fst (fst r) = Returned (decode_failure id frombuffer_error)
  /\ (is_Some (streams svc !! id) -> snd (fst r) = svc /\ snd r = w)
  /\ (streams svc !! id = None ->
      streams (snd (fst r)) !! id = Some (fst (Session.init id w))
      /\ session_timeout_sec (snd (fst r)) = session_timeout_sec svc
      /\ forall other : string,
           other <> id ->
           streams (snd (fst r)) !! other = streams svc !! other).
Proof.
  intros Hodd. cbv zeta.
  pose proof (proj1 (frombuffer_int16_odd audio_bytes) Hodd) as Hdec.
  destruct (streams svc !! id) as [st |] eqn:Hst.
  - rewrite (decode_failure_known svc id audio_bytes sample_rate w _
               (ex_intro _ st Hst) Hdec).
    cbn [fst snd]. split; [reflexivity |]. split; [auto | discriminate].
  - rewrite (decode_failure_unknown svc id audio_bytes sample_rate w _
               Hst Hdec).
    cbn [fst snd streams set_streams session_timeout_sec].
    split; [reflexivity |]. split; [intros [? ?]; discriminate |].
    intros _. split; [apply lookup_insert_eq |]. split; [reflexivity |].
    intros other Hne. now apply lookup_insert_ne.
Qed.

End WithTranscription.

(** C5, as stated, fails: a malformed chunk sent under an id the registry
    does not know leaves a new session behind. *)
Lemma C5_counterexample :
  let r := process_audio Sample.transcribe0 "s1" [x01] 16000
             Sample.service0 Sample.world0 in
  frombuffer_int16 [x01] = inl frombuffer_error
  /\ fst (fst r) = Returned (decode_failure "s1" frombuffer_error)
  /\ streams Sample.service0 !! "s1" = None
  /\ streams (snd (fst r)) !! "s1" = Some Sample.session0
  /\ snd (fst r) <> Sample.service0.
Proof.
  cbv zeta.
  assert (Hnone : streams Sample.service0 !! "s1" = None)
    by apply lookup_empty.
  rewrite (decode_failure_unknown Sample.transcribe0 Sample.service0 "s1"
             [x01] 16000 Sample.world0 frombuffer_error Hnone eq_refl).
  cbn [fst snd streams set_streams].
  split; [reflexivity |]. split; [reflexivity |]. split; [exact Hnone |].
  split; [apply lookup_insert_eq |].
  intros E. apply (f_equal (fun svc => streams svc !! "s1")) in E.
  cbn [streams set_streams] in E. rewrite lookup_insert_eq, Hnone in E.
  discriminate.
Qed.

Lemma C5_decode_failure_effects_witness :
  let r := process_audio Sample.transcribe0 "s1" [x01] 16000
             Sample.service0 Sample.world0 in
  Nat.odd (length [x01]) = true
  /\ fst (fst r) = Returned (decode_failure "s1" frombuffer_error)
  /\ (is_Some (streams Sample.service0 !! "s1") ->
      snd (fst r) = Sample.service0 /\ snd r = Sample.world0)
  /\ (streams Sample.service0 !! "s1" = None ->
      streams (snd (fst r)) !! "s1"
      = Some (fst (Session.init "s1" Sample.world0))
      /\ session_timeout_sec (snd (fst r))
         = session_timeout_sec Sample.service0
      /\ forall other : string,
           other <> "s1" ->
           streams (snd (fst r)) !! other
           = streams Sample.service0 !! other).
Proof.
  cbv zeta. split; [reflexivity |].
  exact (C5_decode_failure_effects Sample.transcribe0 Sample.service0 "s1"
           [x01] 16000 Sample.world0 eq_refl).
Defined.

End ServiceFacts.

(** ** The agent *)

Module AgentFacts.

Import Agent AgentSpec.

(** C2.  The fragments "Hello world. ", "How are", " you? Fine" make the
    response handler synthesize "Hello world." and "How are you?" while the
    stream is open, in that order, and "Fine" once it has ended; nothing
    else is synthesized. *)
Theorem C2_sentence_pipelining (a : VoiceAgent) (http : option OrderData) :
  let chunks := ["Hello world. "; "How are"; " you? Fine"]%string in
  synthesized (fst (llm_stream chunks a))
  = synthesized a ++ ["Hello world."; "How are you?"]%string
  /\ buffer (snd (llm_stream chunks a)) = "Fine"%string
  /\ synthesized (_process_with_llm chunks http a)
     = synthesized a ++ ["Hello world."; "How are you?"; "Fine"]%string.
Proof.
  cbv zeta. unfold _process_with_llm.
  assert (E : llm_stream ["Hello world. "; "How are"; " you? Fine"]%string a
              = (set_synthesized
                   (synthesized a ++ ["Hello world."; "How are you?"]%string)
                   (set_is_speaking true a),
                 {| full_response := "Hello world. How are you? Fine";
                    buffer := "Fine" |})).
  { cbv -[app]. now rewrite <- app_assoc. }
  rewrite E. cbn [fst snd buffer].
  split; [reflexivity |]. split; [reflexivity |].
  cbv -[app]. now rewrite <- app_assoc.
Qed.

(** *** What the operations leave alone *)

Lemma same_audio_refl (a : VoiceAgent) : same_audio a a.
Proof. split; reflexivity. Qed.

Lemma same_audio_trans (a b c : VoiceAgent) :
  same_audio a b -> same_audio b c -> same_audio a c.
Proof. intros [? ?] [? ?]. split; congruence. Qed.

Lemma extract_order_audio (http : option OrderData) (a : VoiceAgent) :
  same_audio a (extract_order http a).
Proof.
  unfold extract_order. destruct (api_key a) as [key |];
    [| apply same_audio_refl].
  destruct (negb (PyStr.truthy key)); split; reflexivity.
Qed.

Lemma finish_conversation_audio (http : option OrderData) (a : VoiceAgent) :
  same_audio a (finish_conversation http a).
Proof.
  unfold finish_conversation. destruct (negb (is_running a));
    [apply same_audio_refl |].
  eapply same_audio_trans; [| apply extract_order_audio].
  split; reflexivity.
Qed.

Lemma stop_audio (http : option OrderData) (a : VoiceAgent) :
  same_audio a (stop http a).
Proof.
  unfold stop.
  set (b := set_is_running false _).
  assert (H : same_audio a b).
  { subst b. destruct (is_connected (asr_client (set_stop_event true a)));
      split; reflexivity. }
  destruct (_ && _); [| exact H].
  eapply same_audio_trans; [exact H | apply extract_order_audio].
Qed.

Lemma start_audio (env : StartEnv) (a : VoiceAgent) :
  same_audio a (snd (start env a)).
Proof.
  unfold start. destruct (negb (asr_connects env)); [split; reflexivity |].
  destruct (llm_session env) as [sid |]; [| split; reflexivity].
  destruct (negb (PyStr.truthy sid)); [split; reflexivity |].
  destruct (negb (tts_session env)); [split; reflexivity |].
  destruct (negb (asr_stream env)); split; reflexivity.
Qed.

Lemma llm_begin_audio (a : VoiceAgent) : same_audio a (fst (llm_begin a)).
Proof. split; reflexivity. Qed.

Lemma llm_chunk_audio (chunk : string) (a : VoiceAgent) (r : Response) :
  same_audio a (fst (llm_chunk chunk (a, r))).
Proof.
  unfold llm_chunk. destruct (1 <? length _)%nat; split; reflexivity.
Qed.

Lemma llm_end_audio (http : option OrderData) (a : VoiceAgent)
    (r : Response) :
  same_audio a (llm_end http (a, r)).
Proof.
  unfold llm_end.
  set (b := set_is_speaking false _).
  assert (H : same_audio a b).
  { subst b. destruct (PyStr.truthy (buffer r)); split; reflexivity. }
  destruct (ends_conversation _); [| exact H].
  eapply same_audio_trans; [exact H | apply finish_conversation_audio].
Qed.

(* The polling loop hands a message on only while the agent is silent. *)
Lemma poll_deliver_some (msg : option Message) (a : VoiceAgent)
    (transcript : string) :
  poll_deliver msg a = Some transcript -> is_speaking a = false.
Proof.
  unfold poll_deliver. destruct msg as [m |]; [| discriminate].
  destruct (is_speaking a); [discriminate | reflexivity].
Qed.

(* The forwarding loop sends nothing while the agent speaks. *)
Lemma forward_send_speaking (audio_chunk : list byte) (delivered : bool)
    (now : Q) (a : VoiceAgent) :
  is_speaking a = true -> forward_send audio_chunk delivered now a = a.
Proof. intros H. unfold forward_send. now rewrite H. Qed.

(* What send_audio_chunk can do to the wire: nothing, or one more frame. *)
Lemma send_audio_chunk_wire (f : SentAudio) (delivered : bool) (now : Q)
    (c : ASRClient) :
  wire (send_audio_chunk f delivered now c) = wire c
  \/ wire (send_audio_chunk f delivered now c) = wire c ++ [f].
Proof.
  unfold send_audio_chunk. destruct (negb (is_connected c)); [now left |].
  destruct delivered; now right.
Qed.

(** *** The invariant of the event loop *)

Lemma well_formed_agent (s : Sys) (b : VoiceAgent) (fc : bool)
    (ts : list Task) :
  well_formed s -> same_audio (agent s) b -> Forall task_ok ts ->
  well_formed {| agent := b; first_chunk := fc; tasks := ts |}.
Proof.
  intros (Hz & Hw & _) [E1 E2] Hts. unfold well_formed.
  cbn [agent tasks]. rewrite <- E1, <- E2. auto.
Qed.

Lemma well_formed_send (s : Sys) (f : SentAudio) (delivered : bool)
    (now : Q) :
  well_formed s -> frame_ok f ->
  well_formed
    (set_agent
       (set_asr_client
          (send_audio_chunk f delivered now (asr_client (agent s)))
          (agent s)) s).
Proof.
  intros (Hz & Hw & Ht) Hf. unfold well_formed.
  cbn [set_agent agent tasks set_asr_client asr_client silent_audio_chunk].
  split; [exact Hz |]. split; [| exact Ht].
  destruct (send_audio_chunk_wire f delivered now (asr_client (agent s)))
    as [E | E]; rewrite E; [exact Hw |].
  apply Forall_app. split; [exact Hw |]. constructor; [exact Hf | constructor].
Qed.

Lemma forward_send_well_formed (s : Sys) (audio_chunk : list byte)
    (delivered : bool) (now : Q) :
  well_formed s ->
  well_formed (set_agent (forward_send audio_chunk delivered now (agent s)) s).
Proof.
  intros H. unfold forward_send.
  destruct (is_speaking (agent s)) eqn:Hsp; cbn [negb].
  - destruct s; exact H.
  - apply well_formed_send; [exact H |].
    intros Hf. cbn in Hf. discriminate.
Qed.

Lemma keepalive_well_formed (s : Sys) (current_time : Q) (delivered : bool)
    (now : Q) :
  well_formed s ->
  well_formed
    (set_agent (keepalive_body current_time delivered now (agent s)) s).
Proof.
  intros H. unfold keepalive_body.
  destruct (is_connected (asr_client (agent s))); [| destruct s; exact H].
  destruct (_ || _); [| destruct s; exact H].
  apply well_formed_send; [exact H |].
  intros _. cbn [sender payload]. split; [reflexivity | apply H].
Qed.

(* The step changes the agent but neither the wire nor the template. *)
Ltac keep_audio s :=
  unfold set_agent, set_tasks; apply (well_formed_agent s).

Lemma step_well_formed (st : Step) (s : Sys) :
  well_formed s -> well_formed (step st s).
Proof.
  intros H. pose proof H as (Hz & Hw & Ht).
  destruct st; cbn [step].
  - (* SStart *)
    destruct (is_running (agent s)); [exact H |].
    keep_audio s; [exact H | apply start_audio | exact Ht].
  - (* SForward *)
    destruct (stop_event (agent s)); [exact H |].
    set (a1 := if first_chunk s then _ else agent s).
    assert (H1 : well_formed
                   {| agent := a1; first_chunk := false; tasks := tasks s |}).
    { subst a1. destruct (first_chunk s).
      - unfold well_formed. cbn. rewrite repeat_length. auto.
      - exact H. }
    destruct (is_connected (asr_client a1)); [| exact H1].
    exact (forward_send_well_formed _ audio_chunk delivered now H1).
  - (* SForwardResume *)
    destruct (is_connected (asr_client (agent s))); [| exact H].
    now apply forward_send_well_formed.
  - (* SStreamEnd *)
    destruct (conversation_finished (agent s)); [exact H |].
    keep_audio s;
      [exact H | apply finish_conversation_audio | exact Ht].
  - (* SKeepalive *)
    destruct (stop_event (agent s)); [exact H |].
    now apply keepalive_well_formed.
  - (* SHeartbeat *)
    destruct (stop_event (agent s)); [exact H |].
    destruct (is_connected (asr_client (agent s))); [| exact H].
    keep_audio s; [exact H | split; reflexivity | exact Ht].
  - (* SReconnect *)
    keep_audio s; [exact H | split; reflexivity | exact Ht].
  - (* SPoll *)
    destruct (stop_event (agent s)); [exact H |].
    destruct (is_connected (asr_client (agent s))); [| exact H].
    destruct (poll_deliver msg (agent s)) as [transcript |] eqn:Hp;
      [| exact H].
    keep_audio s; [exact H | apply same_audio_refl |].
    apply Forall_app. split; [exact Ht |].
    constructor; [| constructor].
    exact (poll_deliver_some _ _ _ Hp).
  - (* STaskBegin *)
    destruct (tasks s !! i) as [t |] eqn:Hi; [| exact H].
    destruct (status t); try exact H.
    cbn [llm_begin].
    keep_audio s; [exact H | split; reflexivity |].
    apply Forall_insert; [exact Ht |].
    exact (Forall_lookup_1 _ _ _ _ Ht Hi).
  - (* STaskChunk *)
    destruct (tasks s !! i) as [t |] eqn:Hi; [| exact H].
    destruct (status t); try exact H.
    pose proof (llm_chunk_audio chunk (agent s) (locals t)) as Ha.
    destruct (llm_chunk chunk (agent s, locals t)) as [a r].
    keep_audio s; [exact H | exact Ha |].
    apply Forall_insert; [exact Ht |].
    exact (Forall_lookup_1 _ _ _ _ Ht Hi).
  - (* STaskEnd *)
    destruct (tasks s !! i) as [t |] eqn:Hi; [| exact H].
    destruct (status t); try exact H.
    keep_audio s; [exact H | apply llm_end_audio |].
    apply Forall_insert; [exact Ht |].
    exact (Forall_lookup_1 _ _ _ _ Ht Hi).
  - (* SFinish *)
    keep_audio s;
      [exact H | apply finish_conversation_audio | exact Ht].
  - (* SStop *)
    keep_audio s; [exact H | apply stop_audio | exact Ht].
Qed.

Lemma run_well_formed (steps : list Step) (s : Sys) :
  well_formed s -> well_formed (run steps s).
Proof.
  revert s. induction steps as [| st rest IH]; intros s H; [exact H |].
  cbn [run fold_left]. apply IH. now apply step_well_formed.
Qed.

Lemma boot_well_formed (key : option string) : well_formed (boot key).
Proof.
  unfold well_formed. cbn [boot agent tasks init silent_audio_chunk
    asr_client wire].
  rewrite repeat_length. repeat split; constructor.
Qed.

(** C4.  In every run of the event loop, each audio frame that was handed
    to the transport while the speaking flag was set was sent by the
    keepalive loop and consists of zero bytes, so none of them is a chunk
    forwarded from the audio source; and each response task was created
    while the flag was clear, so no transcript received while speaking was
    dispatched. *)
Theorem C4_self_speech_suppression (key : option string)
    (steps : list Step) :
  let s := run steps (boot key) in
  (forall f : SentAudio,
     In f (wire (asr_client (agent s))) ->
     speaking_at_send f = true ->
     sender f = KeepaliveLoop
     /\ payload f = repeat x00 (length (payload f)))
  /\ (forall t : Task,
        In t (tasks s) -> created_while_speaking t = false).
Proof.
  cbv zeta.
  destruct (run_well_formed steps (boot key) (boot_well_formed key))
    as (_ & Hw & Ht).
  split.
  - intros f Hin. exact (proj1 (List.Forall_forall _ _) Hw f Hin).
  - intros t Hin. exact (proj1 (List.Forall_forall _ _) Ht t Hin).
Qed.

(* The same, one step at a time: with the flag set, a pass of the
   forwarding loop adds no frame and a pass of the polling loop creates no
   task. *)
Lemma forwarding_silent_while_speaking (s : Sys) (audio_chunk : list byte)
    (delivered : bool) (now : Q) :
  is_speaking (agent s) = true ->
  wire (asr_client (agent (step (SForward audio_chunk delivered now) s)))
  = wire (asr_client (agent s))
  /\ wire (asr_client
             (agent (step (SForwardResume audio_chunk delivered now) s)))
     = wire (asr_client (agent s)).
Proof.
  intros Hsp. cbn [step]. split.
  - destruct (stop_event (agent s)); [reflexivity |].
    destruct (first_chunk s); cbn [agent];
      (destruct (is_connected _); [| reflexivity]);
      rewrite forward_send_speaking by exact Hsp; reflexivity.
  - destruct (is_connected _); [| reflexivity].
    rewrite forward_send_speaking by exact Hsp. reflexivity.
Qed.

Lemma polling_drops_while_speaking (s : Sys) (msg : option Message) :
  is_speaking (agent s) = true -> step (SPoll msg) s = s.
Proof.
  intros Hsp. cbn [step].
  destruct (stop_event (agent s)); [reflexivity |].
  destruct (is_connected _); [| reflexivity].
  unfold poll_deliver. rewrite Hsp. destruct msg; reflexivity.
Qed.

Lemma C4_self_speech_suppression_witness :
  let s := run Sample.trace0 (boot (Some "key"%string)) in
  (is_speaking (agent s) = true
   /\ wire (asr_client (agent s))
      = [ {| sender := ForwardingLoop; speaking_at_send := false;
             payload := [x01; x02] |};
          {| sender := KeepaliveLoop; speaking_at_send := true;
             payload := [x00; x00] |} ]
   /\ map user_input (tasks s) = ["hi"%string])
  /\ (forall f : SentAudio,
        In f (wire (asr_client (agent s))) ->
        speaking_at_send f = true ->
        sender f = KeepaliveLoop
        /\ payload f = repeat x00 (length (payload f)))
  /\ (forall t : Task,
        In t (tasks s) -> created_while_speaking t = false).
Proof.
  cbv zeta. split; [vm_compute; auto |].
  exact (C4_self_speech_suppression (Some "key"%string) Sample.trace0).
Defined.

(** *** The extracted order *)

(* stop() extracts only when nothing is stored: a stored payload survives. *)
Lemma stop_keeps_order (http : option OrderData) (a : VoiceAgent)
    (o : OrderData) :
  extracted_order a = Some o -> extracted_order (stop http a) = Some o.
Proof.
  intros H. unfold stop.
  set (b := set_is_running false _).
  assert (Hb : extracted_order b = Some o).
  { subst b. destruct (is_connected (asr_client (set_stop_event true a)));
      exact H. }
  rewrite Hb, andb_false_r. exact Hb.
Qed.

(* The end of the audio stream finishes a conversation only once. *)
Lemma stream_end_keeps_order (http : option OrderData) (s : Sys) :
  conversation_finished (agent s) = true -> step (SStreamEnd http) s = s.
Proof. intros H. cbn [step]. now rewrite H. Qed.

(* finish_conversation has no such guard: on a running agent with
   extraction configured it stores whatever the service answers. *)
Lemma finish_conversation_stores (http : option OrderData) (a : VoiceAgent)
    (key : string) :
  is_running a = true -> api_key a = Some key -> PyStr.truthy key = true ->
  extracted_order (finish_conversation http a)
  = Some (llm_extract_order (llm_session_id a) key http).
Proof.
  intros Hr Hk Ht. unfold finish_conversation, extract_order.
  rewrite Hr. cbn [negb set_conversation_finished api_key].
  rewrite Hk, Ht. reflexivity.
Qed.

(** C8 at its failing input.  A started agent with extraction configured
    finishes the conversation twice; the service answers with one order,
    then with another.  The second answer replaces the first.  The same
    happens when a response contains a closing phrase, and a failed request
    replaces a stored order by the empty object. *)
Theorem C8_repeated_finish_overwrites_order :
  let a1 := finish_conversation (Some Sample.order_a) Sample.agent0 in
  let a2 := finish_conversation (Some Sample.order_b) a1 in
  let a3 := _process_with_llm ["Goodbye"%string] None a1 in
  extracted_order Sample.agent0 = None
  /\ extracted_order a1 = Some Sample.order_a
  /\ extracted_order a2 = Some Sample.order_b
  /\ Sample.order_b <> Sample.order_a
  /\ extracted_order a3 = Some [].
Proof.
  cbv zeta. repeat split; try (vm_compute; reflexivity).
  vm_compute. discriminate.
Qed.

End AgentFacts.

(** * Further properties of the code *)

(** ** The detector over a whole stream *)

Module VADStream.

Import VAD VADInv.

Lemma len_nonneg (c : list Q) : 0 <= len c.
Proof. unfold len. lia. Qed.

Lemma feed_cons (v : VADProcessor) (c : list Q) (cs : list (list Q)) :
  feed v (c :: cs)
  = (fst (feed (fst (process v c)) cs),
     snd (process v c) :: snd (feed (fst (process v c)) cs)).
Proof.
  cbn [feed]. destruct (process v c) as [v1 r]. cbn [fst snd].
  destruct (feed v1 cs) as [v2 rs]. reflexivity.
Qed.

Lemma feed_app (v : VADProcessor) (xs ys : list (list Q)) :
  feed v (xs ++ ys)
  = (fst (feed (fst (feed v xs)) ys),
     snd (feed v xs) ++ snd (feed (fst (feed v xs)) ys)).
Proof.
  revert v. induction xs as [| c cs IH]; intros v.
  - cbn. now destruct (feed v ys).
  - rewrite <- app_comm_cons, !feed_cons, IH. reflexivity.
Qed.

Lemma feed_same_config (v : VADProcessor) (cs : list (list Q)) :
  VADSpec.same_config v (fst (feed v cs)).
Proof.
  revert v. induction cs as [| c cs IH]; intros v.
  - cbn. unfold VADSpec.same_config. tauto.
  - rewrite feed_cons. cbn [fst].
    eapply VADFacts.same_config_trans;
      [apply VADFacts.process_same_config | apply IH].
Qed.

Lemma process_coherent (v : VADProcessor) (c : list Q) :
  coherent v -> coherent (fst (process v c)).
Proof.
  intros H. pose proof (len_nonneg c) as Hl.
  destruct (current_is_speech v c) eqn:Hc.
  - rewrite (VADFacts.process_speech _ _ Hc). cbv zeta.
    destruct (speech_count v + len c >=? min_speech_samples v) eqn:E;
      [apply Z.geb_le in E |];
      unfold coherent in *; cbn;
      intuition (try discriminate; try lia).
  - rewrite (VADFacts.process_silence _ _ Hc). cbv zeta.
    destruct (is_speech v) eqn:Hs; [destruct (_ || _) |];
      destruct (in_padding v) eqn:Hp;
      unfold coherent in *; cbn; rewrite ?Hs, ?Hp in *;
      intuition (try discriminate; try lia).
Qed.

Lemma feed_coherent (v : VADProcessor) (cs : list (list Q)) :
  coherent v -> coherent (fst (feed v cs)).
Proof.
  revert v. induction cs as [| c cs IH]; intros v H; [exact H |].
  rewrite feed_cons. cbn [fst]. apply IH. now apply process_coherent.
Qed.

Lemma init_coherent (th : Q) (pad_ms speech_ms silence_ms rate max_ms : Z) :
  coherent (init th pad_ms speech_ms silence_ms rate max_ms).
Proof.
  unfold coherent. cbn. repeat split; try lia; discriminate.
Qed.

(** X1.  Whatever audio a detector has been fed since it was constructed,
    its counters are not negative; outside padding the padding counter is
    zero, and during padding the padding counter equals the silence
    counter; and is_speech is set only when the speech counter has reached
    the minimum speech duration. *)
Theorem counters_stay_coherent (th : Q)
    (pad_ms speech_ms silence_ms rate max_ms : Z) (chunks : list (list Q)) :
  let v := fst (feed (init th pad_ms speech_ms silence_ms rate max_ms)
                  chunks) in
  0 <= speech_count v /\ 0 <= silence_count v /\ 0 <= padding_count v
  /\ (if in_padding v
      then is_speech v = true /\ padding_count v = silence_count v
      else padding_count v = 0)
  /\ (if is_speech v then min_speech_samples v <= speech_count v
      else in_padding v = false).
Proof.
  cbv zeta.
  pose proof (feed_coherent _ chunks
                (init_coherent th pad_ms speech_ms silence_ms rate max_ms))
    as (H1 & H2 & H3 & H4 & H5 & H6 & H7).
  repeat split; try assumption.
  - destruct (in_padding _); auto.
  - destruct (is_speech _) eqn:Hs; [auto |].
    destruct (in_padding _) eqn:Hp; [| reflexivity].
    destruct (H5 eq_refl). congruence.
Qed.

(** X2.  reset() after any audio gives back the detector as it was
    constructed. *)
Theorem reset_restores_construction (th : Q)
    (pad_ms speech_ms silence_ms rate max_ms : Z) (chunks : list (list Q)) :
  reset (fst (feed (init th pad_ms speech_ms silence_ms rate max_ms) chunks))
  = init th pad_ms speech_ms silence_ms rate max_ms.
Proof.
  pose proof (feed_same_config
                (init th pad_ms speech_ms silence_ms rate max_ms) chunks)
    as (E1 & E2 & E3 & E4 & E5 & E6).
  destruct (fst (feed _ chunks)) as [a b c d e f g h i j k l].
  cbn in E1, E2, E3, E4, E5, E6. subst.
  reflexivity.
Qed.

(* During speech the counters of a coherent detector are those of the
   claims' padding phase. *)
Lemma coherent_padded (v : VADProcessor) :
  coherent v -> is_speech v = true -> VADSpec.padded (silence_count v) v.
Proof.
  intros (_ & _ & _ & _ & H5 & H6 & _) Hs. unfold VADSpec.padded.
  split; [exact Hs |]. split; [reflexivity |].
  destruct (in_padding v) eqn:Hp.
  - now destruct (H5 eq_refl).
  - symmetry. now apply H6.
Qed.

(** X3.  When the failsafe limit is not below the padding and the minimum
    silence (as with the defaults), a detector fed from construction ends
    an utterance on a non-speech chunk exactly when it is in speech and
    the silence counted so far plus the chunk reaches the larger of
    padding and minimum silence. *)
Theorem end_of_utterance_timing (th : Q)
    (pad_ms speech_ms silence_ms rate max_ms : Z) (chunks : list (list Q))
    (c : list Q) :
  let v := fst (feed (init th pad_ms speech_ms silence_ms rate max_ms)
                  chunks) in
  speech_pad_samples v <= max_silence_samples v ->
  min_silence_samples v <= max_silence_samples v ->
  current_is_speech v c = false ->
  snd (snd (process v c))
  = is_speech v
    && (Z.max (speech_pad_samples v) (min_silence_samples v)
        <=? silence_count v + len c).
Proof.
  cbv zeta. set (v := fst (feed _ chunks)).
  intros Hp Hm Hc.
  assert (Hv : coherent v)
    by (apply feed_coherent, init_coherent).
  rewrite (VADFacts.process_silence _ _ Hc). cbv zeta.
  destruct (is_speech v) eqn:Hs; [| reflexivity].
  destruct (coherent_padded v Hv Hs) as (_ & _ & E). rewrite E.
  cbn [andb].
  set (n := silence_count v + len c).
  assert (Hiff : ((n >=? speech_pad_samples v)
                  && (n >=? min_silence_samples v)
                  || (n >=? max_silence_samples v))
                 = (Z.max (speech_pad_samples v) (min_silence_samples v)
                    <=? n)).
  { destruct (Z.max _ _ <=? n) eqn:Hmax.
    - apply Z.leb_le in Hmax.
      assert (A : (n >=? speech_pad_samples v) = true)
        by (apply Z.geb_le; lia).
      assert (B : (n >=? min_silence_samples v) = true)
        by (apply Z.geb_le; lia).
      now rewrite A, B.
    - apply Z.leb_gt in Hmax.
      assert (C : (n >=? max_silence_samples v) = false).
      { rewrite Z.geb_leb. apply Z.leb_gt. lia. }
      rewrite C, orb_false_r.
      destruct (n >=? speech_pad_samples v) eqn:A;
        destruct (n >=? min_silence_samples v) eqn:B; try reflexivity.
      rewrite Z.geb_leb in A, B. apply Z.leb_le in A, B. lia. }
  rewrite Hiff. destruct (_ <=? n); reflexivity.
Qed.

Lemma end_of_utterance_timing_witness :
  let v := fst (feed (init (1 # 100) 50 1 5 1000 100) [[(1 # 2)%Q]]) in
  let c := repeat 0%Q 50 in
  (speech_pad_samples v <= max_silence_samples v
   /\ min_silence_samples v <= max_silence_samples v
   /\ current_is_speech v c = false)
  /\ snd (snd (process v c))
     = is_speech v
       && (Z.max (speech_pad_samples v) (min_silence_samples v)
           <=? silence_count v + len c).
Proof.
  cbv zeta. split.
  - vm_compute. repeat split; discriminate.
  - apply (end_of_utterance_timing (1 # 100) 50 1 5 1000 100
             [[(1 # 2)%Q]]); vm_compute; (reflexivity || discriminate).
Defined.

(** X4.  The end of an utterance is only ever reported by a call that found
    the detector in speech and classified its chunk as non-speech. *)
Theorem end_needs_speech_before (v : VADProcessor) (c : list Q) :
  snd (snd (process v c)) = true ->
  is_speech v = true /\ current_is_speech v c = false.
Proof.
  destruct (current_is_speech v c) eqn:Hc.
  - rewrite (VADFacts.process_speech _ _ Hc). cbn. discriminate.
  - rewrite (VADFacts.process_silence _ _ Hc). cbv zeta.
    destruct (is_speech v); [auto |]. cbn. discriminate.
Qed.

Lemma end_needs_speech_before_witness :
  let v := fst (process (init (1 # 100) 50 1 5 1000 10) [(1 # 2)%Q]) in
  let c := repeat 0%Q 10 in
  snd (snd (process v c)) = true
  /\ is_speech v = true /\ current_is_speech v c = false.
Proof.
  cbv zeta. split; [vm_compute; reflexivity |].
  apply end_needs_speech_before. vm_compute. reflexivity.
Defined.

(* The statistics after one call. *)
Lemma process_stats (v : VADProcessor) (c : list Q) :
  speech_segments (debug_stats (fst (process v c)))
  + silence_segments (debug_stats (fst (process v c)))
  = speech_segments (debug_stats v) + silence_segments (debug_stats v) + 1
  /\ utterance_ends (debug_stats (fst (process v c)))
     = utterance_ends (debug_stats v)
       + (if snd (snd (process v c)) then 1 else 0).
Proof.
  destruct (current_is_speech v c) eqn:Hc.
  - rewrite (VADFacts.process_speech _ _ Hc). cbn. split; lia.
  - rewrite (VADFacts.process_silence _ _ Hc). cbv zeta.
    destruct (is_speech v); [destruct (_ || _) |]; cbn; split; lia.
Qed.

(** X5.  Over any stream, the speech and silence segment counters grow
    together by the number of chunks processed, and the utterance counter
    grows by the number of calls that reported an end. *)
Theorem statistics_count_calls (v : VADProcessor) (chunks : list (list Q)) :
  let v' := fst (feed v chunks) in
  speech_segments (debug_stats v') + silence_segments (debug_stats v')
  = speech_segments (debug_stats v) + silence_segments (debug_stats v)
    + Z.of_nat (length chunks)
  /\ utterance_ends (debug_stats v')
     = utterance_ends (debug_stats v) + count_ends (snd (feed v chunks)).
Proof.
  cbv zeta. revert v. induction chunks as [| c cs IH]; intros v.
  - cbn. unfold count_ends. cbn. split; lia.
  - rewrite feed_cons. cbn [fst snd].
    destruct (IH (fst (process v c))) as [A B].
    destruct (process_stats v c) as [C D].
    rewrite A, B, C, D. unfold count_ends. cbn [List.filter length].
    destruct (snd (snd (process v c))); cbn [length]; split; lia.
Qed.

(* Silence heard outside speech leaves the speech counter alone. *)
Lemma gaps_keep_speech_count (v : VADProcessor) (gaps : list (list Q)) :
  is_speech v = false ->
  Forall (fun g => current_is_speech v g = false) gaps ->
  snd (feed v gaps) = repeat (false, false) (length gaps)
  /\ is_speech (fst (feed v gaps)) = false
  /\ speech_count (fst (feed v gaps)) = speech_count v.
Proof.
  revert v. induction gaps as [| g gs IH]; intros v Hs HF.
  - cbn. auto.
  - apply Forall_cons in HF as [Hg HF].
    rewrite feed_cons. cbn [fst snd length repeat].
    pose proof (VADFacts.process_silence v g Hg) as E.
    cbv zeta in E. rewrite Hs in E.
    assert (HF' : Forall (fun x => current_is_speech (fst (process v g)) x
                                   = false) gs).
    { eapply Forall_impl; [exact HF |]. intros x Hx. cbn beta in Hx |- *.
      rewrite <- Hx. apply VADFacts.current_is_speech_threshold.
      apply VADFacts.threshold_process. }
    destruct (IH (fst (process v g))) as (A & B & C);
      [rewrite E; reflexivity | exact HF' |].
    rewrite A, B, C, E. cbn. auto.
Qed.

(** X6.  The speech counter is not reset by silence heard outside speech:
    speech interrupted by any amount of non-speech audio still activates
    the detector once the speech samples add up to the minimum. *)
Theorem interrupted_speech_activates (v : VADProcessor)
    (gaps : list (list Q)) (b : list Q) :
  is_speech v = false ->
  Forall (fun g => current_is_speech v g = false) gaps ->
  current_is_speech v b = true ->
  min_speech_samples v <= speech_count v + len b ->
  snd (feed v (gaps ++ [b]))
  = repeat (false, false) (length gaps) ++ [(true, false)].
Proof.
  intros Hs HF Hb Hmin.
  destruct (gaps_keep_speech_count v gaps Hs HF) as (A & B & C).
  rewrite feed_app. cbn [snd]. rewrite A. f_equal.
  rewrite feed_cons. cbn [snd feed].
  set (w := fst (feed v gaps)) in *.
  pose proof (feed_same_config v gaps) as (Et & _ & _ & Em & _).
  fold w in Et, Em.
  assert (Hb' : current_is_speech w b = true).
  { rewrite <- Hb. apply VADFacts.current_is_speech_threshold. now symmetry. }
  destruct (VADFacts.speech_activates w b Hb') as [R _];
    [rewrite <- Em, C; exact Hmin |].
  now rewrite R.
Qed.

Lemma interrupted_speech_activates_witness :
  let v := init_default in
  let a := repeat (1 # 2)%Q 800 in
  let gap := repeat 0%Q 1600 in
  (is_speech (fst (process v a)) = false
   /\ Forall (fun g => current_is_speech (fst (process v a)) g = false)
        [gap; gap; gap]
   /\ current_is_speech (fst (process v a)) a = true
   /\ min_speech_samples (fst (process v a))
      <= speech_count (fst (process v a)) + len a)
  /\ snd (feed (fst (process v a)) ([gap; gap; gap] ++ [a]))
     = repeat (false, false) 3 ++ [(true, false)].
Proof.
  cbv zeta.
  assert (H1 : is_speech (fst (process init_default (repeat (1 # 2)%Q 800)))
               = false) by (vm_compute; reflexivity).
  assert (Hg : current_is_speech
                 (fst (process init_default (repeat (1 # 2)%Q 800)))
                 (repeat 0%Q 1600) = false) by (vm_compute; reflexivity).
  assert (H3 : current_is_speech
                 (fst (process init_default (repeat (1 # 2)%Q 800)))
                 (repeat (1 # 2)%Q 800) = true) by (vm_compute; reflexivity).
  assert (H4 : min_speech_samples
                 (fst (process init_default (repeat (1 # 2)%Q 800)))
               <= speech_count
                    (fst (process init_default (repeat (1 # 2)%Q 800)))
                  + len (repeat (1 # 2)%Q 800))
    by (vm_compute; discriminate).
  assert (H2 : Forall (fun g => current_is_speech
                 (fst (process init_default (repeat (1 # 2)%Q 800))) g
                 = false)
                 [repeat 0%Q 1600; repeat 0%Q 1600; repeat 0%Q 1600])
    by (repeat constructor; exact Hg).
  split; [auto |].
  exact (interrupted_speech_activates _ _ _ H1 H2 H3 H4).
Defined.

End VADStream.

(** ** Sessions and the registry *)

Module RegistryFacts.

Import Session Service.

(* add_audio, field by field. *)
Lemma add_audio_spec (s : StreamState) (audio_chunk : list Q)
    (sample_rate : Z) (w : World) :
  let r := add_audio s audio_chunk sample_rate w in
  let s' := fst (fst r) in
  let out := snd (VAD.process (vad s) audio_chunk) in
  (stream_id s' = stream_id s /\ session_id s' = session_id s
   /\ created_at s' = created_at s
   /\ intermediate_transcript s' = intermediate_transcript s
   /\ final_transcript s' = final_transcript s
   /\ completed_utterances s' = completed_utterances s)
  /\ last_update s' = clock w (ticks w)
  /\ (if sample_rate =? 0
      then snd (fst r) = None
           /\ s' = set_last_update (clock w (ticks w)) s
      else snd (fst r)
           = Some (fst out, snd out, intermediate_transcript s)
           /\ vad s' = fst (VAD.process (vad s) audio_chunk)
           /\ is_speech s' = fst out
           /\ audio_buffer s'
              = (if fst out then audio_buffer s ++ [audio_chunk]
                 else audio_buffer s)
           /\ utterance_count s'
              = utterance_count s + (if snd out then 1 else 0)).
Proof.
  cbv zeta. unfold add_audio, update_last_active, bind, ret, time_time.
  destruct s as [sid ssid v0 buf sp0 lu it ft cu ia sd td uc lt ca le].
  cbn [fst snd clock ticks vad set_last_update
       set_total_audio_duration_seconds set_metrics].
  destruct (sample_rate =? 0); [cbn; auto 10 |].
  destruct (VAD.process v0 audio_chunk) as [v [sp ue]].
  cbn [fst snd].
  destruct sp, ue; cbn; repeat split; try reflexivity; lia.
Qed.


(** X8.  create_stream always leaves a session registered under the id it
    returns, which is the requested id when one is given, and touches no
    other entry.  When the id was registered already, the session is reset
    in place: it keeps its session id and its completed utterances. *)
Theorem create_stream_registers (requested : option string)
    (svc : ASRService) (w : World) :
  let r := fst (create_stream requested svc w) in
  is_Some (streams (snd r) !! fst r)
  /\ (forall id, requested = Some id -> fst r = id)
  /\ (forall other, other <> fst r ->
        streams (snd r) !! other = streams svc !! other)
  /\ (forall s, streams svc !! fst r = Some s ->
        exists s', streams (snd r) !! fst r = Some s'
                   /\ session_id s' = session_id s
                   /\ completed_utterances s' = completed_utterances s
                   /\ audio_buffer s' = []).
Proof.
  cbv zeta. unfold create_stream, bind, ret.
  destruct (match requested with Some id => _ | None => uuid4 end w)
    as [id w1] eqn:Hid.
  assert (Hreq : forall x, requested = Some x -> id = x).
  { intros x ->. cbn in Hid. congruence. }
  destruct (streams svc !! id) as [s |] eqn:Hs.
  - destruct (reset s w1) as [s1 w2] eqn:Hr. cbn [fst snd streams set_streams].
    split; [rewrite lookup_insert_eq; eauto |]. split; [exact Hreq |].
    split; [intros other Hne; now rewrite lookup_insert_ne |].
    intros s0 Hs0. rewrite Hs in Hs0. injection Hs0 as <-.
    exists s1. rewrite lookup_insert_eq. split; [reflexivity |].
    pose proof (f_equal fst Hr) as E. cbn in E. subst s1.
    repeat split; reflexivity.
  - destruct (init id w1) as [s1 w2]. cbn [fst snd streams set_streams].
    split; [rewrite lookup_insert_eq; eauto |]. split; [exact Hreq |].
    split; [intros other Hne; now rewrite lookup_insert_ne |].
    intros s0 Hs0. rewrite Hs in Hs0. discriminate.
Qed.

(** Delete_stream answers whether the id was registered; afterwards
    the id is not registered and every other entry is as before. *)
Theorem delete_stream_effects (id : string) (svc : ASRService) :
  fst (delete_stream id svc) = bool_decide (is_Some (streams svc !! id))
  /\ streams (snd (delete_stream id svc)) !! id = None
  /\ (forall other, other <> id ->
        streams (snd (delete_stream id svc)) !! other
        = streams svc !! other)
  /\ (streams svc !! id = None -> snd (delete_stream id svc) = svc).
Proof.
  unfold delete_stream. destruct (streams svc !! id) as [s |] eqn:Hs;
    cbn [fst snd streams set_streams].
  - split; [symmetry; apply bool_decide_eq_true; eauto |].
    split; [apply lookup_delete_eq |].
    split; [intros other Hne; now apply lookup_delete_ne | discriminate].
  - split; [symmetry; apply bool_decide_eq_false; intros [? ?]; discriminate |].
    split; [exact Hs |]. split; [reflexivity | reflexivity].
Qed.

(** X9.  Creating a session under an id that is free and deleting it again
    gives back the service as it was. *)
Theorem create_then_delete (id : string) (svc : ASRService) (w : World) :
  streams svc !! id = None ->
  delete_stream id (snd (fst (create_stream (Some id) svc w))) = (true, svc).
Proof.
  intros Hs. unfold create_stream, bind, ret. rewrite Hs.
  destruct (init id w) as [s w1]. cbn [fst snd].
  unfold delete_stream. cbn [streams set_streams].
  rewrite lookup_insert_eq. f_equal.
  unfold set_streams. cbn [streams session_timeout_sec].
  rewrite delete_insert_id by exact Hs. now destruct svc.
Qed.

Lemma create_then_delete_witness :
  streams Sample.service0 !! "s1" = None
  /\ delete_stream "s1"
       (snd (fst (create_stream (Some "s1"%string) Sample.service0
                    Sample.world0)))
     = (true, Sample.service0).
Proof.
  split; [apply lookup_empty |].
  apply create_then_delete. apply lookup_empty.
Defined.

End RegistryFacts.

(** ** Configuration and the reaper *)

Module UpkeepFacts.

Import Session Service Reaper.

(** X10.  configure_vad on an unknown id reports "not found" and changes
    nothing.  On a known id it changes only the threshold and the three
    sample counts that were given, converted with the detector's own
    sample rate; the detector's counters and flags, the failsafe limit,
    the rest of the session and all other sessions stay as they were, and
    with no parameter given the service is unchanged. *)
Theorem configure_vad_effects (id : string) (th : option Q)
    (pad_ms speech_ms silence_ms : option Z) (svc : ASRService) :
  match configure_vad id th pad_ms speech_ms silence_ms svc with
  | None => streams svc !! id = None
  | Some svc' =>
      exists s v',
        streams svc !! id = Some s
        /\ streams svc' !! id = Some (set_vad v' s)
        /\ (forall other, other <> id ->
              streams svc' !! other = streams svc !! other)
        /\ VAD.threshold v' = default (VAD.threshold (vad s)) th
        /\ VAD.speech_pad_samples v'
           = default (VAD.speech_pad_samples (vad s))
               ((fun ms => ms_to_samples ms (VAD.sample_rate (vad s)))
                  <$> pad_ms)
        /\ VAD.min_speech_samples v'
           = default (VAD.min_speech_samples (vad s))
               ((fun ms => ms_to_samples ms (VAD.sample_rate (vad s)))
                  <$> speech_ms)
        /\ VAD.min_silence_samples v'
           = default (VAD.min_silence_samples (vad s))
               ((fun ms => ms_to_samples ms (VAD.sample_rate (vad s)))
                  <$> silence_ms)
        /\ VAD.with_state (VAD.is_speech (vad s)) (VAD.silence_count (vad s))
             (VAD.speech_count (vad s)) (VAD.padding_count (vad s))
             (VAD.in_padding (vad s)) v' = v'
        /\ VAD.max_silence_samples v' = VAD.max_silence_samples (vad s)
        /\ VAD.sample_rate v' = VAD.sample_rate (vad s)
        /\ VAD.debug_stats v' = VAD.debug_stats (vad s)
        /\ (th = None -> pad_ms = None -> speech_ms = None ->
            silence_ms = None -> svc' = svc)
  end.
Proof.
  unfold configure_vad. destruct (streams svc !! id) as [s |] eqn:Hs;
    [| reflexivity].
  eexists s, _. split; [reflexivity |].
  cbn [streams set_streams]. split; [apply lookup_insert_eq |].
  split; [intros other Hne; now apply lookup_insert_ne |].
  destruct s as [a b v c d e f g h i j k l m0 n o].
  destruct v as [v1 v2 v3 v4 v5 v6 v7 v8 v9 v10 v11 v12].
  destruct th, pad_ms, speech_ms, silence_ms; cbn;
    repeat split; try reflexivity; try discriminate.
  intros. destruct svc as [t m]. unfold set_streams. cbn in *. f_equal.
  now apply insert_id.
Qed.

(* Deleting a list of ids one after the other. *)
Lemma lookup_delete_all (ks : list string) (m : gmap string StreamState)
    (k : string) :
  fold_left (fun m id => delete id m) ks m !! k
  = if bool_decide (k ∈ ks) then None else m !! k.
Proof.
  revert m. induction ks as [| x ks IH]; intros m; [reflexivity |].
  cbn [fold_left]. rewrite IH.
  destruct (decide (k = x)) as [-> | Hne].
  - rewrite lookup_delete_eq, (bool_decide_eq_true_2 (x ∈ x :: ks));
      [now destruct (bool_decide _) | apply list_elem_of_here].
  - rewrite lookup_delete_ne by congruence.
    destruct (bool_decide (k ∈ ks)) eqn:E.
    + apply bool_decide_eq_true in E.
      rewrite bool_decide_eq_true_2; [reflexivity |].
      now apply list_elem_of_further.
    + apply bool_decide_eq_false in E.
      rewrite bool_decide_eq_false_2; [reflexivity |].
      intros H. apply elem_of_cons in H as [? | ?]; tauto.
Qed.

Lemma elem_of_to_remove (current_time : Q) (svc : ASRService) (k : string) :
  k ∈ to_remove current_time svc
  <-> exists s, streams svc !! k = Some s
                /\ idle (session_timeout_sec svc) current_time s = true.
Proof.
  unfold to_remove. rewrite list_elem_of_In, in_map_iff. split.
  - intros ([k' s] & Hk & Hin). cbn in Hk. subst k'.
    apply filter_In in Hin as [Hin Hidle]. cbn in Hidle.
    apply list_elem_of_In, elem_of_map_to_list in Hin. eauto.
  - intros (s & Hs & Hidle). exists (k, s). split; [reflexivity |].
    apply filter_In. split; [| exact Hidle].
    apply list_elem_of_In, elem_of_map_to_list. exact Hs.
Qed.

(* What a pass of the reaper leaves under an id. *)
Lemma cleanup_lookup (current_time : Q) (svc : ASRService)
    (id : string) :
  streams (cleanup_pass current_time svc) !! id
  = match streams svc !! id with
    | Some s =>
        if idle (session_timeout_sec svc) current_time s then None
        else Some s
    | None => None
    end.
Proof.
  unfold cleanup_pass. cbn [streams set_streams].
  rewrite lookup_delete_all.
  destruct (streams svc !! id) as [s |] eqn:Hs.
  - destruct (idle (session_timeout_sec svc) current_time s) eqn:Hi.
    + rewrite bool_decide_eq_true_2; [reflexivity |].
      apply elem_of_to_remove. eauto.
    + rewrite bool_decide_eq_false_2; [reflexivity |].
      intros H. apply elem_of_to_remove in H as (s' & Hs' & Hi').
      congruence.
  - now destruct (bool_decide _).
Qed.

(** X11.  A pass of the reaper removes exactly the sessions whose last
    activity lies more than the timeout before the reading of the clock;
    every other session is kept as it is and none is added. *)
Theorem cleanup_pass_lookup (current_time : Q) (svc : ASRService)
    (id : string) :
  streams (cleanup_pass current_time svc) !! id
  = match streams svc !! id with
    | Some s =>
        if idle (session_timeout_sec svc) current_time s then None
        else Some s
    | None => None
    end.
Proof. exact (cleanup_lookup current_time svc id). Qed.

End UpkeepFacts.

(** ** The audio path through the service *)

Module AudioPathFacts.

Import Session Service.

(* Decoding yields one sample per two bytes, each a 16-bit signed value. *)
Lemma frombuffer_int16_samples (bs : list byte) :
  (forall xs, frombuffer_int16 bs = inr xs ->
     length bs = (2 * length xs)%nat
     /\ Forall (fun x => -32768 <= x <= 32767) xs)
  /\ (forall b xs, frombuffer_int16 (b :: bs) = inr xs ->
        length (b :: bs) = (2 * length xs)%nat
        /\ Forall (fun x => -32768 <= x <= 32767) xs).
Proof.
  induction bs as [| y r [IH1 IH2]].
  - split.
    + intros xs H. cbn in H. injection H as <-. split; [reflexivity |].
      constructor.
    + intros b xs H. discriminate.
  - split; [apply IH2 |].
    intros b xs H. cbn [frombuffer_int16] in H.
    destruct (frombuffer_int16 r) as [e | ys] eqn:E; [discriminate |].
    injection H as <-. destruct (IH1 ys eq_refl) as [Hl Hf].
    split; [cbn [length]; lia |].
    constructor; [| exact Hf].
    unfold int16_le.
    assert (Hlo : 0 <= Z.of_N (Byte.to_N b) < 256).
    { pose proof (Byte.to_N_bounded b). lia. }
    assert (Hhi : 0 <= Z.of_N (Byte.to_N y) < 256).
    { pose proof (Byte.to_N_bounded y). lia. }
    destruct (_ <? 32768) eqn:C;
      [apply Z.ltb_lt in C | apply Z.ltb_ge in C]; lia.
Qed.

(** X12.  Whatever np.frombuffer decodes has half as many samples as there
    were bytes, every sample is a 16-bit signed value, and the normalised
    samples handed to the detector lie in [-1, 1). *)
Theorem decoded_samples_are_normalised (audio_bytes : list byte)
    (samples : list Z) :
  frombuffer_int16 audio_bytes = inr samples ->
  length audio_bytes = (2 * length samples)%nat
  /\ Forall (fun x => -32768 <= x <= 32767) samples
  /\ Forall (fun q => (-1 <= q)%Q /\ (q < 1)%Q) (to_float samples).
Proof.
  intros H.
  destruct (proj1 (frombuffer_int16_samples audio_bytes) samples H)
    as [Hl Hf].
  split; [exact Hl |]. split; [exact Hf |].
  unfold to_float. apply Forall_map.
  eapply Forall_impl; [exact Hf |]. intros x [Hlo Hhi]. cbn beta.
  unfold Qle, Qlt, Qdiv, Qmult, Qinv, inject_Z. cbn. lia.
Qed.

Lemma decoded_samples_are_normalised_witness :
  frombuffer_int16 [x00; x80; xff; x7f] = inr [-32768; 32767]
  /\ length [x00; x80; xff; x7f] = (2 * length [-32768; 32767]%Z)%nat
  /\ Forall (fun x => -32768 <= x <= 32767) [-32768; 32767]
  /\ Forall (fun q => (-1 <= q)%Q /\ (q < 1)%Q) (to_float [-32768; 32767]).
Proof.
  split; [reflexivity |].
  exact (decoded_samples_are_normalised [x00; x80; xff; x7f]
           [-32768; 32767] eq_refl).
Defined.




Section WithTranscription.

Variable transcribe : list Q -> string + string.

(* process_audio on a registered session, decodable bytes and a sample
   rate that is not zero, in terms of what add_audio returns. *)
Lemma process_audio_known (svc : ASRService) (id : string)
    (audio_bytes : list byte) (sample_rate : Z) (w : World)
    (st : StreamState) (samples : list Z) :
  streams svc !! id = Some st ->
  frombuffer_int16 audio_bytes = inr samples ->
  (sample_rate =? 0) = false ->
  let a := add_audio st (to_float samples) sample_rate w in
  let st1 := fst (fst a) in
  let out := snd (VAD.process (vad st) (to_float samples)) in
  let store s := set_streams (<[id := s]> (streams svc)) svc in
  process_audio transcribe id audio_bytes sample_rate svc w
  = (if 0 <? VAD.len (get_audio_buffer st1) then
       match transcribe (get_audio_buffer st1) with
       | inl e =>
           (Returned (asr_failure id e (fst out) (snd out) st1), store st1)
       | inr transcript =>
           let st2 :=
             if snd out then
               clear_audio_buffer
                 (if PyStr.truthy (PyStr.strip transcript)
                  then add_completed_utterance st1 transcript
                  else st1)
             else set_intermediate_transcript transcript st1 in
           (Returned (current_state id (fst out) (snd out) st2), store st2)
       end
     else (Returned (current_state id (fst out) (snd out) st1), store st1),
     snd a).
Proof.
  intros Hst Hdec Hsr. cbv zeta.
  pose proof (RegistryFacts.add_audio_spec st (to_float samples)
                sample_rate w) as Ha.
  cbv zeta in Ha. rewrite Hsr in Ha. destruct Ha as (_ & _ & Hres & _).
  unfold process_audio, bind, ret. rewrite Hst. cbn iota beta.
  rewrite Hst, Hdec.
  destruct (add_audio st (to_float samples) sample_rate w)
    as [[st1 res] w1].
  cbn [fst snd] in Hres |- *. subst res.
  destruct (VAD.process (vad st) (to_float samples)) as [v [sp ue]].
  cbn [fst snd].
  destruct (0 <? VAD.len (get_audio_buffer st1)); [| reflexivity].
  destruct (transcribe (get_audio_buffer st1)); reflexivity.
Qed.

(** X13.  When the transcription capability fails, process_audio returns
    an error result that is not final, and the session it leaves is the
    one add_audio produced: the transcripts and the history are as before
    the call and the buffered audio is kept for the next call. *)
Theorem transcription_failure_keeps_session (svc : ASRService) (id : string)
    (audio_bytes : list byte) (sample_rate : Z) (w : World)
    (st : StreamState) (samples : list Z) (e : string) :
  let st1 := fst (fst (add_audio st (to_float samples) sample_rate w)) in
  let r := process_audio transcribe id audio_bytes sample_rate svc w in
  streams svc !! id = Some st ->
  frombuffer_int16 audio_bytes = inr samples ->
  (sample_rate =? 0) = false ->
  0 < VAD.len (get_audio_buffer st1) ->
  transcribe (get_audio_buffer st1) = inl e ->
  (exists res, fst (fst r) = Returned res
               /\ r_error res = Some ("ASR processing error: " +:+ e)
               /\ r_is_final res = false
               /\ r_transcript res = intermediate_transcript st)
  /\ streams (snd (fst r)) !! id = Some st1
  /\ intermediate_transcript st1 = intermediate_transcript st
  /\ final_transcript st1 = final_transcript st
  /\ completed_utterances st1 = completed_utterances st.
Proof.
  cbv zeta. intros Hst Hdec Hsr Hlen Hfail.
  rewrite (process_audio_known svc id audio_bytes sample_rate w st samples
             Hst Hdec Hsr).
  cbv zeta.
  pose proof (RegistryFacts.add_audio_spec st (to_float samples)
                sample_rate w) as Ha.
  cbv zeta in Ha. destruct Ha as ((_ & _ & _ & Hi & Hf & Hc) & _).
  remember (add_audio st (to_float samples) sample_rate w) as a eqn:Ea.
  clear Ea.
  apply Z.ltb_lt in Hlen. rewrite Hlen, Hfail.
  cbn [fst snd streams set_streams]. rewrite lookup_insert_eq.
  split; [| auto].
  eexists. split; [reflexivity |].
  cbn [asr_failure r_error r_is_final r_transcript]. auto.
Qed.

(** X14.  The history of a registered session is append-only under
    process_audio: a call leaves it as it was or appends one transcript,
    and it appends only a transcript with a character that is not
    whitespace, on a call that ends an utterance; that call's result is
    final and carries this transcript and the new history. *)
Theorem history_grows_by_final_transcripts (svc : ASRService) (id : string)
    (audio_bytes : list byte) (sample_rate : Z) (w : World)
    (st : StreamState) :
  let r := process_audio transcribe id audio_bytes sample_rate svc w in
  streams svc !! id = Some st ->
  exists st',
    streams (snd (fst r)) !! id = Some st'
    /\ session_id st' = session_id st
    /\ (completed_utterances st' = completed_utterances st
        \/ exists t res,
             TextSpec.blank t = false
             /\ completed_utterances st' = completed_utterances st ++ [t]
             /\ final_transcript st' = t
             /\ fst (fst r) = Returned res
             /\ r_utterance_end res = true /\ r_is_final res = true
             /\ r_transcript res = t
             /\ r_all_utterances res
                = Some (completed_utterances st ++ [t])).
Proof.
  cbv zeta. intros Hst.
  destruct (frombuffer_int16 audio_bytes) as [e | samples] eqn:Hdec.
  { rewrite (ServiceFacts.decode_failure_known transcribe svc id audio_bytes
               sample_rate w e (ex_intro _ st Hst) Hdec).
    cbn [fst snd]. exists st. auto. }
  pose proof (RegistryFacts.add_audio_spec st (to_float samples)
                sample_rate w) as Ha.
  cbv zeta in Ha. destruct Ha as ((_ & Hsid & _ & _ & _ & Hc) & _ & Hrest).
  destruct (sample_rate =? 0) eqn:Hsr.
  { destruct Hrest as [Hnone Heq].
    unfold process_audio, bind, ret. rewrite Hst. cbn iota beta.
    rewrite Hst, Hdec.
    remember (add_audio st (to_float samples) sample_rate w) as a eqn:Ea.
    clear Ea Heq. destruct a as [[st1 res] w1].
    cbn [fst snd] in *. subst res. cbn [fst snd streams set_streams].
    exists st1. rewrite lookup_insert_eq. auto. }
  rewrite (process_audio_known svc id audio_bytes sample_rate w st samples
             Hst Hdec Hsr).
  cbv zeta. clear Hrest.
  remember (add_audio st (to_float samples) sample_rate w) as a eqn:Ea.
  clear Ea.
  remember (VAD.process (vad st) (to_float samples)) as p eqn:Ep.
  clear Ep.
  set (st1 := fst (fst a)) in *.
  destruct (0 <? VAD.len (get_audio_buffer st1)).
  2: { cbn [fst snd streams set_streams]. exists st1.
       rewrite lookup_insert_eq. auto. }
  destruct (transcribe (get_audio_buffer st1)) as [e | t].
  { cbn [fst snd streams set_streams]. exists st1.
    rewrite lookup_insert_eq. auto. }
  cbn [fst snd streams set_streams]. rewrite lookup_insert_eq.
  eexists. split; [reflexivity |].
  destruct (snd (snd p)) eqn:Hue.
  2: { split; [exact Hsid | left; exact Hc]. }
  destruct (PyStr.truthy (PyStr.strip t)) eqn:Hstrip.
  2: { split; [exact Hsid | left; exact Hc]. }
  assert (Hb : TextSpec.blank t = false).
  { destruct (TextSpec.blank t) eqn:Hb; [| reflexivity].
    rewrite (TextFacts.strip_blank t Hb) in Hstrip. discriminate. }
  unfold add_completed_utterance.
  rewrite (TextFacts.truthy_nonblank t Hb), Hstrip. cbn [andb].
  split; [exact Hsid |]. right. exists t. eexists.
  split; [exact Hb |].
  cbn [clear_audio_buffer set_audio_buffer set_final_transcript
       set_completed_utterances completed_utterances final_transcript
       current_state r_utterance_end r_is_final r_transcript
       r_all_utterances].
  rewrite Hc. auto 10.
Qed.

(** X15.  When an utterance ends and the transcription of the buffered
    audio is blank, nothing is appended to the history, yet the result is
    final and its transcript is the final transcript the session held
    before the call, that of the previous utterance. *)
Theorem blank_final_repeats_previous_transcript (svc : ASRService)
    (id : string) (audio_bytes : list byte) (sample_rate : Z) (w : World)
    (st : StreamState) (samples : list Z) (t : string) :
  let st1 := fst (fst (add_audio st (to_float samples) sample_rate w)) in
  let r := process_audio transcribe id audio_bytes sample_rate svc w in
  streams svc !! id = Some st ->
  frombuffer_int16 audio_bytes = inr samples ->
  (sample_rate =? 0) = false ->
  snd (snd (VAD.process (vad st) (to_float samples))) = true ->
  0 < VAD.len (get_audio_buffer st1) ->
  transcribe (get_audio_buffer st1) = inr t ->
  TextSpec.blank t = true ->
  exists res st',
    fst (fst r) = Returned res
    /\ r_error res = None
    /\ r_is_final res = true
    /\ r_transcript res = final_transcript st
    /\ r_all_utterances res = Some (completed_utterances st)
    /\ streams (snd (fst r)) !! id = Some st'
    /\ completed_utterances st' = completed_utterances st
    /\ audio_buffer st' = [].
Proof.
  cbv zeta. intros Hst Hdec Hsr Hue Hlen Htr Hb.
  rewrite (process_audio_known svc id audio_bytes sample_rate w st samples
             Hst Hdec Hsr).
  cbv zeta.
  pose proof (RegistryFacts.add_audio_spec st (to_float samples)
                sample_rate w) as Ha.
  cbv zeta in Ha. destruct Ha as ((_ & _ & _ & _ & Hf & Hc) & _).
  apply Z.ltb_lt in Hlen. rewrite Hlen, Htr, Hue.
  rewrite (TextFacts.strip_blank t Hb).
  remember (add_audio st (to_float samples) sample_rate w) as a eqn:Ea.
  clear Ea.
  remember (VAD.process (vad st) (to_float samples)) as p eqn:Ep.
  clear Ep.
  cbn [PyStr.truthy fst snd streams set_streams].
  rewrite lookup_insert_eq.
  eexists. eexists. split; [reflexivity |].
  cbn [clear_audio_buffer set_audio_buffer audio_buffer
       completed_utterances final_transcript
       current_state r_error r_is_final r_transcript r_all_utterances].
  rewrite Hf, Hc. auto 10.
Qed.


End WithTranscription.

(* Splits a conjunction of closed facts and evaluates each. *)
Ltac conj_compute :=
  repeat match goal with |- _ /\ _ => split end; vm_compute; reflexivity.

Lemma transcription_failure_keeps_session_witness :
  let st := Scenario.session_of Scenario.service_idle in
  let samples := repeat 16384 16 in
  let st1 := fst (fst (add_audio st (to_float samples) 16000
                         Sample.world0)) in
  let r := process_audio Scenario.transcribe_fail "s1"
             Scenario.speech_frame 16000 Scenario.service_idle
             Sample.world0 in
  (streams Scenario.service_idle !! "s1" = Some st
   /\ frombuffer_int16 Scenario.speech_frame = inr samples
   /\ (16000 =? 0) = false
   /\ 0 < VAD.len (get_audio_buffer st1)
   /\ Scenario.transcribe_fail (get_audio_buffer st1)
      = inl "model down"%string)
  /\ (exists res, fst (fst r) = Returned res
                  /\ r_error res
                     = Some ("ASR processing error: " +:+ "model down")
                  /\ r_is_final res = false
                  /\ r_transcript res = intermediate_transcript st)
  /\ streams (snd (fst r)) !! "s1" = Some st1
  /\ intermediate_transcript st1 = intermediate_transcript st
  /\ final_transcript st1 = final_transcript st
  /\ completed_utterances st1 = completed_utterances st.
Proof.
  cbv zeta. split; [conj_compute |].
  apply (transcription_failure_keeps_session Scenario.transcribe_fail
           Scenario.service_idle "s1" Scenario.speech_frame 16000
           Sample.world0 (Scenario.session_of Scenario.service_idle)
           (repeat 16384 16) "model down");
    vm_compute; reflexivity.
Defined.

Lemma history_grows_by_final_transcripts_witness :
  let st := Scenario.session_of Scenario.service_speaking in
  let r := process_audio Sample.transcribe0 "s1" Scenario.silence_frame
             16000 Scenario.service_speaking Sample.world0 in
  streams Scenario.service_speaking !! "s1" = Some st
  /\ completed_utterances
       (Scenario.session_of (snd (fst r))) = ["hello"%string]
  /\ exists st',
       streams (snd (fst r)) !! "s1" = Some st'
       /\ session_id st' = session_id st
       /\ (completed_utterances st' = completed_utterances st
           \/ exists t res,
                TextSpec.blank t = false
                /\ completed_utterances st'
                   = completed_utterances st ++ [t]
                /\ final_transcript st' = t
                /\ fst (fst r) = Returned res
                /\ r_utterance_end res = true /\ r_is_final res = true
                /\ r_transcript res = t
                /\ r_all_utterances res
                   = Some (completed_utterances st ++ [t])).
Proof.
  cbv zeta. split; [vm_compute; reflexivity |].
  split; [vm_compute; reflexivity |].
  apply (history_grows_by_final_transcripts Sample.transcribe0
           Scenario.service_speaking "s1" Scenario.silence_frame 16000
           Sample.world0 (Scenario.session_of Scenario.service_speaking)).
  vm_compute. reflexivity.
Defined.

Lemma blank_final_repeats_previous_transcript_witness :
  let st := Scenario.session_of Scenario.service_again in
  let samples := repeat 0 16 in
  let st1 := fst (fst (add_audio st (to_float samples) 16000
                         Sample.world0)) in
  let r := process_audio Scenario.transcribe_blank "s1"
             Scenario.silence_frame 16000 Scenario.service_again
             Sample.world0 in
  (streams Scenario.service_again !! "s1" = Some st
   /\ frombuffer_int16 Scenario.silence_frame = inr samples
   /\ (16000 =? 0) = false
   /\ snd (snd (VAD.process (vad st) (to_float samples))) = true
   /\ 0 < VAD.len (get_audio_buffer st1)
   /\ Scenario.transcribe_blank (get_audio_buffer st1) = inr " "%string
   /\ TextSpec.blank " " = true
   /\ final_transcript st = "hello"%string)
  /\ exists res st',
       fst (fst r) = Returned res
       /\ r_error res = None
       /\ r_is_final res = true
       /\ r_transcript res = final_transcript st
       /\ r_all_utterances res = Some (completed_utterances st)
       /\ streams (snd (fst r)) !! "s1" = Some st'
       /\ completed_utterances st' = completed_utterances st
       /\ audio_buffer st' = [].
Proof.
  cbv zeta. split; [conj_compute |].
  apply (blank_final_repeats_previous_transcript Scenario.transcribe_blank
           Scenario.service_again "s1" Scenario.silence_frame 16000
           Sample.world0 (Scenario.session_of Scenario.service_again)
           (repeat 0 16) " ");
    vm_compute; reflexivity.
Defined.


End AudioPathFacts.

(** ** The endpoint and the reaper around the audio path *)

Module ConnectionFacts.

Import Session Service Reaper Gateway.

Section WithTranscription.

Variable transcribe : list Q -> string + string.

(* On a registered session process_audio rewrites that entry and nothing
   else, and the entry carries the clock reading of the call unless the
   bytes could not be decoded. *)
Lemma process_audio_entry (svc : ASRService) (id : string)
    (audio_bytes : list byte) (sample_rate : Z) (w : World)
    (st : StreamState) :
  streams svc !! id = Some st ->
  exists st',
    snd (fst (process_audio transcribe id audio_bytes sample_rate svc w))
    = set_streams (<[id := st']> (streams svc)) svc
    /\ (is_Some (match frombuffer_int16 audio_bytes with
                 | inl _ => None
                 | inr xs => Some xs
                 end) ->
        last_update st' = clock w (ticks w)).
Proof.
  intros Hst.
  destruct (frombuffer_int16 audio_bytes) as [e | samples] eqn:Hdec.
  { rewrite (ServiceFacts.decode_failure_known transcribe svc id audio_bytes
               sample_rate w e (ex_intro _ st Hst) Hdec).
    cbn [fst snd]. exists st. split.
    - destruct svc as [t m]. unfold set_streams. cbn in *.
      now rewrite insert_id.
    - intros [? ?]. discriminate. }
  pose proof (RegistryFacts.add_audio_spec st (to_float samples)
                sample_rate w) as Ha.
  cbv zeta in Ha. destruct Ha as (_ & Hlu & Hrest).
  destruct (sample_rate =? 0) eqn:Hsr.
  { unfold process_audio, bind, ret. rewrite Hst. cbn iota beta.
    rewrite Hst, Hdec. destruct Hrest as [Hnone _].
    remember (add_audio st (to_float samples) sample_rate w) as a eqn:Ea.
    clear Ea. destruct a as [[st1 res] w1].
    cbn [fst snd] in *. subst res. cbn [fst snd]. eauto. }
  rewrite (AudioPathFacts.process_audio_known transcribe svc id audio_bytes
             sample_rate w st samples Hst Hdec Hsr).
  cbv zeta. clear Hrest.
  remember (add_audio st (to_float samples) sample_rate w) as a eqn:Ea.
  clear Ea.
  remember (VAD.process (vad st) (to_float samples)) as p eqn:Ep.
  clear Ep.
  destruct (0 <? VAD.len (get_audio_buffer (fst (fst a))));
    [| cbn [fst snd]; eauto].
  destruct (transcribe (get_audio_buffer (fst (fst a)))) as [e | t];
    [cbn [fst snd]; eauto |].
  cbn [fst snd]. eexists. split; [reflexivity |]. intros _.
  unfold add_completed_utterance.
  destruct (snd (snd p)); destruct (PyStr.truthy (PyStr.strip t));
    destruct (PyStr.truthy t);
    cbn [andb last_update clear_audio_buffer set_audio_buffer
         set_final_transcript set_completed_utterances
         set_intermediate_transcript];
    exact Hlu.
Qed.

(** X17.  A registered session that has just been given decodable audio
    survives every pass of the reaper whose clock reading is within the
    timeout of that call, whatever became of the audio. *)
Theorem touched_session_survives (svc : ASRService) (id : string)
    (audio_bytes : list byte) (samples : list Z) (sample_rate : Z)
    (w : World) (st : StreamState) (current_time : Q) :
  streams svc !! id = Some st ->
  frombuffer_int16 audio_bytes = inr samples ->
  (current_time - clock w (ticks w) <= inject_Z (session_timeout_sec svc))%Q ->
  is_Some
    (streams
       (cleanup_pass current_time
          (snd (fst (process_audio transcribe id audio_bytes sample_rate
                       svc w)))) !! id).
Proof.
  intros Hst Hdec Hq.
  destruct (process_audio_entry svc id audio_bytes sample_rate w st Hst)
    as (st' & E & Hlu).
  rewrite E, UpkeepFacts.cleanup_lookup. cbn [streams set_streams].
  rewrite lookup_insert_eq.
  rewrite Hdec in Hlu. rewrite <- (Hlu (ex_intro _ samples eq_refl)) in Hq.
  unfold idle, Qgtb. cbn [session_timeout_sec set_streams].
  apply Qle_bool_iff in Hq. rewrite Hq. cbn. eauto.
Qed.

(** X18.  Protocol errors leave everything as it is and the connection
    open: text that is not JSON and a command that is none of the five
    known ones are answered with an error reply, and so is a binary frame
    of odd length sent on a registered stream. *)
Theorem protocol_errors_are_harmless (svc : ASRService)
    (sid : option string) (w : World) :
  handle transcribe TextInvalid svc sid w
  = ({| replies := [Error "Invalid JSON command"]; service := svc;
        owned := sid; open := true |}, w)
  /\ (forall c : Command,
        ~ In (c_command c)
            ["start"; "stop"; "reset"; "configure_vad"; "get_state"]%string ->
        handle transcribe (TextCommand c) svc sid w
        = ({| replies := [Error ("Unknown command: " +:+ c_command c)];
              service := svc; owned := sid; open := true |}, w))
  /\ (forall (id : string) (audio_bytes : list byte),
        active sid = Some id -> is_Some (streams svc !! id) ->
        Nat.odd (length audio_bytes) = true ->
        handle transcribe (Binary audio_bytes) svc sid w
        = ({| replies := [Error ("Invalid audio data: "
                                 +:+ frombuffer_error)];
              service := svc; owned := Some id; open := true |}, w)).
Proof.
  split; [reflexivity |]. split.
  - intros c Hc. cbn [handle]. unfold handle_command.
    assert (Hne : forall s, In s ["start"; "stop"; "reset"; "configure_vad";
                                  "get_state"]%string ->
                            String.eqb (c_command c) s = false).
    { intros s Hs. apply String.eqb_neq. intros E. apply Hc.
      now rewrite E. }
    rewrite !Hne by (cbn; tauto). reflexivity.
  - intros id audio_bytes Hact Hreg Hodd. cbn [handle].
    unfold handle_binary, bind, ret. rewrite Hact.
    rewrite (ServiceFacts.decode_failure_known transcribe svc id audio_bytes
               16000 w frombuffer_error Hreg
               (proj1 (ServiceFacts.frombuffer_int16_odd audio_bytes) Hodd)).
    reflexivity.
Qed.

(** X19.  The four commands that act on the connection's stream are
    answered with "No active stream" when the connection owns none, and
    change nothing. *)
Theorem commands_need_a_stream (c : Command) (svc : ASRService)
    (sid : option string) (w : World) :
  In (c_command c) ["stop"; "reset"; "configure_vad"; "get_state"]%string ->
  active sid = None ->
  handle transcribe (TextCommand c) svc sid w
  = ({| replies := [Error "No active stream"]; service := svc;
        owned := sid; open := true |}, w).
Proof.
  intros Hc Hact. cbn [handle]. unfold handle_command, no_active_stream.
  cbn [In] in Hc.
  destruct Hc as [E | [E | [E | [E | []]]]]; rewrite <- E; cbn [String.eqb];
    rewrite Hact; reflexivity.
Qed.

(* A binary frame on the stream the connection owns rewrites that entry
   only and keeps the connection's ownership. *)
Lemma handle_binary_owned (audio_bytes : list byte) (svc : ASRService)
    (id : string) (w : World) (st : StreamState) :
  PyStr.truthy id = true ->
  streams svc !! id = Some st ->
  exists st',
    service (fst (handle_binary transcribe audio_bytes svc (Some id) w))
    = set_streams (<[id := st']> (streams svc)) svc
    /\ owned (fst (handle_binary transcribe audio_bytes svc (Some id) w))
       = Some id.
Proof.
  intros Hid Hst. unfold handle_binary, bind, ret. cbn [active].
  rewrite Hid.
  destruct (process_audio_entry svc id audio_bytes 16000 w st Hst)
    as (st' & E & _).
  exists st'.
  destruct (process_audio transcribe id audio_bytes 16000 svc w)
    as [[outcome svc'] w'].
  cbn [fst snd] in E. subst svc'.
  destruct outcome as [result |]; [| cbn; auto].
  destruct (r_error result); cbn; auto.
Qed.

(* Whatever binary frames follow, the registry differs from the start at
   most under the owned id. *)
Lemma serve_binary_frames (frames : list (list byte)) (svc : ASRService)
    (id : string) (w : World) (st : StreamState) :
  PyStr.truthy id = true ->
  streams svc !! id = Some st ->
  exists st',
    snd (fst (fst (serve_loop transcribe (map Binary frames) svc (Some id)
                     w)))
    = set_streams (<[id := st']> (streams svc)) svc
    /\ snd (fst (serve_loop transcribe (map Binary frames) svc (Some id) w))
       = Some id.
Proof.
  intros Hid. revert svc w st.
  induction frames as [| f fs IH]; intros svc w st Hst.
  - cbn. exists st. split; [| reflexivity].
    destruct svc as [t m]. unfold set_streams. cbn in *.
    now rewrite insert_id.
  - cbn [map serve_loop handle]. unfold bind.
    destruct (handle_binary_owned f svc id w st Hid Hst) as (st1 & E1 & O1).
    destruct (handle_binary transcribe f svc (Some id) w) as [h w1].
    cbn [fst] in E1, O1.
    destruct (open h).
    + rewrite E1, O1.
      assert (Hst1 : streams (set_streams (<[id := st1]> (streams svc)) svc)
                     !! id = Some st1)
        by (cbn [streams set_streams]; apply lookup_insert_eq).
      destruct (IH _ w1 st1 Hst1) as (st2 & E2 & O2).
      destruct (serve_loop transcribe (map Binary fs) _ (Some id) w1)
        as [[[out svc2] sid2] w2].
      cbn [fst snd] in E2, O2 |- *. unfold ret. cbn [fst snd].
      exists st2. split; [| exact O2].
      rewrite E2. unfold set_streams. cbn [streams session_timeout_sec].
      now rewrite insert_insert_eq.
    + unfold ret. cbn [fst snd]. exists st1. auto.
Qed.

(** X20.  A connection that starts a stream under a free id and then sends
    binary frames leaves no trace: when it ends, whatever the frames held,
    the service is exactly as it was before the connection. *)
Theorem connection_leaves_no_session (c : Command) (id : string)
    (frames : list (list byte)) (svc : ASRService) (w : World) :
  c_command c = "start"%string ->
  c_stream_id c = Some id ->
  PyStr.truthy id = true ->
  streams svc !! id = None ->
  snd (fst (websocket_endpoint transcribe
              (TextCommand c :: map Binary frames) svc w))
  = svc.
Proof.
  intros Hc Hsid Hid Hfree.
  unfold websocket_endpoint, bind. cbn [serve_loop handle].
  unfold handle_command, bind. rewrite Hc, String.eqb_refl.
  unfold create_stream, bind, ret. rewrite Hsid, Hfree.
  destruct (init id w) as [s0 w1]. cbn [fst snd open service owned].
  set (svc1 := set_streams (<[id := s0]> (streams svc)) svc).
  assert (Hst : streams svc1 !! id = Some s0)
    by (cbn [svc1 streams set_streams]; apply lookup_insert_eq).
  destruct (serve_binary_frames frames svc1 id w1 s0 Hid Hst)
    as (st' & E & O).
  destruct (serve_loop transcribe (map Binary frames) svc1 (Some id) w1)
    as [[[out svc2] sid2] w2].
  cbn [fst snd] in E, O |- *. subst svc2 sid2.
  unfold cleanup, delete_stream. cbn [active]. rewrite Hid.
  cbn [streams set_streams svc1]. rewrite lookup_insert_eq.
  cbn [snd]. unfold set_streams. cbn [streams session_timeout_sec].
  rewrite insert_insert_eq, delete_insert_id by exact Hfree.
  now destruct svc.
Qed.


End WithTranscription.

Lemma touched_session_survives_witness :
  let st := Scenario.session_of Scenario.service_idle in
  (streams Scenario.service_idle !! "s1" = Some st
   /\ frombuffer_int16 Scenario.speech_frame = inr (repeat 16384 16)
   /\ (300 - clock Sample.world0 (ticks Sample.world0)
       <= inject_Z (session_timeout_sec Scenario.service_idle))%Q)
  /\ is_Some
       (streams
          (cleanup_pass 300
             (snd (fst (process_audio Sample.transcribe0 "s1"
                          Scenario.speech_frame 16000 Scenario.service_idle
                          Sample.world0)))) !! "s1").
Proof.
  cbv zeta.
  assert (H1 : streams Scenario.service_idle !! "s1"
               = Some (Scenario.session_of Scenario.service_idle))
    by (vm_compute; reflexivity).
  assert (H2 : frombuffer_int16 Scenario.speech_frame
               = inr (repeat 16384 16)) by (vm_compute; reflexivity).
  assert (H3 : (300 - clock Sample.world0 (ticks Sample.world0)
                <= inject_Z (session_timeout_sec Scenario.service_idle))%Q)
    by (vm_compute; discriminate).
  split; [auto |].
  exact (touched_session_survives Sample.transcribe0 Scenario.service_idle
           "s1" Scenario.speech_frame (repeat 16384 16) 16000 Sample.world0
           _ 300%Q H1 H2 H3).
Defined.

Lemma commands_need_a_stream_witness :
  (In (c_command (Wire.command "stop" None))
      ["stop"; "reset"; "configure_vad"; "get_state"]%string
   /\ active None = None)
  /\ handle Sample.transcribe0 (TextCommand (Wire.command "stop" None))
       Sample.service0 None Sample.world0
     = ({| replies := [Error "No active stream"];
           service := Sample.service0; owned := None; open := true |},
        Sample.world0).
Proof.
  assert (H1 : In (c_command (Wire.command "stop" None))
                 ["stop"; "reset"; "configure_vad"; "get_state"]%string)
    by (left; reflexivity).
  split; [auto |].
  exact (commands_need_a_stream Sample.transcribe0
           (Wire.command "stop" None) Sample.service0 None Sample.world0
           H1 eq_refl).
Defined.

Lemma connection_leaves_no_session_witness :
  (c_command (Wire.command "start" (Some "s1"%string)) = "start"%string
   /\ c_stream_id (Wire.command "start" (Some "s1"%string))
      = Some "s1"%string
   /\ PyStr.truthy "s1" = true
   /\ streams Sample.service0 !! "s1" = None)
  /\ snd (fst (websocket_endpoint Sample.transcribe0
                 (TextCommand (Wire.command "start" (Some "s1"%string))
                  :: map Binary [Scenario.speech_frame; [x01];
                                 Scenario.silence_frame])
                 Sample.service0 Sample.world0))
     = Sample.service0.
Proof.
  assert (H4 : streams Sample.service0 !! "s1" = None) by apply lookup_empty.
  split; [auto |].
  exact (connection_leaves_no_session Sample.transcribe0
           (Wire.command "start" (Some "s1"%string)) "s1"
           [Scenario.speech_frame; [x01]; Scenario.silence_frame]
           Sample.service0 Sample.world0 eq_refl eq_refl eq_refl H4).
Defined.


End ConnectionFacts.

(** ** Sentences and responses *)

Module SentenceFacts.

Import Agent SentenceSpec.

Lemma append_cons (c : ascii) (a b : string) :
  String c a +:+ b = String c (a +:+ b).
Proof. reflexivity. Qed.

Lemma append_nil_l (b : string) : EmptyString +:+ b = b.
Proof. reflexivity. Qed.

Lemma ends_nonempty (s : string) :
  ends_with_terminal s = true -> s <> EmptyString.
Proof. intros H E. subst s. discriminate. Qed.

Lemma ends_cons (c : ascii) (s : string) :
  s <> EmptyString ->
  ends_with_terminal (String c s) = ends_with_terminal s.
Proof. destruct s; [congruence | reflexivity]. Qed.

Lemma ends_append (a b : string) :
  b <> EmptyString ->
  ends_with_terminal (a +:+ b) = ends_with_terminal b.
Proof.
  intros Hb. induction a as [| c a IH]; [reflexivity |].
  rewrite append_cons, ends_cons; [exact IH |].
  destruct a; [exact Hb | discriminate].
Qed.

(* The scan, with what it knows when it reaches a position. *)
Lemma split_scan_pieces (s : string) :
  forall after_terminal in_sep : bool,
    let r := PyStr.split_scan after_terminal in_sep s in
    (in_sep = true -> starts_with_space (fst r) = false)
    /\ (snd r <> [] ->
        ends_with_terminal (fst r) = true
        \/ (fst r = EmptyString /\ after_terminal = true /\ in_sep = false))
    /\ Forall (fun q => ends_with_terminal q = true) (List.removelast (snd r))
    /\ Forall (fun q => starts_with_space q = false) (snd r).
Proof.
  induction s as [| c r IH]; intros at_ sep; cbv zeta.
  - cbn. repeat split; auto; congruence.
  - cbn [PyStr.split_scan].
    destruct (PyStr.isspace c && (sep || at_)) eqn:Hcond.
    + specialize (IH false true). cbv zeta in IH.
      destruct (PyStr.split_scan false true r) as [p ps].
      cbn [fst snd] in IH. destruct IH as (I1 & I2 & I3 & I4).
      destruct sep; cbn [fst snd].
      * split; [auto |]. split; [| auto].
        intros Hps. left. destruct (I2 Hps) as [? | (_ & ? & _)];
          [assumption | discriminate].
      * split; [discriminate |]. split.
        -- intros _. right. apply andb_true_iff in Hcond as [_ Hat].
           cbn in Hat. auto.
        -- split.
           ++ destruct ps as [| q qs]; [constructor |].
              change (List.removelast (p :: q :: qs))
                with (p :: List.removelast (q :: qs)).
              constructor; [| exact I3].
              destruct I2 as [? | (_ & ? & _)];
                [discriminate | assumption | discriminate].
           ++ constructor; [auto | exact I4].
    + specialize (IH (PyStr.is_terminal c) false). cbv zeta in IH.
      destruct (PyStr.split_scan (PyStr.is_terminal c) false r) as [p ps].
      cbn [fst snd] in IH |- *. destruct IH as (_ & I2 & I3 & I4).
      split.
      * intros ->. cbn [starts_with_space].
        cbn [orb] in Hcond. now rewrite andb_true_r in Hcond.
      * split; [| auto]. intros Hps. left.
        destruct (I2 Hps) as [He | (-> & Ht & _)].
        -- rewrite ends_cons; [exact He | now apply ends_nonempty].
        -- unfold ends_with_terminal. cbn. exact Ht.
Qed.

(* The same for the whole text. *)
Lemma sentences_delimited (text : string) :
  _split_into_sentences text <> []
  /\ Forall (fun q => ends_with_terminal q = true)
       (List.removelast (_split_into_sentences text))
  /\ Forall (fun q => starts_with_space q = false)
       (tail (_split_into_sentences text)).
Proof.
  unfold _split_into_sentences, PyStr.re_split_sentences.
  pose proof (split_scan_pieces text false false) as H. cbv zeta in H.
  destruct (PyStr.split_scan false false text) as [p ps].
  cbn [fst snd] in H. destruct H as (_ & I2 & I3 & I4).
  split; [discriminate |]. split; [| exact I4].
  destruct ps as [| q qs]; [constructor |].
  change (List.removelast (p :: q :: qs))
    with (p :: List.removelast (q :: qs)).
  constructor; [| exact I3].
  destruct I2 as [? | (_ & ? & _)]; [discriminate | assumption | discriminate].
Qed.

(** X22.  The sentence splitter never returns an empty list; every piece
    but the last ends with one of . ! ? and no piece but the first begins
    with whitespace. *)
Theorem sentences_are_well_delimited (text : string) :
  _split_into_sentences text <> []
  /\ Forall (fun q => ends_with_terminal q = true)
       (List.removelast (_split_into_sentences text))
  /\ Forall (fun q => starts_with_space q = false)
       (tail (_split_into_sentences text)).
Proof. exact (sentences_delimited text). Qed.

Lemma join_ends (sep : string) (l : list string) :
  l <> [] ->
  Forall (fun q => ends_with_terminal q = true) l ->
  ends_with_terminal (PyStr.join sep l) = true.
Proof.
  induction l as [| p rest IH]; [congruence |]. intros _ HF.
  apply Forall_cons in HF as [Hp Hrest].
  destruct rest as [| q qs]; [exact Hp |].
  change (PyStr.join sep (p :: q :: qs))
    with (p +:+ sep +:+ PyStr.join sep (q :: qs)).
  assert (Hj : ends_with_terminal (PyStr.join sep (q :: qs)) = true)
    by (apply IH; [discriminate | exact Hrest]).
  rewrite ends_append.
  - rewrite ends_append; [exact Hj | now apply ends_nonempty].
  - apply ends_nonempty in Hj. intros E. destruct sep as [| x sep].
    + rewrite append_nil_l in E. contradiction.
    + rewrite append_cons in E. discriminate.
Qed.

(* What one fragment adds to the synthesis calls. *)
Lemma llm_chunk_synthesized (chunk : string) (a : VoiceAgent)
    (r : Response) :
  synthesized (fst (llm_chunk chunk (a, r))) = synthesized a
  \/ exists text,
       synthesized (fst (llm_chunk chunk (a, r))) = synthesized a ++ [text]
       /\ ends_with_terminal text = true.
Proof.
  unfold llm_chunk.
  destruct (sentences_delimited (buffer r +:+ chunk))
    as (_ & Hends & _).
  destruct (_split_into_sentences (buffer r +:+ chunk)) as [| p [| q qs]];
    [left; reflexivity | left; reflexivity |].
  change (1 <? length (p :: q :: qs))%nat with true. cbv iota.
  right. eexists. split; [reflexivity |].
  apply join_ends; [| exact Hends].
  change (List.removelast (p :: q :: qs))
    with (p :: List.removelast (q :: qs)).
  discriminate.
Qed.

Lemma fold_chunks_synthesized (chunks : list string)
    (st : VoiceAgent * Response) :
  exists new,
    synthesized (fst (fold_left (fun st chunk => llm_chunk chunk st)
                        chunks st))
    = synthesized (fst st) ++ new
    /\ Forall (fun text => ends_with_terminal text = true) new.
Proof.
  revert st. induction chunks as [| c cs IH]; intros [a r].
  - exists []. cbn. split; [now rewrite app_nil_r | constructor].
  - cbn [fold_left]. destruct (IH (llm_chunk c (a, r))) as (new & E & HF).
    rewrite E. cbn [fst].
    destruct (llm_chunk_synthesized c a r) as [E1 | (text & E1 & Ht)];
      rewrite E1.
    + exists new. auto.
    + exists (text :: new). rewrite <- app_assoc. split; [reflexivity |].
      constructor; assumption.
Qed.

(** X23.  Every text handed to synthesis while the generation stream is
    still open ends with one of . ! ? , whatever the fragments are. *)
Theorem midstream_synthesis_ends_sentences (chunks : list string)
    (a : VoiceAgent) :
  exists new,
    synthesized (fst (llm_stream chunks a)) = synthesized a ++ new
    /\ Forall (fun text => ends_with_terminal text = true) new.
Proof.
  unfold llm_stream.
  destruct (fold_chunks_synthesized chunks (llm_begin a)) as (new & E & HF).
  exists new. split; [exact E | exact HF].
Qed.

(* Text without . ! ? is never split. *)
Lemma split_scan_no_terminal (s : string) :
  no_terminal s = true -> PyStr.split_scan false false s = (s, []).
Proof.
  induction s as [| c r IH]; [reflexivity |].
  cbn [no_terminal PyStr.split_scan]. intros H.
  apply andb_true_iff in H as [Hc Hr]. apply negb_true_iff in Hc.
  cbn [orb]. rewrite andb_false_r, Hc, (IH Hr). reflexivity.
Qed.

Lemma no_terminal_append (a b : string) :
  no_terminal (a +:+ b) = no_terminal a && no_terminal b.
Proof.
  induction a as [| c a IH]; [reflexivity |].
  rewrite append_cons. cbn [no_terminal]. rewrite IH.
  now rewrite andb_assoc.
Qed.

Lemma append_assoc (a b c : string) : (a +:+ b) +:+ c = a +:+ (b +:+ c).
Proof.
  induction a as [| x a IH]; [reflexivity |].
  now rewrite !append_cons, IH.
Qed.

Lemma append_nil_r (a : string) : a +:+ EmptyString = a.
Proof.
  induction a as [| x a IH]; [reflexivity |]. now rewrite append_cons, IH.
Qed.

(* The stream so far, for fragments without terminal punctuation. *)
Lemma fold_chunks_no_terminal (chunks : list string) (a : VoiceAgent)
    (r : Response) :
  no_terminal (buffer r) = true ->
  Forall (fun c => no_terminal c = true) chunks ->
  fold_left (fun st chunk => llm_chunk chunk st) chunks (a, r)
  = (a, {| full_response := full_response r +:+ whole chunks;
           buffer := buffer r +:+ whole chunks |}).
Proof.
  revert r. induction chunks as [| c cs IH]; intros r Hb HF.
  - cbn. rewrite !append_nil_r. now destruct r.
  - apply Forall_cons in HF as [Hc Hcs]. cbn [fold_left whole fold_right].
    assert (Hbc : no_terminal (buffer r +:+ c) = true)
      by (rewrite no_terminal_append, Hb, Hc; reflexivity).
    assert (E : llm_chunk c (a, r)
                = (a, {| full_response := full_response r +:+ c;
                         buffer := buffer r +:+ c |})).
    { unfold llm_chunk, _split_into_sentences, PyStr.re_split_sentences.
      rewrite (split_scan_no_terminal _ Hbc). reflexivity. }
    rewrite E, IH; [| exact Hbc | exact Hcs].
    cbn [full_response buffer]. now rewrite !append_assoc.
Qed.

Lemma finish_conversation_synthesized (http : option OrderData)
    (a : VoiceAgent) :
  synthesized (finish_conversation http a) = synthesized a.
Proof.
  unfold finish_conversation, extract_order.
  destruct (negb (is_running a)); [reflexivity |].
  cbn [api_key set_conversation_finished].
  destruct (api_key a) as [key |]; [| reflexivity].
  destruct (negb (PyStr.truthy key)); reflexivity.
Qed.

(** X24.  A response whose fragments contain none of . ! ? is not spoken
    while it streams: the only synthesis call comes when the stream has
    ended, with the whole text, and there is none when the text is
    empty. *)
Theorem unpunctuated_response_waits_for_the_end (chunks : list string)
    (http : option OrderData) (a : VoiceAgent) :
  Forall (fun c => no_terminal c = true) chunks ->
  synthesized (fst (llm_stream chunks a)) = synthesized a
  /\ synthesized (_process_with_llm chunks http a)
     = synthesized a
       ++ (if PyStr.truthy (whole chunks) then [whole chunks] else []).
Proof.
  intros HF. unfold _process_with_llm, llm_stream, llm_begin.
  rewrite (fold_chunks_no_terminal chunks (set_is_speaking true a)
             {| full_response := EmptyString; buffer := EmptyString |}
             eq_refl HF).
  cbn [fst full_response buffer]. rewrite append_nil_l.
  split; [reflexivity |].
  unfold llm_end. cbn [full_response buffer].
  destruct (ends_conversation (whole chunks));
    rewrite ?finish_conversation_synthesized;
    destruct (PyStr.truthy (whole chunks));
    cbn [synthesized set_is_speaking synthesize set_synthesized];
    now rewrite ?app_nil_r.
Qed.

Lemma unpunctuated_response_waits_for_the_end_witness :
  Forall (fun c => no_terminal c = true) ["Sure, one"; " moment"]%string
  /\ synthesized (fst (llm_stream ["Sure, one"; " moment"]%string
                         Sample.agent0))
     = synthesized Sample.agent0
  /\ synthesized (_process_with_llm ["Sure, one"; " moment"]%string None
                    Sample.agent0)
     = synthesized Sample.agent0
       ++ (if PyStr.truthy (whole ["Sure, one"; " moment"]%string)
           then [whole ["Sure, one"; " moment"]%string] else []).
Proof.
  assert (HF : Forall (fun c => no_terminal c = true)
                 ["Sure, one"; " moment"]%string)
    by (repeat constructor).
  split; [exact HF |].
  exact (unpunctuated_response_waits_for_the_end
           ["Sure, one"; " moment"]%string None Sample.agent0 HF).
Defined.

Lemma fold_chunks_bookkeeping (chunks : list string)
    (st : VoiceAgent * Response) :
  is_speaking (fst (fold_left (fun st chunk => llm_chunk chunk st)
                      chunks st))
  = is_speaking (fst st)
  /\ full_response (snd (fold_left (fun st chunk => llm_chunk chunk st)
                           chunks st))
     = full_response (snd st) +:+ whole chunks.
Proof.
  revert st. induction chunks as [| c cs IH]; intros [a r].
  - cbn. now rewrite append_nil_r.
  - cbn [fold_left whole fold_right]. destruct (IH (llm_chunk c (a, r)))
      as [E1 E2].
    rewrite E1, E2. unfold llm_chunk.
    destruct (1 <? length _)%nat; cbn [fst snd full_response];
      rewrite append_assoc; auto.
Qed.

Lemma finish_conversation_speaking (http : option OrderData)
    (a : VoiceAgent) :
  is_speaking (finish_conversation http a) = is_speaking a.
Proof.
  unfold finish_conversation, extract_order.
  destruct (negb (is_running a)); [reflexivity |].
  cbn [api_key set_conversation_finished].
  destruct (api_key a) as [key |]; [| reflexivity].
  destruct (negb (PyStr.truthy key)); reflexivity.
Qed.

(** X25.  The speaking flag is set for as long as the response streams and
    clear once the response has been handled, and the text checked for
    closing phrases is the fragments put together in order. *)
Theorem response_bookkeeping (chunks : list string)
    (http : option OrderData) (a : VoiceAgent) :
  is_speaking (fst (llm_stream chunks a)) = true
  /\ full_response (snd (llm_stream chunks a)) = whole chunks
  /\ is_speaking (_process_with_llm chunks http a) = false.
Proof.
  unfold _process_with_llm, llm_stream.
  destruct (fold_chunks_bookkeeping chunks (llm_begin a)) as [E1 E2].
  split; [rewrite E1; reflexivity |].
  split; [rewrite E2; reflexivity |].
  destruct (fold_left _ chunks (llm_begin a)) as [b r]. unfold llm_end.
  destruct (ends_conversation (full_response r));
    rewrite ?finish_conversation_speaking;
    destruct (PyStr.truthy (buffer r)); reflexivity.
Qed.

End SentenceFacts.

(** ** The life cycle of the agent *)

Module LifecycleFacts.

Import Agent LoopSpec FrameSpec.

Lemma kept_refl (a : VoiceAgent) : kept a a.
Proof. unfold kept. auto. Qed.

Lemma kept_trans (a b c : VoiceAgent) : kept a b -> kept b c -> kept a c.
Proof.
  unfold kept. intros (A1 & A2 & A3 & A4) (B1 & B2 & B3 & B4).
  rewrite A1 in B3. repeat split; try congruence; auto.
Qed.

Lemma extract_order_kept (http : option OrderData) (a : VoiceAgent) :
  kept a (extract_order http a).
Proof.
  unfold extract_order. destruct (api_key a) as [key |] eqn:Hk;
    [| apply kept_refl].
  destruct (PyStr.truthy key) eqn:Ht; cbn [negb]; [| apply kept_refl].
  unfold kept. cbn. rewrite Hk. cbn. rewrite Ht. cbn.
  repeat split; auto; discriminate.
Qed.

Lemma finish_conversation_kept (http : option OrderData) (a : VoiceAgent) :
  kept a (finish_conversation http a).
Proof.
  unfold finish_conversation. destruct (negb (is_running a));
    [apply kept_refl |].
  eapply kept_trans; [| apply extract_order_kept].
  unfold kept. cbn. auto.
Qed.

Lemma stop_kept (http : option OrderData) (a : VoiceAgent) :
  kept a (stop http a).
Proof.
  unfold stop. set (b := set_is_running false _).
  assert (H : kept a b).
  { subst b. destruct (is_connected (asr_client (set_stop_event true a)));
      unfold kept; cbn; auto. }
  destruct (_ && _); [| exact H].
  eapply kept_trans; [exact H | apply extract_order_kept].
Qed.

Lemma start_kept (env : StartEnv) (a : VoiceAgent) :
  kept a (snd (start env a)).
Proof.
  unfold start. destruct (negb (asr_connects env));
    [unfold kept; cbn; auto |].
  destruct (llm_session env) as [sid |]; [| unfold kept; cbn; auto].
  destruct (negb (PyStr.truthy sid)); [unfold kept; cbn; auto |].
  destruct (negb (tts_session env)); [unfold kept; cbn; auto |].
  destruct (negb (asr_stream env)); unfold kept; cbn; auto.
Qed.

Lemma llm_chunk_kept (chunk : string) (a : VoiceAgent) (r : Response) :
  kept a (fst (llm_chunk chunk (a, r))).
Proof.
  unfold llm_chunk. destruct (1 <? length _)%nat; unfold kept; cbn; auto.
Qed.

Lemma llm_end_kept (http : option OrderData) (a : VoiceAgent)
    (r : Response) :
  kept a (llm_end http (a, r)).
Proof.
  unfold llm_end. set (b := set_is_speaking false _).
  assert (H : kept a b).
  { subst b. destruct (PyStr.truthy (buffer r)); unfold kept; cbn; auto. }
  destruct (ends_conversation _); [| exact H].
  eapply kept_trans; [exact H | apply finish_conversation_kept].
Qed.

Lemma forward_send_kept (audio_chunk : list byte) (delivered : bool)
    (now : Q) (a : VoiceAgent) :
  kept a (forward_send audio_chunk delivered now a).
Proof.
  unfold forward_send. destruct (negb (is_speaking a));
    unfold kept; cbn; auto.
Qed.

Lemma keepalive_body_kept (current_time : Q) (delivered : bool) (now : Q)
    (a : VoiceAgent) :
  kept a (keepalive_body current_time delivered now a).
Proof.
  unfold keepalive_body. destruct (is_connected (asr_client a));
    [| apply kept_refl].
  destruct (_ || _); unfold kept; cbn; auto.
Qed.

(* Every step keeps what [kept] lists, but for the forwarding pass that
   sees the first chunk: it sets the silence template. *)
Lemma step_kept (st : Step) (s : Sys) :
  match st with
  | SForward _ _ _ => first_chunk s = false
  | _ => True
  end ->
  kept (agent s) (agent (step st s)).
Proof.
  intros Hfc. destruct st; cbn [step].
  - destruct (is_running (agent s)); [apply kept_refl | apply start_kept].
  - destruct (stop_event (agent s)); [apply kept_refl |].
    rewrite Hfc. cbn [agent].
    destruct (is_connected (asr_client (agent s)));
      [apply forward_send_kept | apply kept_refl].
  - destruct (is_connected (asr_client (agent s)));
      [apply forward_send_kept | apply kept_refl].
  - destruct (conversation_finished (agent s));
      [apply kept_refl | apply finish_conversation_kept].
  - destruct (stop_event (agent s));
      [apply kept_refl | apply keepalive_body_kept].
  - destruct (stop_event (agent s)); [apply kept_refl |].
    destruct (is_connected (asr_client (agent s)));
      [unfold kept; cbn; auto | apply kept_refl].
  - unfold kept. cbn. auto.
  - destruct (stop_event (agent s)); [apply kept_refl |].
    destruct (is_connected (asr_client (agent s))); [| apply kept_refl].
    destruct (poll_deliver msg (agent s)); apply kept_refl.
  - destruct (tasks s !! i) as [t |]; [| apply kept_refl].
    destruct (status t); try apply kept_refl.
    unfold kept. cbn. auto.
  - destruct (tasks s !! i) as [t |]; [| apply kept_refl].
    destruct (status t); try apply kept_refl.
    pose proof (llm_chunk_kept chunk (agent s) (locals t)) as H.
    destruct (llm_chunk chunk (agent s, locals t)) as [a r]. exact H.
  - destruct (tasks s !! i) as [t |]; [| apply kept_refl].
    destruct (status t); try apply kept_refl.
    apply llm_end_kept.
  - apply finish_conversation_kept.
  - apply stop_kept.
Qed.

(* The forwarding pass on the first chunk: the template is set, then the
   chunk is handled as any other. *)
Lemma first_forward_kept (audio_chunk : list byte) (delivered : bool)
    (now : Q) (s : Sys) :
  stop_event (agent s) = false ->
  first_chunk s = true ->
  kept (set_silent_audio_chunk (repeat x00 (length audio_chunk)) (agent s))
       (agent (step (SForward audio_chunk delivered now) s)).
Proof.
  intros Hs Hfc. cbn [step]. rewrite Hs, Hfc. cbn [agent].
  set (a1 := set_silent_audio_chunk _ (agent s)).
  destruct (is_connected (asr_client a1));
    [apply forward_send_kept | apply kept_refl].
Qed.

(* Once the first chunk has been seen it stays seen. *)
Lemma step_first_chunk (st : Step) (s : Sys) :
  first_chunk s = false -> first_chunk (step st s) = false.
Proof.
  intros Hfc. destruct st; cbn [step];
    repeat match goal with
           | |- context [if ?b then _ else _] => destruct b
           | |- context [match ?o with Some _ => _ | None => _ end] =>
               destruct o
           | |- context [match status ?t with _ => _ end] =>
               destruct (status t)
           | |- context [let '(_, _) := ?p in _] => destruct p
           end; cbn; auto.
Qed.

Lemma run_kept (steps : list Step) (s : Sys) :
  first_chunk s = false ->
  kept (agent s) (agent (run steps s))
  /\ first_chunk (run steps s) = false.
Proof.
  revert s. induction steps as [| st rest IH]; intros s Hfc.
  - split; [apply kept_refl | exact Hfc].
  - cbn [run fold_left].
    destruct (IH (step st s) (step_first_chunk st s Hfc)) as [H1 H2].
    split; [| exact H2].
    apply (kept_trans _ (agent (step st s))); [| exact H1].
    apply step_kept. destruct st; solve [exact I | exact Hfc].
Qed.

(* What holds of every step, first chunk or not. *)
Lemma step_kept_but_template (st : Step) (s : Sys) :
  api_key (agent (step st s)) = api_key (agent s)
  /\ (stop_event (agent s) = true -> stop_event (agent (step st s)) = true)
  /\ (unconfigured (api_key (agent s)) = true ->
      extracted_order (agent s) = None ->
      extracted_order (agent (step st s)) = None).
Proof.
  assert (G : kept (agent s) (agent (step st s))
              \/ exists c d n, st = SForward c d n
                               /\ stop_event (agent s) = false
                               /\ first_chunk s = true).
  { destruct st; try (left; apply step_kept; exact I).
    destruct (first_chunk s) eqn:Hfc;
      [| left; apply step_kept; exact Hfc].
    destruct (stop_event (agent s)) eqn:Hs.
    - left. cbn [step]. rewrite Hs. apply kept_refl.
    - right. exists audio_chunk, delivered, now. auto. }
  destruct G as [(K1 & K2 & K3 & _) | (c & d & n & -> & Hs & Hfc)]; [auto |].
  destruct (first_forward_kept c d n s Hs Hfc) as (K1 & K2 & K3 & _).
  cbn in K1, K2, K3. auto.
Qed.

Lemma run_kept_but_template (steps : list Step) (s : Sys) :
  api_key (agent (run steps s)) = api_key (agent s)
  /\ (stop_event (agent s) = true -> stop_event (agent (run steps s)) = true)
  /\ (unconfigured (api_key (agent s)) = true ->
      extracted_order (agent s) = None ->
      extracted_order (agent (run steps s)) = None).
Proof.
  revert s. induction steps as [| st rest IH]; intros s; [auto |].
  cbn [run fold_left].
  destruct (IH (step st s)) as (A1 & A2 & A3).
  destruct (step_kept_but_template st s) as (B1 & B2 & B3).
  rewrite B1 in A1, A3. repeat split; auto.
Qed.

(** X26.  An agent constructed without a usable extraction key never
    stores an order, whatever steps the event loop takes. *)
Theorem unconfigured_agent_never_extracts (key : option string)
    (steps : list Step) :
  unconfigured key = true ->
  extracted_order (agent (run steps (boot key))) = None.
Proof.
  intros Hk.
  destruct (run_kept_but_template steps (boot key)) as (_ & _ & H).
  apply H; [exact Hk | reflexivity].
Qed.

Lemma unconfigured_agent_never_extracts_witness :
  unconfigured (Some ""%string) = true
  /\ extracted_order
       (agent (run [SStart Sample.start_env0;
                    SFinish (Some Sample.order_a);
                    SStop (Some Sample.order_b)]
                 (boot (Some ""%string))))
     = None.
Proof.
  split; [reflexivity |].
  exact (unconfigured_agent_never_extracts (Some ""%string)
           [SStart Sample.start_env0; SFinish (Some Sample.order_a);
            SStop (Some Sample.order_b)] eq_refl).
Defined.

(** X27.  In a run of process_audio_stream the silence template is fixed
    by the first chunk the forwarding loop sees: from then on it is that
    many zero bytes, whatever chunks and steps follow. *)
Theorem silence_template_matches_first_chunk (s : Sys)
    (audio_chunk : list byte) (delivered : bool) (now : Q)
    (steps : list Step) :
  stop_event (agent s) = false ->
  first_chunk s = true ->
  silent_audio_chunk
    (agent (run steps (step (SForward audio_chunk delivered now) s)))
  = repeat x00 (length audio_chunk).
Proof.
  intros Hs Hfc.
  set (s1 := step (SForward audio_chunk delivered now) s).
  assert (H1 : first_chunk s1 = false
               /\ silent_audio_chunk (agent s1)
                  = repeat x00 (length audio_chunk)).
  { split.
    - subst s1. cbn [step]. rewrite Hs, Hfc. reflexivity.
    - destruct (first_forward_kept audio_chunk delivered now s Hs Hfc)
        as (_ & _ & _ & K4).
      subst s1. rewrite K4. reflexivity. }
  destruct H1 as [F1 T1].
  destruct (run_kept steps s1 F1) as [(_ & _ & _ & K4) _].
  now rewrite K4.
Qed.

Lemma silence_template_matches_first_chunk_witness :
  (stop_event (agent (boot None)) = false
   /\ first_chunk (boot None) = true)
  /\ silent_audio_chunk
       (agent (run [SForward [x05; x06; x07; x08; x09; x0a] true 2%Q;
                    SKeepalive 3%Q true 3%Q]
                 (step (SForward [x01; x02; x03; x04] true 1%Q)
                    (boot None))))
     = repeat x00 (length [x01; x02; x03; x04]).
Proof.
  split; [split; reflexivity |].
  exact (silence_template_matches_first_chunk (boot None)
           [x01; x02; x03; x04] true 1%Q
           [SForward [x05; x06; x07; x08; x09; x0a] true 2%Q;
            SKeepalive 3%Q true 3%Q] eq_refl eq_refl).
Defined.

(* A pass of a loop that finds the stop event set does nothing. *)
Lemma stopped_pass (st : Step) (s : Sys) :
  stop_event (agent s) = true -> loop_pass st = true -> step st s = s.
Proof.
  intros Hs Hl. destruct st; try discriminate; cbn [step]; now rewrite Hs.
Qed.

(** X28.  The stop event is never cleared, and once it is set the passes
    of the forwarding, keepalive, heartbeat and polling loops change
    nothing. *)
Theorem stop_event_silences_the_loops (s : Sys) (steps : list Step) :
  stop_event (agent s) = true ->
  stop_event (agent (run steps s)) = true
  /\ (forallb loop_pass steps = true -> run steps s = s).
Proof.
  intros Hs. split.
  - now apply run_kept_but_template.
  - induction steps as [| st rest IH]; [reflexivity |].
    cbn [forallb]. intros H. apply andb_true_iff in H as [H1 H2].
    cbn [run fold_left]. rewrite (stopped_pass st s Hs H1).
    exact (IH H2).
Qed.

Lemma stop_event_silences_the_loops_witness :
  let s := run [SStart Sample.start_env0; SStop None] (boot None) in
  let steps := [SForward [x01; x02] true 1%Q; SKeepalive 5%Q true 5%Q;
                SHeartbeat true; SPoll None] in
  stop_event (agent s) = true
  /\ stop_event (agent (run steps s)) = true
  /\ (forallb loop_pass steps = true -> run steps s = s).
Proof.
  cbv zeta. split; [reflexivity |].
  exact (stop_event_silences_the_loops
           (run [SStart Sample.start_env0; SStop None] (boot None))
           [SForward [x01; x02] true 1%Q; SKeepalive 5%Q true 5%Q;
            SHeartbeat true; SPoll None] eq_refl).
Defined.

(** X29.  stop() always leaves the stop event set, the agent not running
    and the transport disconnected, sends no audio, and extracts an order
    only when the conversation was finished and none was stored; a stored
    order is kept. *)
Theorem stop_effects (http : option OrderData) (a : VoiceAgent) :
  let a' := stop http a in
  stop_event a' = true /\ is_running a' = false
  /\ is_connected (asr_client a') = false
  /\ wire (asr_client a') = wire (asr_client a)
  /\ extracted_order a'
     = match extracted_order a with
       | Some o => Some o
       | None =>
           if conversation_finished a
           then extracted_order (extract_order http a)
           else None
       end.
Proof.
  cbv zeta. unfold stop.
  destruct a as [c ls sy k ru sp ss sc cf eo se].
  destruct c as [ic lt wi].
  cbn [set_stop_event asr_client is_connected].
  destruct ic, cf, eo as [o |]; cbn; auto;
    unfold extract_order; cbn;
    destruct k as [key |]; cbn; auto;
    destruct (PyStr.truthy key); cbn; auto.
Qed.

End LifecycleFacts.

(** ** Reconnection *)

Module ReconnectFacts.

Import Agent Reconnect ReconnectSpec.

Lemma reconnect_from_wire (remaining attempt : nat) (net : nat -> Attempt)
    (cfg : bool) (c : ASRClient) :
  wire (snd (reconnect_from attempt remaining net cfg c)) = wire c.
Proof.
  revert attempt c. induction remaining as [| k IH]; intros attempt c;
    [reflexivity |].
  cbn [reconnect_from]. unfold connect, disconnect, start_stream.
  destruct (connects (net attempt)); cbn [is_connected negb].
  - destruct (stream (net attempt)); cbn [fst snd].
    + destruct cfg; [| reflexivity]. unfold configure_vad. cbn.
      destruct (vad (net attempt)); reflexivity.
    + rewrite IH. reflexivity.
    + rewrite IH. reflexivity.
  - rewrite IH. reflexivity.
Qed.

Lemma reconnect_from_result (remaining attempt : nat) (net : nat -> Attempt)
    (cfg : bool) (c : ASRClient) :
  fst (reconnect_from attempt remaining net cfg c)
  = existsb (succeeds_at net) (seq attempt remaining).
Proof.
  revert attempt c. induction remaining as [| k IH]; intros attempt c;
    [reflexivity |].
  cbn [reconnect_from seq existsb]. unfold succeeds_at at 1.
  unfold connect, disconnect, start_stream.
  destruct (connects (net attempt)); cbn [is_connected negb andb orb].
  - destruct (stream (net attempt)); cbn [fst snd orb]; auto.
  - apply IH.
Qed.

Lemma reconnect_from_bounded (remaining attempt : nat)
    (net net' : nat -> Attempt) (cfg : bool) (c : ASRClient) :
  (forall i, (attempt <= i < attempt + remaining)%nat -> net i = net' i) ->
  reconnect_from attempt remaining net cfg c
  = reconnect_from attempt remaining net' cfg c.
Proof.
  revert attempt c. induction remaining as [| k IH]; intros attempt c H;
    [reflexivity |].
  cbn [reconnect_from]. rewrite <- (H attempt) by lia.
  destruct (connects (net attempt)).
  - destruct (start_stream _ _) as [got c1]. destruct got; [reflexivity |].
    apply IH. intros i Hi. apply H. lia.
  - apply IH. intros i Hi. apply H. lia.
Qed.

(* After a run of attempts that all failed, the client is marked connected
   exactly when the last attempt connected and had its start refused. *)
Lemma reconnect_from_failed (remaining attempt : nat) (net : nat -> Attempt)
    (cfg : bool) (c : ASRClient) :
  fst (reconnect_from attempt (S remaining) net cfg c) = false ->
  is_connected (snd (reconnect_from attempt (S remaining) net cfg c))
  = refused_at net (attempt + remaining).
Proof.
  revert attempt c. induction remaining as [| k IH]; intros attempt c.
  - cbn [reconnect_from]. rewrite Nat.add_0_r. unfold refused_at.
    unfold connect, disconnect, start_stream.
    destruct (connects (net attempt)); cbn [is_connected negb andb];
      [| reflexivity].
    destruct (stream (net attempt)); cbn [fst snd]; try reflexivity.
    discriminate.
  - remember (S k) as n eqn:En. cbn [reconnect_from].
    replace (attempt + n)%nat with (S attempt + k)%nat by lia.
    destruct (connects (net attempt)).
    + destruct (start_stream _ _) as [got c1]. destruct got;
        [discriminate |].
      subst n. apply IH.
    + subst n. apply IH.
Qed.

(** X30.  _reconnect_asr reports success exactly when one of the attempts
    1, 2, 3 connects and has its start command accepted.  It sends no
    audio, it does not look at the network beyond the third attempt, and
    when it reports failure the client is still marked connected exactly
    when the third attempt connected and had its start refused. *)
Theorem reconnect_outcome (net : nat -> Attempt) (has_vad_config : bool)
    (c : ASRClient) :
  let r := _reconnect_asr net has_vad_config c in
  fst r = existsb (succeeds_at net) [1; 2; 3]%nat
  /\ wire (snd r) = wire c
  /\ (forall net' : nat -> Attempt,
        (forall i, (1 <= i <= 3)%nat -> net i = net' i) ->
        _reconnect_asr net' has_vad_config c = r)
  /\ (fst r = false -> is_connected (snd r) = refused_at net 3).
Proof.
  cbv zeta. unfold _reconnect_asr. repeat split.
  - apply reconnect_from_result.
  - apply reconnect_from_wire.
  - intros net' H. symmetry. apply reconnect_from_bounded.
    intros i Hi. apply H. lia.
  - intros H. exact (reconnect_from_failed 2 1 net has_vad_config c H).
Qed.

End ReconnectFacts.
